(** * Harvia sauna integration: state reconciliation and realtime sessions

    A shallow embedding of [custom_components/harvia_sauna/coordinator.py]
    and [custom_components/harvia_sauna/websocket.py], with the properties
    of the energy integration, the status-code parsing, the fallback poll,
    the push handler and the reconnect backoff; and of the parts of
    [api.py], [entity.py], [config_flow.py], [switch.py], [number.py] and
    [climate.py] that feed them or read them.

    Python values are modelled as follows.
    - [float] is IEEE binary64: Rocq's primitive floats, whose operations
      round exactly as CPython's do.
    - [int] is [Z]; the conversions to [float] raise [OverflowError] where
      CPython's do.
    - [str] is [string]; its characters stand for code points below 256.
    - [dict] with string keys is stdpp's [gmap string].
    - [time.monotonic()] and [random.uniform(0, 1)] are inputs of the
      functions that call them, and so are the answers of the cloud API. *)

From Stdlib Require Import ZArith String Ascii Floats Lia Bool Zpower List.
From stdpp Require Import gmap strings pretty list.
From coqutil Require Import Datatypes.RecordSetters.
Import TriangleBracketNotations.

Set Warnings "-register-all,-inexact-float".

(** * Python values *)

(** The exceptions the modelled code can meet. *)
Inductive exn : Type :=
| KeyError
| IndexError
| ValueError
| TypeError
| AttributeError
| OverflowError
| ZeroDivisionError
| JSONDecodeError
| TimeoutError
| ConnectionClosedError
| ConnectionClosedOK
| CancelledError
| HarviaAuthError
| HarviaConnectionError
| OtherError.

(** [except Exception] catches everything but [CancelledError], which
    derives from [BaseException]. *)
Definition is_Exception (e : exn) : bool :=
  match e with
  | CancelledError => false
  | _ => true
  end.

(** [JSONDecodeError] is a subclass of [ValueError]. *)
Definition is_ValueError (e : exn) : bool :=
  match e with
  | ValueError | JSONDecodeError => true
  | _ => false
  end.

(** A computation that returns a value or raises. *)
Inductive result (A : Type) : Type :=
| Ok (a : A)
| Raise (e : exn).
Arguments Ok {A} a.
Arguments Raise {A} e.

#[global] Instance result_ret : MRet result := fun A a => Ok a.

#[global] Instance result_bind : MBind result := fun A B k r =>
  match r with
  | Ok a => k a
  | Raise e => Raise e
  end.

(** The values [json.loads] produces. *)
Inductive pyval : Type :=
| PNone
| PBool (b : bool)
| PInt (z : Z)
| PFloat (f : float)
| PStr (s : string)
| PList (l : list pyval)
| PDict (m : gmap string pyval).

Abbreviation dict := (gmap string pyval).

(** [bool(v)] *)
Definition py_bool (v : pyval) : bool :=
  match v with
  | PNone => false
  | PBool b => b
  | PInt z => negb (z =? 0)%Z
  | PFloat f => negb (f =? 0)%float
  | PStr s => negb (String.eqb s "")
  | PList l => match l with [] => false | _ => true end
  | PDict m => negb (bool_decide (m = ∅))
  end.

(** [v == s] for a string [s]: only a string equals a string. *)
Definition py_eq_str (v : pyval) (s : string) : bool :=
  match v with
  | PStr s' => String.eqb s' s
  | _ => false
  end.

(** [sub in s] on strings. *)
Fixpoint py_str_contains (sub s : string) : bool :=
  String.prefix sub s ||
  match s with
  | EmptyString => false
  | String _ s' => py_str_contains sub s'
  end.

(** [key in v] *)
Definition py_in (key : string) (v : pyval) : result bool :=
  match v with
  | PDict m => Ok (bool_decide (is_Some (m !! key)))
  | PList l => Ok (existsb (fun x => py_eq_str x key) l)
  | PStr s => Ok (py_str_contains key s)
  | _ => Raise TypeError
  end.

(** [v[key]] for a string [key] *)
Definition py_getitem (v : pyval) (key : string) : result pyval :=
  match v with
  | PDict m => match m !! key with Some x => Ok x | None => Raise KeyError end
  | _ => Raise TypeError
  end.

(** [v.get(key, default)]: only a dict has the method. *)
Definition py_get_default (v : pyval) (key : string) (default : pyval)
  : result pyval :=
  match v with
  | PDict m => Ok (match m !! key with Some x => x | None => default end)
  | _ => Raise AttributeError
  end.

(** [v.get(key)] *)
Definition py_get (v : pyval) (key : string) : result pyval :=
  py_get_default v key PNone.

(** [int(c)] for a one-character string: the decimal digits convert, every
    other character raises [ValueError] (here [None]). *)
Definition py_int_char (c : ascii) : option Z :=
  let n := Z.of_N (N_of_ascii c) in
  if ((48 <=? n) && (n <=? 57))%Z then Some (n - 48)%Z else None.

(** ** Numbers *)

(** An integer as a specification float with exponent zero. *)
Definition SF_of_Z (z : Z) : spec_float :=
  match z with
  | Z0 => S754_zero false
  | Zpos p => S754_finite false p 0
  | Zneg p => S754_finite true p 0
  end.

Definition SF_is_infinity (x : spec_float) : bool :=
  match x with
  | S754_infinity _ => true
  | _ => false
  end.

(** The binary64 nearest to the integer [z] (ties to even). *)
Definition nearest_float (z : Z) : float :=
  SF2Prim (binary_normalize prec emax z 0 false).

(** [float(z)], also the conversion of the int operand of a mixed
    int/float operation: [OverflowError] when [z] is out of range. *)
Definition float_of_Z (z : Z) : result float :=
  if SF_is_infinity (binary_normalize prec emax z 0 false)
  then Raise OverflowError
  else Ok (nearest_float z).

(** [a / b] on two ints: the correctly rounded quotient. *)
Definition int_truediv (a b : Z) : result float :=
  if (b =? 0)%Z then Raise ZeroDivisionError
  else
    let x := SFdiv prec emax (SF_of_Z a) (SF_of_Z b) in
    if SF_is_infinity x then Raise OverflowError else Ok (SF2Prim x).

(** [v / 1000] for a JSON value. *)
Definition py_truediv_1000 (v : pyval) : result float :=
  match v with
  | PInt z => int_truediv z 1000
  | PBool b => int_truediv (if b then 1 else 0) 1000
  | PFloat f => Ok (f / 1000)%float
  | _ => Raise TypeError
  end.

(** [min(x, y)]: the first argument unless the second is smaller. *)
Definition py_min (x y : float) : float :=
  if (y <? x)%float then y else x.

(** * const.py *)

Definition WS_RECONNECT_INTERVAL : Z := 1800.
Definition WS_HEARTBEAT_TIMEOUT : Z := 300.
Definition WS_MAX_RECONNECT_DELAY : Z := 60.
Definition SCAN_INTERVAL_FALLBACK : Z := 300.
Definition CONF_HEATER_MODEL : string := "heater_model".
Definition CONF_HEATER_POWER : string := "heater_power".
Definition DEFAULT_HEATER_POWER_W : Z := 10800.

(** * coordinator.py *)

(** The dataclass [HarviaDeviceData].  A field that the code fills with
    whatever the cloud sent holds a [pyval]. *)
Record HarviaDeviceData : Type := mkHarviaDeviceData {
  device_id : pyval;
  display_name : pyval;
  active : bool;
  lights_on : bool;
  fan_on : bool;
  steam_on : bool;
  steam_enabled : bool;
  aroma_enabled : bool;
  aroma_level : pyval;
  auto_light : bool;
  auto_fan : bool;
  dehumidifier_enabled : bool;
  target_temp : pyval;
  current_temp : pyval;
  target_rh : pyval;
  humidity : pyval;
  temp_unit : pyval;
  heat_up_time : pyval;
  remaining_time : pyval;
  on_time : pyval;
  status_codes : option string;
  door_open : bool;
  heat_on : bool;
  wifi_rssi : pyval;
  timestamp : pyval;
  ph1_relay_counter : pyval;
  ph2_relay_counter : pyval;
  ph3_relay_counter : pyval;
  ph1_relay_counter_lt : pyval;
  ph2_relay_counter_lt : pyval;
  ph3_relay_counter_lt : pyval;
  steam_on_counter : pyval;
  steam_on_counter_lt : pyval;
  heat_on_counter : pyval;
  heat_on_counter_lt : pyval;
  heater_power : Z;
  energy_kwh : float;
  _last_heat_on_timestamp : option float
}.

(** [HarviaDeviceData(device_id=id)]: every other field takes its default. *)
Definition HarviaDeviceData_init (id : pyval) : HarviaDeviceData :=
  {|
    device_id := id;
    display_name := PStr "Harvia Sauna";
    active := false;
    lights_on := false;
    fan_on := false;
    steam_on := false;
    steam_enabled := false;
    aroma_enabled := false;
    aroma_level := PInt 0;
    auto_light := false;
    auto_fan := false;
    dehumidifier_enabled := false;
    target_temp := PNone;
    current_temp := PNone;
    target_rh := PInt 0;
    humidity := PInt 0;
    temp_unit := PInt 0;
    heat_up_time := PInt 0;
    remaining_time := PInt 0;
    on_time := PInt 360;
    status_codes := None;
    door_open := false;
    heat_on := false;
    wifi_rssi := PNone;
    timestamp := PNone;
    ph1_relay_counter := PInt 0;
    ph2_relay_counter := PInt 0;
    ph3_relay_counter := PInt 0;
    ph1_relay_counter_lt := PInt 0;
    ph2_relay_counter_lt := PInt 0;
    ph3_relay_counter_lt := PInt 0;
    steam_on_counter := PInt 0;
    steam_on_counter_lt := PInt 0;
    heat_on_counter := PInt 0;
    heat_on_counter_lt := PInt 0;
    heater_power := DEFAULT_HEATER_POWER_W;
    energy_kwh := 0%float;
    _last_heat_on_timestamp := None
  |}.

(** The dataclass [HarviaSaunaData]. *)
Record HarviaSaunaData : Type := mkHarviaSaunaData {
  devices : gmap string HarviaDeviceData;
  available : bool
}.

(** [HarviaSaunaData()] *)
Definition HarviaSaunaData_init : HarviaSaunaData :=
  {| devices := ∅; available := true |}.

(** [if key in data: device = assign(data[key], device)] *)
Definition if_in {A : Type} (data : dict) (key : string)
    (assign : pyval -> A -> A) (device : A) : A :=
  match data !! key with
  | Some v => assign v device
  | None => device
  end.

(** What a function that mutates its argument leaves behind: the object
    after a normal return, or the exception and the object as it was when
    the exception left the function. *)
Inductive outcome (S : Type) : Type :=
| Done (s : S)
| Raised (e : exn) (s : S).
Arguments Done {S} s.
Arguments Raised {S} e s.

Definition state_of {S : Type} (o : outcome S) : S :=
  match o with
  | Done s | Raised _ s => s
  end.

Definition raised {S : Type} (o : outcome S) : option exn :=
  match o with
  | Done _ => None
  | Raised e _ => Some e
  end.

Section Model.

(** Two library functions stay parameters: [str] on a float, a list or a
    dict, and the JSON decoder ([None] stands for [JSONDecodeError]). *)
Variable str_builtin : pyval -> string.
Variable json_decode : string -> option pyval.

(** [str(v)] *)
Definition py_str (v : pyval) : string :=
  match v with
  | PStr s => s
  | PInt z => pretty z
  | PBool true => "True"
  | PBool false => "False"
  | PNone => "None"
  | _ => str_builtin v
  end.

(** [json.loads(v)] *)
Definition json_loads (v : pyval) : result pyval :=
  match v with
  | PStr s =>
      match json_decode s with
      | Some x => Ok x
      | None => Raise JSONDecodeError
      end
  | _ => Raise TypeError
  end.

(** The [try] block of [_apply_state_data]:
    [device.door_open = int(str(data["statusCodes"])[1]) == 9], with
    [IndexError] and [ValueError] swallowed. *)
Definition parse_door_open (codes : string) (device : HarviaDeviceData)
  : HarviaDeviceData :=
  match String.get 1 codes with
  | None => device
  | Some c =>
      match py_int_char c with
      | None => device
      | Some n => device <| door_open := (n =? 9)%Z |>
      end
  end.

(** [_apply_state_data(device, data)] *)
Definition _apply_state_data (device : HarviaDeviceData) (data : dict)
  : HarviaDeviceData :=
  let device := if_in data "displayName"
    (fun v d => d <| display_name := v |>) device in
  let device := if_in data "deviceId"
    (fun v d => d <| device_id := v |>) device in
  let device := if_in data "active"
    (fun v d => d <| active := py_bool v |>) device in
  let device := if_in data "light"
    (fun v d => d <| lights_on := py_bool v |>) device in
  let device := if_in data "fan"
    (fun v d => d <| fan_on := py_bool v |>) device in
  let device := if_in data "steamEn"
    (fun v d => d <| steam_enabled := py_bool v |>) device in
  let device := if_in data "targetTemp"
    (fun v d => d <| target_temp := v |>) device in
  let device := if_in data "targetRh"
    (fun v d => d <| target_rh := v |>) device in
  let device := if_in data "heatUpTime"
    (fun v d => d <| heat_up_time := v |>) device in
  let device := if_in data "onTime"
    (fun v d => d <| on_time := v |>) device in
  let device := if_in data "tz"
    (fun _ d => d) device in
  let device := if_in data "dehumEn"
    (fun v d => d <| dehumidifier_enabled := py_bool v |>) device in
  let device := if_in data "autoLight"
    (fun v d => d <| auto_light := py_bool v |>) device in
  let device := if_in data "autoFan"
    (fun v d => d <| auto_fan := py_bool v |>) device in
  let device := if_in data "tempUnit"
    (fun v d => d <| temp_unit := v |>) device in
  let device := if_in data "aromaEn"
    (fun v d => d <| aroma_enabled := py_bool v |>) device in
  let device := if_in data "aromaLevel"
    (fun v d => d <| aroma_level := v |>) device in
  let device := if_in data "statusCodes"
    (fun v d =>
       let d := d <| status_codes := Some (py_str v) |> in
       parse_door_open (py_str v) d) device in
  device.

(** The [heatOn] block of [_apply_telemetry_data]: the flag, the energy
    accumulated while heating, and the heat-on-since timestamp.  [now] is
    the reading of [time.monotonic()]. *)
Definition apply_heat_on (now : float) (v : pyval) (device : HarviaDeviceData)
  : outcome HarviaDeviceData :=
  let was_heating := device.(heat_on) in
  let device := device <| heat_on := py_bool v |> in
  let accumulated :=
    match device.(_last_heat_on_timestamp) with
    | Some since =>
        if was_heating then
          let elapsed_hours := ((now - since) / 3600)%float in
          match float_of_Z device.(heater_power) with
          | Ok power =>
              Done (device <| energy_kwh :=
                (device.(energy_kwh) + (power / 1000) * elapsed_hours)%float |>)
          | Raise e => Raised e device
          end
        else Done device
    | None => Done device
    end in
  match accumulated with
  | Done device =>
      if device.(heat_on)
      then Done (device <| _last_heat_on_timestamp := Some now |>)
      else Done (device <| _last_heat_on_timestamp := None |>)
  | Raised e device => Raised e device
  end.

(** The table of the counters' loop: the key and the attribute it sets. *)
Definition COUNTER_ATTRS
  : list (string * (pyval -> HarviaDeviceData -> HarviaDeviceData)) :=
  [ ("ph1RelayCounter", fun v d => d <| ph1_relay_counter := v |>);
    ("ph2RelayCounter", fun v d => d <| ph2_relay_counter := v |>);
    ("ph3RelayCounter", fun v d => d <| ph3_relay_counter := v |>);
    ("ph1RelayCounterLT", fun v d => d <| ph1_relay_counter_lt := v |>);
    ("ph2RelayCounterLT", fun v d => d <| ph2_relay_counter_lt := v |>);
    ("ph3RelayCounterLT", fun v d => d <| ph3_relay_counter_lt := v |>);
    ("steamOnCounter", fun v d => d <| steam_on_counter := v |>);
    ("steamOnCounterLT", fun v d => d <| steam_on_counter_lt := v |>);
    ("heatOnCounter", fun v d => d <| heat_on_counter := v |>);
    ("heatOnCounterLT", fun v d => d <| heat_on_counter_lt := v |>) ].

(** What follows the [heatOn] block in [_apply_telemetry_data]. *)
Definition apply_telemetry_rest (device : HarviaDeviceData) (data : dict)
  : HarviaDeviceData :=
  let device := if_in data "steamOn"
    (fun v d => d <| steam_on := py_bool v |>) device in
  let device := if_in data "remainingTime"
    (fun v d => d <| remaining_time := v |>) device in
  let device := if_in data "targetTemp"
    (fun v d => d <| target_temp := v |>) device in
  let device := if_in data "wifiRSSI"
    (fun v d => d <| wifi_rssi := v |>) device in
  let device := if_in data "timestamp"
    (fun v d => d <| timestamp := v |>) device in
  fold_left (fun d '(key, setattr) => if_in data key setattr d)
    COUNTER_ATTRS device.

(** [_apply_telemetry_data(device, data)], with the clock reading [now]. *)
Definition _apply_telemetry_data (now : float) (device : HarviaDeviceData)
    (data : dict) : outcome HarviaDeviceData :=
  let device := if_in data "temperature"
    (fun v d => d <| current_temp := v |>) device in
  let device := if_in data "humidity"
    (fun v d => d <| humidity := v |>) device in
  match data !! "heatOn" with
  | Some v =>
      match apply_heat_on now v device with
      | Done device => Done (apply_telemetry_rest device data)
      | Raised e device => Raised e device
      end
  | None => Done (apply_telemetry_rest device data)
  end.

(** The coordinator: of the attributes of [HarviaSaunaCoordinator], the
    config entry's [data] mapping and the [data] the base class keeps. *)
Record HarviaSaunaCoordinator : Type := mkHarviaSaunaCoordinator {
  config_entry : gmap string string;
  data : option HarviaSaunaData
}.

(** What the cloud answered during one pass of the poll loop over a device
    of the tree: [device_entry["i"]["name"]], the two fetches, and the clock
    read while the telemetry was applied. *)
Record device_entry : Type := mkdevice_entry {
  entry_name : result string;
  entry_state : result dict;
  entry_telemetry : result dict;
  entry_now : float
}.

(** The body of the [for] loop of [_async_update_data]. *)
Fixpoint poll_devices (device_tree : list device_entry) (sd : HarviaSaunaData)
  : result HarviaSaunaData :=
  match device_tree with
  | [] => Ok sd
  | entry :: device_tree =>
      id ← entry.(entry_name);
      state ← entry.(entry_state);
      telemetry ← entry.(entry_telemetry);
      let device_data := HarviaDeviceData_init (PStr id) in
      let device_data := _apply_state_data device_data state in
      match _apply_telemetry_data entry.(entry_now) device_data telemetry with
      | Done device_data =>
          poll_devices device_tree
            (sd <| devices := <[id := device_data]> sd.(devices) |>)
      | Raised e _ => Raise e
      end
  end.

(** The message [f"{text}: {err}"] of an [UpdateFailed]: the text of the
    [except] clause, and the exception that is formatted in behind the
    colon. *)
Inductive formatted : Type :=
| Formatted (text : string) (err : exn).

(** How [_async_update_data] ends. *)
Inductive update_result : Type :=
| Updated (sd : HarviaSaunaData)
| UpdateFailed (message : formatted)
| Propagated (e : exn).

(** The three [except] clauses of [_async_update_data]. *)
Definition update_failed (err : exn) : update_result :=
  match err with
  | HarviaAuthError => UpdateFailed (Formatted "Authentication error" err)
  | HarviaConnectionError => UpdateFailed (Formatted "Connection error" err)
  | CancelledError => Propagated CancelledError
  | _ => UpdateFailed (Formatted "Error fetching data" err)
  end.

(** [_async_update_data(self)]; [device_tree] is the answer of
    [api.async_get_device_tree()]. *)
Definition _async_update_data (self : HarviaSaunaCoordinator)
    (device_tree : result (list device_entry)) : update_result :=
  let fetched :=
    device_tree ← device_tree;
    sd ← poll_devices device_tree HarviaSaunaData_init;
    Ok (sd <| available := true |>) in
  match fetched with
  | Ok sd => Updated sd
  | Raise e => update_failed e
  end.

(** One refresh of Home Assistant's [DataUpdateCoordinator], the base class:
    it awaits [_async_update_data] and stores what it returns in
    [self.data]; a failed update leaves [self.data] as it was. *)
Definition async_refresh (self : HarviaSaunaCoordinator)
    (device_tree : result (list device_entry)) : HarviaSaunaCoordinator :=
  match _async_update_data self device_tree with
  | Updated sd => self <| data := Some sd |>
  | _ => self
  end.

(** [device_id and device_id in devs], then [devs[device_id]]: the known
    device a push names, if any.  A list or a dict is unhashable. *)
Definition known_device (device_id : pyval)
    (devs : gmap string HarviaDeviceData)
  : result (option (string * HarviaDeviceData)) :=
  if py_bool device_id then
    match device_id with
    | PStr id =>
        Ok (match devs !! id with
            | Some device => Some (id, device)
            | None => None
            end)
    | PList _ | PDict _ => Raise TypeError
    | _ => Ok None
    end
  else Ok None.

(** [self.data.devices[id]] after the device object was mutated in place. *)
Definition store_device (sd : HarviaSaunaData) (id : string)
    (device : HarviaDeviceData) : HarviaSaunaData :=
  sd <| devices := <[id := device]> sd.(devices) |>.

(** The body of [_async_handle_ws_update] once [self.data] is there: the
    data afterwards and the flag [updated]. *)
Definition handle_ws_update (now : float) (sd : HarviaSaunaData)
    (payload_data : pyval) : result (outcome HarviaSaunaData * bool) :=
  has_state ← py_in "onStateUpdated" payload_data;
  if has_state : bool then
    body ← py_getitem payload_data "onStateUpdated";
    reported ← py_get body "reported";
    if py_bool reported then
      state ← json_loads reported;
      device_id ← py_get state "deviceId";
      known ← known_device device_id sd.(devices);
      match known, state with
      | Some (id, device), PDict state =>
          Ok (Done (store_device sd id (_apply_state_data device state)), true)
      | _, _ => Ok (Done sd, false)
      end
    else Ok (Done sd, false)
  else
    has_data ← py_in "onDataUpdates" payload_data;
    if has_data : bool then
      body ← py_getitem payload_data "onDataUpdates";
      item ← py_get_default body "item" (PDict ∅);
      device_id ← py_get item "deviceId";
      known ← known_device device_id sd.(devices);
      match known, item with
      | Some (id, device), PDict item =>
          (* [json.loads(item.get("data", "{}"))]: the default decodes to
             the empty dict *)
          telemetry ← match item !! "data" with
                      | Some v => json_loads v
                      | None => Ok (PDict ∅)
                      end;
          match telemetry with
          | PDict telemetry =>
              let telemetry :=
                <["timestamp" := default PNone (item !! "timestamp")]>
                  telemetry in
              match _apply_telemetry_data now device telemetry with
              | Done device => Ok (Done (store_device sd id device), true)
              | Raised e device =>
                  Ok (Raised e (store_device sd id device), false)
              end
          | _ => Raise TypeError
          end
      | _, _ => Ok (Done sd, false)
      end
    else Ok (Done sd, false).

(** [_async_handle_ws_update(self, payload_data)]: the coordinator
    afterwards, and whether [async_set_updated_data] was called. *)
Definition _async_handle_ws_update (now : float)
    (self : HarviaSaunaCoordinator) (payload_data : pyval)
  : outcome HarviaSaunaCoordinator * bool :=
  match self.(data) with
  | None => (Done self, false)
  | Some sd =>
      match handle_ws_update now sd payload_data with
      | Ok (Done sd, updated) => (Done (self <| data := Some sd |>), updated)
      | Ok (Raised e sd, updated) =>
          (Raised e (self <| data := Some sd |>), updated)
      | Raise e => (Raised e self, false)
      end
  end.

(** * websocket.py *)

(** [HarviaWebSocketManager._handle_message], with the callback
    [on_device_update] that [HarviaSaunaCoordinator.async_setup] installs:
    [_async_handle_ws_update]. *)
Definition _handle_message (now : float) (self : HarviaSaunaCoordinator)
    (endpoint : string) (message : pyval)
  : outcome HarviaSaunaCoordinator * bool :=
  let routed :=
    msg_type ← py_get message "type";
    if py_eq_str msg_type "data" then
      payload ← py_get_default message "payload" (PDict ∅);
      payload_data ← py_get_default payload "data" (PDict ∅);
      Ok (Some payload_data)
    else Ok None in
  match routed with
  | Ok (Some payload_data) => _async_handle_ws_update now self payload_data
  | Ok None => (Done self, false)
  | Raise e => (Raised e self, false)
  end.

(** The attributes of a [HarviaWebSocket]; [_websocket] tells whether a
    connection object is held. *)
Record HarviaWebSocket : Type := mkHarviaWebSocket {
  _endpoint : string;
  _receiver : string;
  _is_user_receiver : bool;
  _websocket : bool;
  _running : bool;
  _reconnect_attempts : Z;
  _subscription_id : string
}.

(** [HarviaWebSocket.__init__]; [uuid] is the identifier [uuid.uuid4()]
    drew. *)
Definition HarviaWebSocket_init (endpoint receiver : string)
    (is_user_receiver : bool) (uuid : string) : HarviaWebSocket :=
  {| _endpoint := endpoint;
     _receiver := receiver;
     _is_user_receiver := is_user_receiver;
     _websocket := false;
     _running := false;
     _reconnect_attempts := 0;
     _subscription_id := uuid |}.

(** [HarviaWebSocket.async_stop]; a failing send or close is swallowed. *)
Definition session_stop (self : HarviaWebSocket) : HarviaWebSocket :=
  self <| _running := false |> <| _websocket := false |>.

(** The local variables of [_async_connect_and_listen] that live across
    the receive loop. *)
Record listen_state : Type := mklisten_state {
  timeout : float;
  reconnect_timer : float
}.

(** What can happen while the loop is suspended in
    [asyncio.wait_for(websocket.recv(), timeout=timeout)]. *)
Inductive recv_event : Type :=
| RecvTimeout
| RecvClosedError
| RecvRaise (e : exn)
| RecvMessage (raw_message : string) (subscribe : result unit)
| StopRequested.

Inductive loop_ctl : Type := Continue | Break.

Section Session.

(** The state behind the callback [on_message], and the callback: the
    state afterwards and the exception it raised, if any. *)
Context {C : Type}.
Variable on_message : C -> string -> pyval -> C * option exn.

(** The branch [msg_type == "connection_ack"] up to the subscription: the
    timeout the server asks for, in seconds. *)
Definition ack_timeout (message : pyval) (ls : listen_state)
  : result listen_state :=
  payload ← py_get message "payload";
  if py_bool payload then
    ms ← py_getitem payload "connectionTimeoutMs";
    seconds ← py_truediv_1000 ms;
    Ok (ls <| timeout := seconds |>)
  else Ok ls.

(** One pass of the body of the receive loop after a frame arrived.
    [subscribe] is how [_async_create_subscription] ends when it is
    awaited. *)
Definition handle_frame (self : HarviaWebSocket) (ls : listen_state) (c : C)
    (raw_message : string) (subscribe : result unit)
  : C * result (listen_state * loop_ctl) :=
  match json_loads (PStr raw_message) with
  | Raise e => (c, Raise e)
  | Ok message =>
      match py_get message "type" with
      | Raise e => (c, Raise e)
      | Ok msg_type =>
          if py_eq_str msg_type "ka" then
            let ls := ls <| reconnect_timer :=
              (ls.(reconnect_timer) + ls.(timeout))%float |> in
            if (nearest_float WS_RECONNECT_INTERVAL <=? ls.(reconnect_timer))%float
            then (c, Ok (ls, Break))
            else (c, Ok (ls, Continue))
          else if py_eq_str msg_type "connection_ack" then
            (c, ls ← ack_timeout message ls;
                _ ← subscribe;
                Ok (ls, Continue))
          else if py_eq_str msg_type "data" then
            let '(c, err) := on_message c self.(_endpoint) message in
            match err with
            | Some e => (c, Raise e)
            | None => (c, Ok (ls, Continue))
            end
          else (c, Ok (ls, Continue))
      end
  end.

(** How the receive loop ends: the [while] condition failed, a [break], an
    exception, or, when the events run out, it is still waiting. *)
Inductive loop_end : Type :=
| LoopExit
| LoopBreak
| LoopRaise (e : exn)
| LoopPending.

Record listened : Type := mklistened {
  listened_end : loop_end;
  listened_self : HarviaWebSocket;
  listened_state : listen_state;
  listened_callback : C;
  (** the [timeout] of every [wait_for] that was started, oldest first *)
  listened_receives : list float
}.

(** The loop suspended in a [wait_for] already counted in [receives]. *)
Fixpoint await_recv (self : HarviaWebSocket) (ls : listen_state) (c : C)
    (receives : list float) (events : list recv_event) : listened :=
  match events with
  | [] => mklistened LoopPending self ls c receives
  | StopRequested :: events =>
      await_recv (session_stop self) ls c receives events
  | RecvTimeout :: _ => mklistened LoopBreak self ls c receives
  | RecvClosedError :: _ => mklistened LoopBreak self ls c receives
  | RecvRaise e :: _ => mklistened (LoopRaise e) self ls c receives
  | RecvMessage raw_message subscribe :: events =>
      match handle_frame self ls c raw_message subscribe with
      | (c, Raise e) => mklistened (LoopRaise e) self ls c receives
      | (c, Ok (ls, Break)) => mklistened LoopBreak self ls c receives
      | (c, Ok (ls, Continue)) =>
          if self.(_running)
          then await_recv self ls c (receives ++ [ls.(timeout)]) events
          else mklistened LoopExit self ls c receives
      end
  end.

(** [while self._running: ...] from its first test on. *)
Definition receive_loop (self : HarviaWebSocket) (ls : listen_state) (c : C)
    (events : list recv_event) : listened :=
  if self.(_running)
  then await_recv self ls c [ls.(timeout)] events
  else mklistened LoopExit self ls c [].

(** What the environment does during one call of
    [_async_connect_and_listen]. *)
Record connect_env : Type := mkconnect_env {
  env_ws_info : result unit;
  env_url : result unit;
  env_uuid : string;
  env_connect : result unit;
  env_send_init : result unit;
  env_events : list recv_event
}.

(** How a call of [_async_connect_and_listen] ends. *)
Inductive attempt_end : Type :=
| Returned
| Failed (e : exn)
| StillListening.

(** [timeout = WS_HEARTBEAT_TIMEOUT] and [reconnect_timer = 0]: the two
    locals of the receive loop.  [timeout] is only ever passed to
    [asyncio.wait_for] and added to, so the integer 300 is held as the float
    300.0 of the same value. *)
Definition initial_listen_state : listen_state :=
  {| timeout := nearest_float WS_HEARTBEAT_TIMEOUT; reconnect_timer := 0 |}.

(** [_async_connect_and_listen(self)] *)
Definition _async_connect_and_listen (self : HarviaWebSocket) (c : C)
    (env : connect_env) : HarviaWebSocket * C * attempt_end * list float :=
  match env.(env_ws_info), env.(env_url) with
  | Raise e, _ | Ok _, Raise e => (self, c, Failed e, [])
  | Ok _, Ok _ =>
      let self := self <| _subscription_id := env.(env_uuid) |> in
      match env.(env_connect) with
      | Raise e => (self, c, Failed e, [])
      | Ok _ =>
          let self := self <| _websocket := true |> in
          let self := self <| _reconnect_attempts := 0%Z |> in
          match env.(env_send_init) with
          | Raise e => (self, c, Failed e, [])
          | Ok _ =>
              let l := receive_loop self initial_listen_state c
                         env.(env_events) in
              let self := l.(listened_self) in
              let c := l.(listened_callback) in
              match l.(listened_end) with
              | LoopExit | LoopBreak =>
                  (self <| _websocket := false |>, c, Returned,
                   l.(listened_receives))
              | LoopRaise e => (self, c, Failed e, l.(listened_receives))
              | LoopPending => (self, c, StillListening, l.(listened_receives))
              end
          end
      end
  end.

(** How one pass of the loop of [async_run] ends: asleep for [delay]
    seconds before the next attempt, out of the loop, an exception out of
    [async_run], or still inside [_async_connect_and_listen]. *)
Inductive run_end : Type :=
| Sleeping (delay : float)
| Exited
| Crashed (e : exn)
| Connected.

(** The backoff of [async_run]: the delay and the counter afterwards.
    [jitter] is what [random.uniform(0, 1)] drew. *)
Definition backoff (self : HarviaWebSocket) (jitter : float)
  : HarviaWebSocket * run_end :=
  match float_of_Z (2 ^ self.(_reconnect_attempts)) with
  | Raise e => (self, Crashed e)
  | Ok curve =>
      let delay :=
        py_min (curve + jitter)%float (nearest_float WS_MAX_RECONNECT_DELAY) in
      (self <| _reconnect_attempts := (self.(_reconnect_attempts) + 1)%Z |>,
       Sleeping delay)
  end.

(** One pass of [while self._running: ...] in [async_run]. *)
Definition async_run_pass (self : HarviaWebSocket) (c : C)
    (env : connect_env) (jitter : float) : HarviaWebSocket * C * run_end :=
  if self.(_running) then
    let '(self, c, ended, _) := _async_connect_and_listen self c env in
    match ended with
    | StillListening => (self, c, Connected)
    | Failed CancelledError => (self, c, Exited)
    | Failed _ | Returned =>
        if self.(_running)
        then let '(self, r) := backoff self jitter in (self, c, r)
        else (self, c, Exited)
    end
  else (self, c, Exited).

(** [async_run(self)] over the passes the environment allows: the delays
    slept, oldest first, and how the last pass ended. *)
Fixpoint run_passes (self : HarviaWebSocket) (c : C)
    (envs : list (connect_env * float))
  : HarviaWebSocket * C * list float * run_end :=
  match envs with
  | [] => (self, c, [], Connected)
  | (env, jitter) :: envs =>
      match async_run_pass self c env jitter with
      | (self, c, Sleeping delay) =>
          let '(self, c, delays, r) := run_passes self c envs in
          (self, c, delay :: delays, r)
      | (self, c, r) => (self, c, [], r)
      end
  end.

Definition async_run (self : HarviaWebSocket) (c : C)
    (envs : list (connect_env * float))
  : HarviaWebSocket * C * list float * run_end :=
  run_passes (self <| _running := true |>) c envs.

(** The manager: its sessions and, for the task that runs each session, the
    locals of the receive loop the task is suspended in, if it is in one. *)
Record HarviaWebSocketManager : Type := mkHarviaWebSocketManager {
  _connections : list HarviaWebSocket;
  _tasks : list (option listen_state);
  manager_running : bool
}.

(** [HarviaWebSocketManager.__init__] *)
Definition HarviaWebSocketManager_init : HarviaWebSocketManager :=
  {| _connections := []; _tasks := []; manager_running := false |}.

(** The four connections of [async_start]. *)
Definition connection_configs (organization_id email : string)
  : list (string * string * bool) :=
  [ ("device", organization_id, false);
    ("device", email, true);
    ("data", organization_id, false);
    ("data", email, true) ].

(** [HarviaWebSocketManager.async_start]; [uuid k] is the identifier the
    [k]-th session drew. *)
Definition async_start (self : HarviaWebSocketManager)
    (organization_id email : string) (uuid : nat -> string)
  : HarviaWebSocketManager :=
  if self.(manager_running) then self
  else
    let sessions :=
      imap (fun k '(endpoint, receiver, is_user) =>
              HarviaWebSocket_init endpoint receiver is_user (uuid k))
        (connection_configs organization_id email) in
    {| _connections := self.(_connections) ++ sessions;
       _tasks := self.(_tasks) ++ ((fun _ => None) <$> sessions);
       manager_running := true |}.

(** The task of session [i] went through [async_run] and
    [_async_connect_and_listen] up to the receive loop. *)
Definition task_listening (i : nat) (self : HarviaWebSocketManager)
  : HarviaWebSocketManager :=
  self
    <| _connections :=
         alter (fun ws => ws <| _running := true |> <| _websocket := true |>
                             <| _reconnect_attempts := 0%Z |>)
           i self.(_connections) |>
    <| _tasks := alter (fun _ => Some initial_listen_state) i self.(_tasks) |>.

(** A frame arrives for the task of session [i] while it waits in its
    receive loop: the body of that loop runs once, on that task's locals. *)
Definition deliver_frame (i : nat) (raw_message : string)
    (subscribe : result unit) (self : HarviaWebSocketManager) (c : C)
  : HarviaWebSocketManager * C :=
  match self.(_connections) !! i, self.(_tasks) !! i with
  | Some ws, Some (Some ls) =>
      match handle_frame ws ls c raw_message subscribe with
      | (c, Ok (ls, Continue)) =>
          (self <| _tasks := <[i := Some ls]> self.(_tasks) |>, c)
      | (c, _) => (self <| _tasks := <[i := None]> self.(_tasks) |>, c)
      end
  | _, _ => (self, c)
  end.

End Session.

End Model.

(** * const.py, continued *)

Definition DOMAIN : string := "harvia_sauna".
Definition MANUFACTURER : string := "Harvia".
Definition ENDPOINTS : list string := ["users"; "device"; "events"; "data"].

Definition HEATER_MODELS : gmap string string :=
  list_to_map
    [ ("kip", "Harvia KIP");
      ("cilindro", "Harvia Cilindro");
      ("spirit", "Harvia Spirit");
      ("club", "Harvia Club");
      ("virta", "Harvia Virta");
      ("virta_combi", "Harvia Virta Combi");
      ("virta_pro", "Harvia Virta Pro");
      ("legend", "Harvia Legend");
      ("senator", "Harvia Senator");
      ("forte", "Harvia Forte");
      ("pro", "Harvia Pro");
      ("other", "Other / Unknown") ].

(** * Python values, continued *)

(** [v[0]] *)
Definition py_getitem_0 (v : pyval) : result pyval :=
  match v with
  | PList (x :: _) => Ok x
  | PList [] => Raise IndexError
  | PStr (String c _) => Ok (PStr (String c ""))
  | PStr EmptyString => Raise IndexError
  | PDict _ => Raise KeyError
  | _ => Raise TypeError
  end.

(** [v[key] = x] for a string [key]: only a dict takes it. *)
Definition py_setitem (v : pyval) (key : string) (x : pyval) : result pyval :=
  match v with
  | PDict m => Ok (PDict (<[key := x]> m))
  | _ => Raise TypeError
  end.

(** [int(f)] on a float: the integer part, towards zero. *)
Definition py_int_float (f : float) : result Z :=
  match Prim2SF f with
  | S754_nan => Raise ValueError
  | S754_infinity _ => Raise OverflowError
  | S754_zero _ => Ok 0%Z
  | S754_finite s m e =>
      Ok (cond_Zopp s
            (if (0 <=? e)%Z then Z.pos m * 2 ^ e else Z.pos m / 2 ^ (- e)))%Z
  end.

(** * api.py *)

Module api.

(** Of the attributes of [HarviaApiClient], the cache of the endpoints. *)
Record HarviaApiClient : Type := mkHarviaApiClient {
  _endpoints : option dict
}.

(** [HarviaApiClient.__init__] *)
Definition HarviaApiClient_init : HarviaApiClient :=
  {| _endpoints := None |}.

(** The [for] loop of [async_get_endpoints] over the endpoints still to
    fetch.  [fetch endpoint] is how [session.get(url)] and
    [response.json()] end for the URL of [endpoint]; what the loop leaves in
    [self._endpoints], and the exception that left it, if any. *)
Fixpoint fetch_endpoints (fetch : string -> result pyval)
    (todo : list string) (endpoints : dict) : dict * option exn :=
  match todo with
  | [] => (endpoints, None)
  | endpoint :: todo =>
      match fetch endpoint with
      | Ok response =>
          fetch_endpoints fetch todo (<[endpoint := response]> endpoints)
      | Raise err =>
          (endpoints,
           Some (if is_Exception err then HarviaConnectionError else err))
      end
  end.

(** [async_get_endpoints(self)] *)
Definition async_get_endpoints (self : HarviaApiClient)
    (fetch : string -> result pyval) : HarviaApiClient * result dict :=
  match self.(_endpoints) with
  | Some endpoints => (self, Ok endpoints)
  | None =>
      let '(endpoints, raised) := fetch_endpoints fetch ENDPOINTS ∅ in
      let self := self <| _endpoints := Some endpoints |> in
      match raised with
      | Some err => (self, Raise err)
      | None => (self, Ok endpoints)
      end
  end.

(** [endpoints[endpoint]["endpoint"]], the URL that
    [async_graphql_request] and [async_get_websocket_info] read from the
    cache. *)
Definition endpoint_url (endpoints : dict) (endpoint : string)
  : result pyval :=
  match endpoints !! endpoint with
  | Some entry => py_getitem entry "endpoint"
  | None => Raise KeyError
  end.

Section Decoded.

Variable json_decode : string -> option pyval.

(** [async_get_device_tree(self)]; [response] is how
    [async_graphql_request("device", query)] ended. *)
Definition async_get_device_tree (response : result pyval) : result pyval :=
  result ← response;
  has_data ← py_in "data" result;
  if negb has_data then Ok (PList [])
  else
    data ← py_getitem result "data";
    has_tree ← py_in "getDeviceTree" data;
    if negb has_tree then Ok (PList [])
    else
      data ← py_getitem result "data";
      tree ← py_getitem data "getDeviceTree";
      tree_data ← json_loads json_decode tree;
      if negb (py_bool tree_data) then Ok (PList [])
      else
        root ← py_getitem_0 tree_data;
        py_get_default root "c" (PList []).

(** [async_get_latest_device_data(self, device_id)]; [response] is how
    [async_graphql_request("data", query)] ended. *)
Definition async_get_latest_device_data (response : result pyval)
  : result pyval :=
  data ← response;
  data ← py_getitem data "data";
  latest ← py_getitem data "getLatestData";
  raw ← py_getitem latest "data";
  device_data ← json_loads json_decode raw;
  timestamp ← py_getitem latest "timestamp";
  device_data ← py_setitem device_data "timestamp" timestamp;
  type ← py_getitem latest "type";
  device_data ← py_setitem device_data "type" type;
  Ok device_data.

End Decoded.

End api.

(** * websocket.py, continued *)

(** [HarviaWebSocketManager.async_start] from its first line on.
    [user_data] is how [api.async_get_user_data()] and the subscripts
    ["organizationId"] and ["email"] ended; [uuid k] is the identifier the
    [k]-th session drew. *)
Definition async_start_fetching (self : HarviaWebSocketManager)
    (user_data : result (string * string)) (uuid : nat -> string)
  : outcome HarviaWebSocketManager :=
  if self.(manager_running) then Done self
  else
    let self := self <| manager_running := true |> in
    match user_data with
    | Raise e => Raised e self
    | Ok (organization_id, email) =>
        let sessions :=
          imap (fun k '(endpoint, receiver, is_user) =>
                  HarviaWebSocket_init endpoint receiver is_user (uuid k))
            (connection_configs organization_id email) in
        Done (self <| _connections := self.(_connections) ++ sessions |>
                   <| _tasks := self.(_tasks) ++ ((fun _ => None) <$> sessions) |>)
    end.

(** * entity.py *)

Module entity.

(** [HarviaBaseEntity._get_device_data]; [coordinator] and [_device_id] are
    the attributes of the entity. *)
Definition _get_device_data (coordinator : HarviaSaunaCoordinator)
    (_device_id : string) : option HarviaDeviceData :=
  match coordinator.(data) with
  | None => None
  | Some sd => sd.(devices) !! _device_id
  end.

(** [HarviaBaseEntity.available]; [super_available] is what
    [CoordinatorEntity.available] answers. *)
Definition available (super_available : bool)
    (coordinator : HarviaSaunaCoordinator) (_device_id : string) : bool :=
  super_available &&
  match coordinator.(data) with
  | None => false
  | Some sd =>
      sd.(available) && bool_decide (is_Some (sd.(devices) !! _device_id))
  end.

(** Home Assistant's [DeviceInfo], with the entries this code fills. *)
Record DeviceInfo : Type := mkDeviceInfo {
  identifiers : list (string * string);
  name : pyval;
  manufacturer : string;
  model : string
}.

(** [HarviaBaseEntity.device_info]; a coordinator without a config entry
    has the empty mapping as [config_entry]. *)
Definition device_info (coordinator : HarviaSaunaCoordinator)
    (_device_id : string) : DeviceInfo :=
  let device_data := _get_device_data coordinator _device_id in
  let config_data := coordinator.(config_entry) in
  let model_key := default "other" (config_data !! CONF_HEATER_MODEL) in
  let model_name := default "Harvia Sauna" (HEATER_MODELS !! model_key) in
  let power_kw := default "" (config_data !! CONF_HEATER_POWER) in
  let model_string :=
    if negb (String.eqb power_kw "")
    then model_name +:+ " " +:+ power_kw +:+ " kW"
    else model_name in
  {| identifiers := [(DOMAIN, _device_id)];
     name := match device_data with
             | Some device_data => device_data.(display_name)
             | None => PStr "Harvia Sauna"
             end;
     manufacturer := MANUFACTURER;
     model := model_string |}.

End entity.

(** * config_flow.py *)

Module config_flow.

(** The attributes of [HarviaSaunaConfigFlow]. *)
Record HarviaSaunaConfigFlow : Type := mkHarviaSaunaConfigFlow {
  _user_input : gmap string string;
  _user_data : pyval
}.

(** The results of a step that this code builds. *)
Inductive ConfigFlowResult : Type :=
| show_form (step_id : string) (errors : gmap string string)
| create_entry (title : string) (data : gmap string string).

(** [v[key]] on the mapping of a form. *)
Definition input_getitem (user_input : gmap string string) (key : string)
  : result string :=
  match user_input !! key with
  | Some v => Ok v
  | None => Raise KeyError
  end.

(** [async_step_heater(self, user_input)]; [unique] is how
    [async_set_unique_id] and [_abort_if_unique_id_configured] ended. *)
Definition async_step_heater (self : HarviaSaunaConfigFlow)
    (user_input : option (gmap string string)) (unique : result unit)
  : result ConfigFlowResult :=
  match user_input with
  | Some user_input =>
      let full_data := user_input ∪ self.(_user_input) in
      _ ← py_getitem self.(_user_data) "email";
      _ ← unique;
      model_key ← input_getitem user_input CONF_HEATER_MODEL;
      let model_name := default "Harvia Sauna" (HEATER_MODELS !! model_key) in
      power ← input_getitem user_input CONF_HEATER_POWER;
      let title := model_name +:+ " " +:+ power +:+ " kW" in
      Ok (create_entry title full_data)
  | None => Ok (show_form "heater" ∅)
  end.

End config_flow.

(** * The optimistic updates of the platforms *)

(** [device = self._get_device_data(); if device: device = update(device)]:
    the record of the entity's device, mutated in place inside the
    coordinator's data, and whether there was one. *)
Definition update_device (coordinator : HarviaSaunaCoordinator)
    (_device_id : string) (update : HarviaDeviceData -> HarviaDeviceData)
  : HarviaSaunaCoordinator * bool :=
  match coordinator.(data) with
  | None => (coordinator, false)
  | Some sd =>
      match sd.(devices) !! _device_id with
      | Some device =>
          (coordinator <| data := Some (store_device sd _device_id (update device)) |>,
           true)
      | None => (coordinator, false)
      end
  end.

(** A command of a platform: [coordinator.async_request_state_change] is
    awaited with [payload], then the record is updated and
    [async_write_ha_state] is called, if there is a record.  [request] is
    how the request ends for a device and a payload; the result is the
    coordinator afterwards and whether the state was written. *)
Definition command (coordinator : HarviaSaunaCoordinator)
    (_device_id : string) (request : string -> dict -> result unit)
    (payload : dict) (update : HarviaDeviceData -> HarviaDeviceData)
  : outcome HarviaSaunaCoordinator * bool :=
  match request _device_id payload with
  | Raise e => (Raised e coordinator, false)
  | Ok _ =>
      let '(coordinator, written) :=
        update_device coordinator _device_id update in
      (Done coordinator, written)
  end.

(** * switch.py *)

Module switch.

(** The attributes of [HarviaDeviceData] that the descriptions name in
    [state_attr]. *)
Inductive state_attr_name : Type :=
| attr_active
| attr_lights_on
| attr_fan_on
| attr_steam_enabled
| attr_aroma_enabled
| attr_auto_light
| attr_auto_fan
| attr_dehumidifier_enabled.

(** [getattr(device, attr, False)] *)
Definition getattr (device : HarviaDeviceData) (attr : state_attr_name)
  : bool :=
  match attr with
  | attr_active => device.(active)
  | attr_lights_on => device.(lights_on)
  | attr_fan_on => device.(fan_on)
  | attr_steam_enabled => device.(steam_enabled)
  | attr_aroma_enabled => device.(aroma_enabled)
  | attr_auto_light => device.(auto_light)
  | attr_auto_fan => device.(auto_fan)
  | attr_dehumidifier_enabled => device.(dehumidifier_enabled)
  end.

(** [setattr(device, attr, value)] *)
Definition setattr (attr : state_attr_name) (value : bool)
    (device : HarviaDeviceData) : HarviaDeviceData :=
  match attr with
  | attr_active => device <| active := value |>
  | attr_lights_on => device <| lights_on := value |>
  | attr_fan_on => device <| fan_on := value |>
  | attr_steam_enabled => device <| steam_enabled := value |>
  | attr_aroma_enabled => device <| aroma_enabled := value |>
  | attr_auto_light => device <| auto_light := value |>
  | attr_auto_fan => device <| auto_fan := value |>
  | attr_dehumidifier_enabled => device <| dehumidifier_enabled := value |>
  end.

Record HarviaSwitchDescription : Type := mkHarviaSwitchDescription {
  key : string;
  api_key : string;
  state_attr : state_attr_name;
  icon_on : string;
  icon_off : string
}.

Definition SWITCH_DESCRIPTIONS : list HarviaSwitchDescription :=
  [ {| key := "power"; api_key := "active"; state_attr := attr_active;
       icon_on := "mdi:radiator"; icon_off := "mdi:radiator-off" |};
    {| key := "light"; api_key := "light"; state_attr := attr_lights_on;
       icon_on := "mdi:lightbulb-on"; icon_off := "mdi:lightbulb-off" |};
    {| key := "fan"; api_key := "fan"; state_attr := attr_fan_on;
       icon_on := "mdi:fan"; icon_off := "mdi:fan-off" |};
    {| key := "steamer"; api_key := "steamEn";
       state_attr := attr_steam_enabled;
       icon_on := "mdi:weather-fog"; icon_off := "mdi:weather-fog" |};
    {| key := "aroma"; api_key := "aromaEn";
       state_attr := attr_aroma_enabled;
       icon_on := "mdi:flower"; icon_off := "mdi:flower-outline" |};
    {| key := "auto_light"; api_key := "autoLight";
       state_attr := attr_auto_light;
       icon_on := "mdi:lightbulb-auto";
       icon_off := "mdi:lightbulb-auto-outline" |};
    {| key := "auto_fan"; api_key := "autoFan"; state_attr := attr_auto_fan;
       icon_on := "mdi:fan-auto"; icon_off := "mdi:fan-auto" |};
    {| key := "dehumidifier"; api_key := "dehumEn";
       state_attr := attr_dehumidifier_enabled;
       icon_on := "mdi:air-humidifier";
       icon_off := "mdi:air-humidifier-off" |} ].

(** [HarviaSwitch.is_on] *)
Definition is_on (description : HarviaSwitchDescription)
    (coordinator : HarviaSaunaCoordinator) (_device_id : string)
  : option bool :=
  match entity._get_device_data coordinator _device_id with
  | None => None
  | Some device => Some (getattr device description.(state_attr))
  end.

(** The payload of [async_turn_on] and of [async_turn_off]. *)
Definition turn_payload (description : HarviaSwitchDescription) (on : bool)
  : dict :=
  {[ description.(api_key) := PInt (if on then 1 else 0) ]}.

(** [HarviaSwitch.async_turn_on] *)
Definition async_turn_on (description : HarviaSwitchDescription)
    (coordinator : HarviaSaunaCoordinator) (_device_id : string)
    (request : string -> dict -> result unit)
  : outcome HarviaSaunaCoordinator * bool :=
  command coordinator _device_id request (turn_payload description true)
    (setattr description.(state_attr) true).

(** [HarviaSwitch.async_turn_off] *)
Definition async_turn_off (description : HarviaSwitchDescription)
    (coordinator : HarviaSaunaCoordinator) (_device_id : string)
    (request : string -> dict -> result unit)
  : outcome HarviaSaunaCoordinator * bool :=
  command coordinator _device_id request (turn_payload description false)
    (setattr description.(state_attr) false).

End switch.

(** * number.py *)

Module number.

(** The attributes of [HarviaDeviceData] that the descriptions name in
    [state_attr]. *)
Inductive state_attr_name : Type :=
| attr_target_rh
| attr_aroma_level
| attr_on_time.

(** [setattr(device, attr, value)] *)
Definition setattr (attr : state_attr_name) (value : pyval)
    (device : HarviaDeviceData) : HarviaDeviceData :=
  match attr with
  | attr_target_rh => device <| target_rh := value |>
  | attr_aroma_level => device <| aroma_level := value |>
  | attr_on_time => device <| on_time := value |>
  end.

Record HarviaNumberDescription : Type := mkHarviaNumberDescription {
  key : string;
  native_min_value : Z;
  native_max_value : Z;
  native_step : Z;
  api_key : string;
  state_attr : state_attr_name;
  value_fn : HarviaDeviceData -> pyval
}.

Definition NUMBER_DESCRIPTIONS : list HarviaNumberDescription :=
  [ {| key := "target_humidity";
       native_min_value := 0; native_max_value := 100; native_step := 1;
       api_key := "targetRh"; state_attr := attr_target_rh;
       value_fn := fun d => d.(target_rh) |};
    {| key := "aroma_level";
       native_min_value := 0; native_max_value := 100; native_step := 1;
       api_key := "aromaLevel"; state_attr := attr_aroma_level;
       value_fn := fun d => d.(aroma_level) |};
    {| key := "on_time";
       native_min_value := 0; native_max_value := 720; native_step := 1;
       api_key := "onTime"; state_attr := attr_on_time;
       value_fn := fun d => d.(on_time) |} ].

(** [HarviaNumber.native_value] *)
Definition native_value (description : HarviaNumberDescription)
    (coordinator : HarviaSaunaCoordinator) (_device_id : string)
  : option pyval :=
  match entity._get_device_data coordinator _device_id with
  | None => None
  | Some device => Some (description.(value_fn) device)
  end.

(** [HarviaNumber.async_set_native_value] *)
Definition async_set_native_value (description : HarviaNumberDescription)
    (coordinator : HarviaSaunaCoordinator) (_device_id : string)
    (request : string -> dict -> result unit) (value : float)
  : outcome HarviaSaunaCoordinator * bool :=
  match py_int_float value with
  | Raise e => (Raised e coordinator, false)
  | Ok n =>
      command coordinator _device_id request
        {[ description.(api_key) := PInt n ]}
        (setattr description.(state_attr) (PInt n))
  end.

End number.

(** * climate.py *)

Module climate.

(** Home Assistant's [HVACMode]. *)
Inductive HVACMode : Type :=
| OFF
| HEAT
| COOL
| HEAT_COOL
| AUTO
| DRY
| FAN_ONLY.

Definition is_HEAT (hvac_mode : HVACMode) : bool :=
  match hvac_mode with
  | HEAT => true
  | _ => false
  end.

(** [HarviaThermostat.current_temperature] *)
Definition current_temperature (coordinator : HarviaSaunaCoordinator)
    (_device_id : string) : pyval :=
  match entity._get_device_data coordinator _device_id with
  | Some device => device.(current_temp)
  | None => PNone
  end.

(** [HarviaThermostat.target_temperature] *)
Definition target_temperature (coordinator : HarviaSaunaCoordinator)
    (_device_id : string) : pyval :=
  match entity._get_device_data coordinator _device_id with
  | Some device => device.(target_temp)
  | None => PNone
  end.

(** [HarviaThermostat.hvac_mode] *)
Definition hvac_mode (coordinator : HarviaSaunaCoordinator)
    (_device_id : string) : HVACMode :=
  match entity._get_device_data coordinator _device_id with
  | Some device => if device.(active) then HEAT else OFF
  | None => OFF
  end.

(** [HarviaThermostat.async_set_temperature]; [temperature] is
    [kwargs.get(ATTR_TEMPERATURE)]. *)
Definition async_set_temperature (coordinator : HarviaSaunaCoordinator)
    (_device_id : string) (request : string -> dict -> result unit)
    (temperature : option float)
  : outcome HarviaSaunaCoordinator * bool :=
  match temperature with
  | Some temperature =>
      match py_int_float temperature with
      | Raise e => (Raised e coordinator, false)
      | Ok n =>
          command coordinator _device_id request
            {[ "targetTemp" := PInt n ]}
            (fun device => device <| target_temp := PInt n |>)
      end
  | None => (Done coordinator, false)
  end.

(** [HarviaThermostat.async_set_hvac_mode] *)
Definition async_set_hvac_mode (coordinator : HarviaSaunaCoordinator)
    (_device_id : string) (request : string -> dict -> result unit)
    (hvac_mode : HVACMode) : outcome HarviaSaunaCoordinator * bool :=
  let active' := is_HEAT hvac_mode in
  command coordinator _device_id request
    {[ "active" := PInt (if active' then 1 else 0) ]}
    (fun device => device <| active := active' |>).

End climate.

(** * Definitions for the properties *)

(** ** Binary64 arithmetic *)

(** Sign classes of a specification float. *)
Definition SFnonneg (x : spec_float) : bool :=
  match x with
  | S754_zero _ => true
  | S754_finite s _ _ | S754_infinity s => negb s
  | S754_nan => false
  end.

Definition SFfinite (x : spec_float) : bool :=
  match x with
  | S754_zero _ | S754_finite _ _ _ => true
  | _ => false
  end.

Definition SFpos_finite (x : spec_float) : bool :=
  match x with
  | S754_finite s _ _ => negb s
  | _ => false
  end.

(** The sign and the class a rounding may produce. *)
Definition SFsigned (sx : bool) (x : spec_float) : Prop :=
  match x with
  | S754_zero s | S754_infinity s | S754_finite s _ _ => s = sx
  | S754_nan => False
  end.

Definition pos_finite (f : float) : bool := (0 <? f)%float && is_finite f.

(** ** Field by field *)

(** The value of a field that [key] overwrites with [g data[key]]. *)
Definition from_key {B : Type} (data : dict) (key : string) (g : pyval -> B)
    (old : B) : B :=
  match data !! key with
  | Some v => g v
  | None => old
  end.

(** [door_open] after the status codes [codes] were parsed. *)
Definition door_after (codes : string) (old : bool) : bool :=
  match String.get 1 codes with
  | None => old
  | Some c =>
      match py_int_char c with
      | None => old
      | Some n => (n =? 9)%Z
      end
  end.

(** What [_apply_state_data] leaves in every field. *)
Definition state_fields (str_builtin : pyval -> string)
    (d : HarviaDeviceData) (data : dict) : HarviaDeviceData :=
  {|
    device_id := from_key data "deviceId" id (d.(device_id));
    display_name := from_key data "displayName" id (d.(display_name));
    active := from_key data "active" py_bool (d.(active));
    lights_on := from_key data "light" py_bool (d.(lights_on));
    fan_on := from_key data "fan" py_bool (d.(fan_on));
    steam_on := d.(steam_on);
    steam_enabled := from_key data "steamEn" py_bool (d.(steam_enabled));
    aroma_enabled := from_key data "aromaEn" py_bool (d.(aroma_enabled));
    aroma_level := from_key data "aromaLevel" id (d.(aroma_level));
    auto_light := from_key data "autoLight" py_bool (d.(auto_light));
    auto_fan := from_key data "autoFan" py_bool (d.(auto_fan));
    dehumidifier_enabled := from_key data "dehumEn" py_bool (d.(dehumidifier_enabled));
    target_temp := from_key data "targetTemp" id (d.(target_temp));
    current_temp := d.(current_temp);
    target_rh := from_key data "targetRh" id (d.(target_rh));
    humidity := d.(humidity);
    temp_unit := from_key data "tempUnit" id (d.(temp_unit));
    heat_up_time := from_key data "heatUpTime" id (d.(heat_up_time));
    remaining_time := d.(remaining_time);
    on_time := from_key data "onTime" id (d.(on_time));
    status_codes := from_key data "statusCodes" (fun v => Some (py_str str_builtin v)) (d.(status_codes));
    door_open := from_key data "statusCodes" (fun v => door_after (py_str str_builtin v) d.(door_open)) (d.(door_open));
    heat_on := d.(heat_on);
    wifi_rssi := d.(wifi_rssi);
    timestamp := d.(timestamp);
    ph1_relay_counter := d.(ph1_relay_counter);
    ph2_relay_counter := d.(ph2_relay_counter);
    ph3_relay_counter := d.(ph3_relay_counter);
    ph1_relay_counter_lt := d.(ph1_relay_counter_lt);
    ph2_relay_counter_lt := d.(ph2_relay_counter_lt);
    ph3_relay_counter_lt := d.(ph3_relay_counter_lt);
    steam_on_counter := d.(steam_on_counter);
    steam_on_counter_lt := d.(steam_on_counter_lt);
    heat_on_counter := d.(heat_on_counter);
    heat_on_counter_lt := d.(heat_on_counter_lt);
    heater_power := d.(heater_power);
    energy_kwh := d.(energy_kwh);
    _last_heat_on_timestamp := _last_heat_on_timestamp d
  |}.

(** What [_apply_telemetry_data] leaves in every field but the three of
    the [heatOn] block. *)
Definition telemetry_fields (d : HarviaDeviceData) (data : dict)
  : HarviaDeviceData :=
  {|
    device_id := d.(device_id);
    display_name := d.(display_name);
    active := d.(active);
    lights_on := d.(lights_on);
    fan_on := d.(fan_on);
    steam_on := from_key data "steamOn" py_bool (d.(steam_on));
    steam_enabled := d.(steam_enabled);
    aroma_enabled := d.(aroma_enabled);
    aroma_level := d.(aroma_level);
    auto_light := d.(auto_light);
    auto_fan := d.(auto_fan);
    dehumidifier_enabled := d.(dehumidifier_enabled);
    target_temp := from_key data "targetTemp" id (d.(target_temp));
    current_temp := from_key data "temperature" id (d.(current_temp));
    target_rh := d.(target_rh);
    humidity := from_key data "humidity" id (d.(humidity));
    temp_unit := d.(temp_unit);
    heat_up_time := d.(heat_up_time);
    remaining_time := from_key data "remainingTime" id (d.(remaining_time));
    on_time := d.(on_time);
    status_codes := d.(status_codes);
    door_open := d.(door_open);
    heat_on := d.(heat_on);
    wifi_rssi := from_key data "wifiRSSI" id (d.(wifi_rssi));
    timestamp := from_key data "timestamp" id (d.(timestamp));
    ph1_relay_counter := from_key data "ph1RelayCounter" id (d.(ph1_relay_counter));
    ph2_relay_counter := from_key data "ph2RelayCounter" id (d.(ph2_relay_counter));
    ph3_relay_counter := from_key data "ph3RelayCounter" id (d.(ph3_relay_counter));
    ph1_relay_counter_lt := from_key data "ph1RelayCounterLT" id (d.(ph1_relay_counter_lt));
    ph2_relay_counter_lt := from_key data "ph2RelayCounterLT" id (d.(ph2_relay_counter_lt));
    ph3_relay_counter_lt := from_key data "ph3RelayCounterLT" id (d.(ph3_relay_counter_lt));
    steam_on_counter := from_key data "steamOnCounter" id (d.(steam_on_counter));
    steam_on_counter_lt := from_key data "steamOnCounterLT" id (d.(steam_on_counter_lt));
    heat_on_counter := from_key data "heatOnCounter" id (d.(heat_on_counter));
    heat_on_counter_lt := from_key data "heatOnCounterLT" id (d.(heat_on_counter_lt));
    heater_power := d.(heater_power);
    energy_kwh := d.(energy_kwh);
    _last_heat_on_timestamp := _last_heat_on_timestamp d
  |}.

(** The two assignments that precede the [heatOn] block. *)
Definition sensor_fields (d : HarviaDeviceData) (data : dict)
  : HarviaDeviceData :=
  d <| current_temp := from_key data "temperature" id d.(current_temp) |>
    <| humidity := from_key data "humidity" id d.(humidity) |>.

(** ** Monotonicity of the accumulated energy *)

(** The nameplate power converts to a positive, finite number of
    kilowatts. *)
Definition power_ok (d : HarviaDeviceData) : bool :=
  match float_of_Z d.(heater_power) with
  | Ok power => pos_finite (power / 1000)
  | Raise _ => false
  end.

(** What every record built by this code satisfies, [seen] being the
    readings of the monotonic clock so far: the energy is not negative, the
    power is a positive number of kilowatts, and the heat-on-since timestamp
    is one of the readings. *)
Definition energy_inv (seen : list float) (d : HarviaDeviceData) : Prop :=
  (0 <=? d.(energy_kwh))%float = true /\
  power_ok d = true /\
  match _last_heat_on_timestamp d with
  | Some since => In since seen /\ is_finite since = true
  | None => True
  end.

(** [now] is a reading of a clock that never goes backwards. *)
Definition clock_reading (seen : list float) (now : float) : bool :=
  is_finite now && forallb (fun t => (t <=? now)%float) seen.

(** The updates of a record: a state delta, or a telemetry delta with the
    clock reading taken while it is applied. *)
Inductive delta : Type :=
| StateDelta (data : dict)
| TelemetryDelta (now : float) (data : dict).

Definition apply_delta (str_builtin : pyval -> string) (u : delta)
    (d : HarviaDeviceData) : HarviaDeviceData :=
  match u with
  | StateDelta data => _apply_state_data str_builtin d data
  | TelemetryDelta now data => state_of (_apply_telemetry_data now d data)
  end.

(** The record after the updates of [history], oldest first. *)
Definition lifetime (str_builtin : pyval -> string) (d : HarviaDeviceData)
    (history : list delta) : HarviaDeviceData :=
  fold_left (fun d u => apply_delta str_builtin u d) history d.

(** The clock never goes backwards over the updates, given the readings
    [seen] before them. *)
Fixpoint monotonic_clock (seen : list float) (history : list delta) : bool :=
  match history with
  | [] => true
  | StateDelta _ :: history => monotonic_clock seen history
  | TelemetryDelta now _ :: history =>
      clock_reading seen now && monotonic_clock (now :: seen) history
  end.

(** ** The energy under every update *)

(** The operations that update the records of a coordinator: a push, handed
    to [_async_handle_ws_update] with the clock reading [now] of that call,
    and a refresh by the fallback poll. *)
Inductive update_operation : Type :=
| PushUpdate (now : float) (payload_data : pyval)
| PollUpdate (device_tree : result (list device_entry)).

(** The coordinator after the operation, also when the handler of the
    push raised. *)
Definition apply_operation (str_builtin : pyval -> string)
    (json_decode : string -> option pyval) (op : update_operation)
    (self : HarviaSaunaCoordinator) : HarviaSaunaCoordinator :=
  match op with
  | PushUpdate now payload_data =>
      state_of
        (_async_handle_ws_update str_builtin json_decode now self
           payload_data).1
  | PollUpdate device_tree => async_refresh str_builtin self device_tree
  end.

(** The coordinator after the operations of [ops], oldest first. *)
Definition updates (str_builtin : pyval -> string)
    (json_decode : string -> option pyval) (self : HarviaSaunaCoordinator)
    (ops : list update_operation) : HarviaSaunaCoordinator :=
  fold_left (fun self op => apply_operation str_builtin json_decode op self)
    ops self.

(** The clock readings of a poll, one for each device of the tree. *)
Definition poll_readings (device_tree : result (list device_entry))
  : list float :=
  match device_tree with
  | Ok device_tree => entry_now <$> device_tree
  | Raise _ => []
  end.

(** The clock over the operations, given the readings [seen] before them:
    every reading is finite, and a push reads the clock no earlier than any
    reading before it.  (A poll awaits its fetches, so a push may run
    between two of its readings; that push changes the container the poll
    is about to replace, and it is an operation before the poll here.) *)
Fixpoint steady_clock (seen : list float) (ops : list update_operation)
  : bool :=
  match ops with
  | [] => true
  | PushUpdate now _ :: ops =>
      clock_reading seen now && steady_clock (now :: seen) ops
  | PollUpdate device_tree :: ops =>
      forallb is_finite (poll_readings device_tree) &&
      steady_clock (poll_readings device_tree ++ seen) ops
  end.

(** Every record the coordinator holds satisfies the invariant of the
    energy integration. *)
Definition records_inv (seen : list float) (self : HarviaSaunaCoordinator)
  : Prop :=
  forall (id : string) (d : HarviaDeviceData),
    entity._get_device_data self id = Some d -> energy_inv seen d.

(** A pushed telemetry envelope that reports "sauna-1" heating. *)
Definition heat_data : string := "<heat-on of sauna-1>".

Definition heat_payload : pyval :=
  PDict {[ "onDataUpdates" :=
             PDict {[ "item" :=
                        PDict {[ "deviceId" := PStr "sauna-1";
                                 "data" := PStr heat_data ]} ]} ]}.

(** A poll that finds "sauna-1" heating at the reading [now]. *)
Definition heat_poll (now : float) : result (list device_entry) :=
  Ok [ {| entry_name := Ok "sauna-1";
          entry_state := Ok ∅;
          entry_telemetry := Ok {[ "heatOn" := PBool true ]};
          entry_now := now |} ].

(** The first poll at the reading 100, then half an hour of heating until
    the push at the reading 1900. *)
Definition metered_updates : list update_operation :=
  [ PollUpdate (heat_poll 100); PushUpdate 1900 heat_payload ].

(** ** Status codes and the door *)

(** A decimal digit, and its value. *)
Definition is_decimal_digit (c : ascii) : bool :=
  (48 <=? nat_of_ascii c)%nat && (nat_of_ascii c <=? 57)%nat.

Definition digit_value (c : ascii) : Z := Z.of_nat (nat_of_ascii c) - 48.

(** ** The fallback poll *)

(** The three fields of the [heatOn] block, set at once. *)
Definition with_heat (h : bool) (e : float) (t : option float)
    (d : HarviaDeviceData) : HarviaDeviceData :=
  d <| heat_on := h |> <| energy_kwh := e |> <| _last_heat_on_timestamp := t |>.

(** A record as the poll builds it: the defaults, then the fetched state,
    then the fetched telemetry. *)
Definition polled_record (str_builtin : pyval -> string) (now : float)
    (id : string) (state telemetry : dict) : outcome HarviaDeviceData :=
  _apply_telemetry_data now
    (_apply_state_data str_builtin (HarviaDeviceData_init (PStr id)) state)
    telemetry.

(** A coordinator whose record of "sauna-1" has accumulated 5.4 kWh and is
    heating since the reading 100 of the monotonic clock. *)
Definition heating_coordinator : HarviaSaunaCoordinator :=
  {| config_entry := {[ CONF_HEATER_POWER := "6.0" ]};
     data := Some
       {| devices :=
            {[ "sauna-1" :=
                 (HarviaDeviceData_init (PStr "sauna-1"))
                   <| heat_on := true |>
                   <| energy_kwh := 5.4%float |>
                   <| _last_heat_on_timestamp := Some 100%float |> ]};
          available := true |} |}.

(** The poll that finds "sauna-1" still heating at the reading 400. *)
Definition heating_poll : result (list device_entry) :=
  Ok [ {| entry_name := Ok "sauna-1";
          entry_state := Ok ∅;
          entry_telemetry := Ok {[ "heatOn" := PBool true ]};
          entry_now := 400%float |} ].

(** A poll whose fetches all succeed. *)
Definition entry_fetched (entry : device_entry) : Prop :=
  (exists id, entry.(entry_name) = Ok id) /\
  (exists state, entry.(entry_state) = Ok state) /\
  (exists telemetry, entry.(entry_telemetry) = Ok telemetry).

(** ** Push updates *)

(** A decoder that knows one document. *)
Definition decode_one (document : string) (value : pyval) (s : string)
  : option pyval :=
  if String.eqb s document then Some value else None.

(** A pushed state delta for "sauna-2", which [heating_coordinator] does
    not know. *)
Definition stray_reported : string := "<reported state of sauna-2>".

Definition stray_state : dict :=
  {[ "deviceId" := PStr "sauna-2"; "active" := PInt 1 ]}.

Definition stray_body : dict := {[ "reported" := PStr stray_reported ]}.

Definition stray_payload : dict := {[ "onStateUpdated" := PDict stray_body ]}.

(** ** Reconnect backoff *)

(** The environment let the transport connect. *)
Definition transport_connected (env : connect_env) : bool :=
  match env.(env_ws_info), env.(env_url), env.(env_connect) with
  | Ok _, Ok _, Ok _ => true
  | _, _, _ => false
  end.

(** A session that failed three times in a row. *)
Definition tired_session : HarviaWebSocket :=
  (HarviaWebSocket_init "device" "org-1" false "uuid-0")
    <| _running := true |> <| _reconnect_attempts := 3%Z |>.

(** The transport connects, then nothing arrives within the heartbeat
    timeout: no [connection_ack] was received. *)
Definition silent_cycle : connect_env :=
  {| env_ws_info := Ok tt;
     env_url := Ok tt;
     env_uuid := "uuid-1";
     env_connect := Ok tt;
     env_send_init := Ok tt;
     env_events := [RecvTimeout] |}.

(** [tired_session] after that cycle, before the backoff. *)
Definition reconnected_session : HarviaWebSocket :=
  tired_session <| _subscription_id := "uuid-1" |>
                <| _reconnect_attempts := 0%Z |>.

(** C7 as the specification words it: the counter is reset only by a
    [connection_ack], so a cycle in which no frame arrived backs off on the
    curve of the count before the cycle, and adds one to that count. *)
Definition backoff_as_specified : Prop :=
  forall (self self' : HarviaWebSocket) (env : connect_env)
         (jitter delay : float),
    self.(_running) = true ->
    Forall (fun ev => match ev with RecvMessage _ _ => False | _ => True end)
      env.(env_events) ->
    async_run_pass (fun _ => None) (fun (c : unit) _ _ => (c, None))
      self tt env jitter = (self', tt, Sleeping delay) ->
    self'.(_reconnect_attempts) = (self.(_reconnect_attempts) + 1)%Z /\
    delay =
      py_min (nearest_float (2 ^ self.(_reconnect_attempts)) + jitter)%float
        (nearest_float WS_MAX_RECONNECT_DELAY).

(** ** The heartbeat timeout *)

(** The frame is a [connection_ack] whose payload is truthy: the one kind
    of frame that assigns [timeout]. *)
Definition renegotiates (json_decode : string -> option pyval)
    (raw_message : string) : bool :=
  match json_decode raw_message with
  | Some message =>
      match py_get message "type", py_get message "payload" with
      | Ok msg_type, Ok payload =>
          py_eq_str msg_type "connection_ack" && py_bool payload
      | _, _ => false
      end
  | None => false
  end.

Definition keeps_timeout (json_decode : string -> option pyval)
    (ev : recv_event) : Prop :=
  match ev with
  | RecvMessage raw_message _ => renegotiates json_decode raw_message = false
  | _ => True
  end.

(** The frames among the events. *)
Fixpoint frames_received (events : list recv_event) : nat :=
  match events with
  | [] => 0
  | RecvMessage _ _ :: events => S (frames_received events)
  | _ :: events => frames_received events
  end.

(** The acknowledgement of the scenario: [connectionTimeoutMs] is 60000. *)
Definition ack_60000 : dict :=
  {[ "type" := PStr "connection_ack";
     "payload" := PDict {[ "connectionTimeoutMs" := PInt 60000 ]} ]}.

(** ** The fields of a record by writer *)

(** The fields that only [_apply_telemetry_data] writes, and the two
    calculated ones beside them. *)
Definition telemetry_part (d : HarviaDeviceData) :=
  (d.(steam_on), d.(current_temp), d.(humidity), d.(remaining_time),
   d.(heat_on), d.(wifi_rssi), d.(timestamp),
   (d.(ph1_relay_counter), d.(ph2_relay_counter), d.(ph3_relay_counter),
    d.(ph1_relay_counter_lt), d.(ph2_relay_counter_lt),
    d.(ph3_relay_counter_lt)),
   (d.(steam_on_counter), d.(steam_on_counter_lt), d.(heat_on_counter),
    d.(heat_on_counter_lt)),
   d.(energy_kwh), _last_heat_on_timestamp d).

(** The fields that only [_apply_state_data] writes. *)
Definition state_part (d : HarviaDeviceData) :=
  (d.(device_id), d.(display_name), d.(active), d.(lights_on), d.(fan_on),
   d.(steam_enabled), d.(aroma_enabled), d.(aroma_level), d.(auto_light),
   d.(auto_fan), d.(dehumidifier_enabled), d.(target_rh), d.(temp_unit),
   d.(heat_up_time), d.(on_time), d.(status_codes), d.(door_open)).

(** A record that has been heating since the reading 100 of the clock. *)
Definition heating_record : HarviaDeviceData :=
  (HarviaDeviceData_init (PStr "sauna-1"))
    <| heat_on := true |>
    <| energy_kwh := 5.4%float |>
    <| _last_heat_on_timestamp := Some 100%float |>.

(** ** The fallback poll, continued *)

(** The record [d] of the device [id] was built from the answers of an
    entry of the tree. *)
Definition polled_from (str_builtin : pyval -> string)
    (device_tree : list device_entry) (id : string) (d : HarviaDeviceData)
  : Prop :=
  exists entry state telemetry,
    In entry device_tree /\
    entry.(entry_name) = Ok id /\
    entry.(entry_state) = Ok state /\
    entry.(entry_telemetry) = Ok telemetry /\
    polled_record str_builtin entry.(entry_now) id state telemetry = Done d.

(** A poll of two devices: the telemetry of the second cannot be fetched. *)
Definition failing_poll : list device_entry :=
  [ {| entry_name := Ok "sauna-1";
       entry_state := Ok ∅;
       entry_telemetry := Ok {[ "heatOn" := PBool true ]};
       entry_now := 400%float |};
    {| entry_name := Ok "sauna-2";
       entry_state := Ok ∅;
       entry_telemetry := Raise HarviaConnectionError;
       entry_now := 401%float |} ].

(** ** Push updates, continued *)

(** [sd'] holds the devices of [sd], all but at most one with the record
    they had. *)
Definition touches_at_most_one (sd sd' : HarviaSaunaData) : Prop :=
  sd'.(available) = sd.(available) /\
  (forall id, is_Some (sd'.(devices) !! id) <-> is_Some (sd.(devices) !! id)) /\
  exists id, forall id',
    id' <> id -> sd'.(devices) !! id' = sd.(devices) !! id'.

(** A pushed telemetry envelope for "sauna-1": the data carries a
    timestamp of its own. *)
Definition pushed_data : string := "<data of sauna-1>".

Definition pushed_telemetry : dict :=
  {[ "temperature" := PInt 71; "timestamp" := PStr "1700000000000" ]}.

Definition pushed_item : dict :=
  {[ "deviceId" := PStr "sauna-1";
     "timestamp" := PStr "1700000000123";
     "data" := PStr pushed_data ]}.

Definition pushed_body : dict := {[ "item" := PDict pushed_item ]}.

Definition pushed_payload : dict := {[ "onDataUpdates" := PDict pushed_body ]}.

(** The container of [heating_coordinator]. *)
Definition heating_data : HarviaSaunaData :=
  {| devices := {[ "sauna-1" := heating_record ]}; available := true |}.

(** ** Reconnect backoff, continued *)

(** The transport did not connect: fetching the websocket info or the URL,
    or [websockets.connect], raised an [Exception]. *)
Definition connect_refused (env : connect_env) : bool :=
  match env.(env_ws_info), env.(env_url), env.(env_connect) with
  | Raise e, _, _ | Ok _, Raise e, _ | Ok _, Ok _, Raise e => is_Exception e
  | Ok _, Ok _, Ok _ => false
  end.

(** The delays of consecutive attempts from the count [N] on, one for each
    jitter drawn. *)
Fixpoint backoff_delays (N : Z) (jitters : list float) : list float :=
  match jitters with
  | [] => []
  | jitter :: jitters =>
      py_min (nearest_float (2 ^ N) + jitter)%float
        (nearest_float WS_MAX_RECONNECT_DELAY)
      :: backoff_delays (N + 1) jitters
  end.

(** An environment in which the cloud cannot be reached. *)
Definition unreachable : connect_env :=
  {| env_ws_info := Ok tt;
     env_url := Ok tt;
     env_uuid := "uuid-2";
     env_connect := Raise OtherError;
     env_send_init := Ok tt;
     env_events := [] |}.

(** ** The receive loop *)

(** The frame decodes to a message of type "ka". *)
Definition is_keepalive (json_decode : string -> option pyval)
    (ev : recv_event) : bool :=
  match ev with
  | RecvMessage raw_message _ =>
      match json_decode raw_message with
      | Some message =>
          match py_get message "type" with
          | Ok msg_type => py_eq_str msg_type "ka"
          | Raise _ => false
          end
      | None => false
      end
  | _ => false
  end.

(** The locals of the receive loop after [k] keep-alives at the default
    timeout. *)
Definition ka_state (k : nat) : listen_state :=
  {| timeout := nearest_float WS_HEARTBEAT_TIMEOUT;
     reconnect_timer := nearest_float (WS_HEARTBEAT_TIMEOUT * Z.of_nat k) |}.

(** The session once [_async_connect_and_listen] has connected. *)
Definition connected_session (self : HarviaWebSocket) (env : connect_env)
  : HarviaWebSocket :=
  self <| _subscription_id := env.(env_uuid) |>
       <| _websocket := true |>
       <| _reconnect_attempts := 0%Z |>.

(** The environment connects and the init frame is sent. *)
Definition listens (env : connect_env) : bool :=
  transport_connected env &&
  match env.(env_send_init) with
  | Ok _ => true
  | Raise _ => false
  end.

Definition is_stop_request (ev : recv_event) : bool :=
  match ev with
  | StopRequested => true
  | _ => false
  end.

(** A decoder that reads "ka" as a keep-alive and nothing else. *)
Definition decode_ka : string -> option pyval :=
  decode_one "ka" (PDict {[ "type" := PStr "ka" ]}).

(** Two keep-alives, then a stop request while the loop waits, then a
    timeout. *)
Definition stopped_cycle : connect_env :=
  {| env_ws_info := Ok tt;
     env_url := Ok tt;
     env_uuid := "uuid-3";
     env_connect := Ok tt;
     env_send_init := Ok tt;
     env_events :=
       [RecvMessage "ka" (Ok tt); RecvMessage "ka" (Ok tt)] ++
       StopRequested :: [RecvTimeout] |}.

(** ** A push that cannot be decoded *)

(** The callback the manager gives its sessions, [_handle_message], as the
    receive loop sees it: the coordinator afterwards and the exception that
    came out, if any.  [now] is the clock reading during the call. *)
Definition manager_on_message (str_builtin : pyval -> string)
    (json_decode : string -> option pyval) (now : float)
    (coordinator : HarviaSaunaCoordinator) (endpoint : string)
    (message : pyval) : HarviaSaunaCoordinator * option exn :=
  let o := (_handle_message str_builtin json_decode now coordinator endpoint
              message).1 in
  (state_of o, raised o).

(** A data frame whose reported state is not JSON. *)
Definition garbled_frame : string := "<data frame>".

Definition garbled_message : dict :=
  {[ "type" := PStr "data";
     "payload" :=
       PDict {[ "data" :=
                  PDict {[ "onStateUpdated" :=
                             PDict {[ "reported" := PStr "{oops" ]} ]} ]} ]}.

(** The environment connects and that frame arrives. *)
Definition garbled_cycle : connect_env :=
  {| env_ws_info := Ok tt;
     env_url := Ok tt;
     env_uuid := "uuid-4";
     env_connect := Ok tt;
     env_send_init := Ok tt;
     env_events := [RecvMessage garbled_frame (Ok tt); RecvTimeout] |}.

(** ** The cloud API *)

(** The response to the device-tree query lacks what the code looks for:
    no ["data"], no ["getDeviceTree"] in it, or a tree that decodes to a
    falsy value. *)
Definition no_tree (json_decode : string -> option pyval) (response : dict)
  : Prop :=
  response !! "data" = None \/
  exists data,
    response !! "data" = Some (PDict data) /\
    (data !! "getDeviceTree" = None \/
     exists raw tree,
       data !! "getDeviceTree" = Some (PStr raw) /\
       json_decode raw = Some tree /\
       py_bool tree = false).

(** A cloud that answers for every endpoint but "events". *)
Definition events_down (endpoint : string) : result pyval :=
  if String.eqb endpoint "events" then Raise TimeoutError
  else Ok (PDict {[ "endpoint" := PStr ("https://" +:+ endpoint) ]}).

(** A cloud that answers for every endpoint. *)
Definition all_up (endpoint : string) : result pyval :=
  Ok (PDict {[ "endpoint" := PStr ("https://" +:+ endpoint) ]}).

(** The answer to the latest-data query for the pushed envelope of
    "sauna-1". *)
Definition latest_response : dict :=
  {[ "data" :=
       PDict {[ "getLatestData" :=
                  PDict (<["type" := PStr "SAUNA"]> pushed_item) ]} ]}.

(** ** The entities *)

(** The cloud accepts every command. *)
Definition accepted (_device_id : string) (payload : dict) : result unit :=
  Ok tt.

(** The form of the heater step, filled in, and the flow after the
    credentials step. *)
Definition heater_input : gmap string string :=
  {[ CONF_HEATER_MODEL := "cilindro"; CONF_HEATER_POWER := "9.0" ]}.

Definition flow_after_login : config_flow.HarviaSaunaConfigFlow :=
  {| config_flow._user_input :=
       {[ "username" := "user@example.org"; "password" := "secret" ]};
     config_flow._user_data :=
       PDict {[ "email" := PStr "user@example.org" ]} |}.

(** The coordinator after [payload] came back from the cloud as the
    reported state of the device: [_apply_state_data] on its record. *)
Definition echoed (str_builtin : pyval -> string)
    (coordinator : HarviaSaunaCoordinator) (sd : HarviaSaunaData)
    (device_id : string) (device : HarviaDeviceData) (payload : dict)
  : HarviaSaunaCoordinator :=
  coordinator
    <| data := Some (store_device sd device_id
                       (_apply_state_data str_builtin device payload)) |>.

(** The switch of the light. *)
Definition light_switch : switch.HarviaSwitchDescription :=
  {| switch.key := "light"; switch.api_key := "light";
     switch.state_attr := switch.attr_lights_on;
     switch.icon_on := "mdi:lightbulb-on";
     switch.icon_off := "mdi:lightbulb-off" |}.

(** The number of the target humidity. *)
Definition humidity_number : number.HarviaNumberDescription :=
  {| number.key := "target_humidity";
     number.native_min_value := 0; number.native_max_value := 100;
     number.native_step := 1;
     number.api_key := "targetRh";
     number.state_attr := number.attr_target_rh;
     number.value_fn := fun d => d.(target_rh) |}.

(** * Properties *)

(** ** Binary64 arithmetic

    The facts about IEEE addition, subtraction, multiplication and division
    that the energy integration rests on, proved from the specification of
    the primitive floats: signs are kept by rounding, and rounding to
    nearest never takes a sum below one of its non-negative terms. *)

Module Binary64.
Local Open Scope Z_scope.

Lemma SFsigned_nonneg x : SFsigned false x -> SFnonneg x = true.
Proof. destruct x; simpl; intros; subst; auto; contradiction. Qed.

(** *** Digits *)

Lemma digits2_pos_size m : digits2_pos m = Pos.size m.
Proof. induction m; simpl; congruence. Qed.

Lemma digits2_log2 m : Zpos (digits2_pos m) = Z.log2 (Zpos m) + 1.
Proof.
  rewrite digits2_pos_size. destruct m; simpl; lia.
Qed.

Lemma digits2_bounds m :
  2 ^ (Zpos (digits2_pos m) - 1) <= Zpos m < 2 ^ Zpos (digits2_pos m).
Proof.
  rewrite digits2_log2.
  replace (Z.log2 (Z.pos m) + 1 - 1) with (Z.log2 (Zpos m)) by lia.
  replace (Z.log2 (Z.pos m) + 1) with (Z.succ (Z.log2 (Zpos m))) by lia.
  apply Z.log2_spec. lia.
Qed.

Lemma digits2_scaled_le m M k :
  0 <= k -> Zpos m * 2 ^ k <= Zpos M ->
  Zpos (digits2_pos m) + k <= Zpos (digits2_pos M).
Proof.
  intros Hk H. rewrite !digits2_log2.
  assert (Z.log2 (Zpos m * 2 ^ k) = k + Z.log2 (Zpos m))
    by (apply Z.log2_mul_pow2; lia).
  assert (Z.log2 (Zpos m * 2 ^ k) <= Z.log2 (Zpos M))
    by (apply Z.log2_le_mono; lia).
  lia.
Qed.

(** *** Canonical mantissas *)

Lemma fexp_mono a b : a <= b -> fexp prec emax a <= fexp prec emax b.
Proof. unfold fexp. lia. Qed.

Lemma fexp_ge_emin a : SpecFloat.emin prec emax <= fexp prec emax a.
Proof. unfold fexp. lia. Qed.

Lemma bounded_canonical m e :
  bounded prec emax m e = true ->
  fexp prec emax (Zpos (digits2_pos m) + e) = e /\ e <= emax - prec.
Proof.
  unfold bounded, canonical_mantissa. rewrite andb_true_iff.
  intros [H1 H2]. apply Z.eqb_eq in H1. apply Z.leb_le in H2. auto.
Qed.

Lemma canonical_digits_le m e :
  fexp prec emax (Zpos (digits2_pos m) + e) = e -> Zpos (digits2_pos m) <= prec.
Proof. unfold fexp. lia. Qed.

Lemma canonical_normal_digits m e :
  fexp prec emax (Zpos (digits2_pos m) + e) = e ->
  SpecFloat.emin prec emax < e -> Zpos (digits2_pos m) = prec.
Proof. unfold fexp. lia. Qed.

(** Two canonical mantissas with exponents [e1 < e2]: the first is the
    smaller number. *)
Lemma canonical_lt m1 e1 m2 e2 :
  fexp prec emax (Zpos (digits2_pos m1) + e1) = e1 ->
  fexp prec emax (Zpos (digits2_pos m2) + e2) = e2 ->
  e1 < e2 -> Zpos m1 < Zpos m2 * 2 ^ (e2 - e1).
Proof.
  intros H1 H2 Hlt.
  pose proof (canonical_digits_le _ _ H1) as Hd1.
  assert (He1 : SpecFloat.emin prec emax <= e1)
    by (rewrite <- H1; apply fexp_ge_emin).
  assert (Hd2 : Zpos (digits2_pos m2) = prec)
    by (apply (canonical_normal_digits _ _ H2); lia).
  pose proof (digits2_bounds m1) as [_ B1].
  pose proof (digits2_bounds m2) as [B2 _].
  rewrite Hd2 in B2.
  assert (Zpos m1 < 2 ^ prec).
  { eapply Z.lt_le_trans; [exact B1|]. apply Z.pow_le_mono_r; lia. }
  assert (2 ^ 1 <= 2 ^ (e2 - e1)) by (apply Z.pow_le_mono_r; lia).
  assert (2 ^ prec = 2 ^ (prec - 1) * 2 ^ 1).
  { replace prec with ((prec - 1) + 1) at 1 by lia.
    apply Z.pow_add_r; unfold prec; lia. }
  nia.
Qed.

(** *** Shifts *)

Lemma shl_align_fst m e ez :
  ez <= e -> Zpos (fst (shl_align m e ez)) = Zpos m * 2 ^ (e - ez).
Proof.
  intros H. unfold shl_align.
  destruct (ez - e) eqn:E; simpl.
  - replace (e - ez) with 0 by lia. lia.
  - lia.
  - change (Pos.iter xO m p) with (shift_pos p m).
    rewrite shift_pos_correct, Z.pow_pos_fold.
    replace (e - ez) with (Zpos p) by lia. lia.
Qed.

Lemma iter_pos_inv {A} (P : A -> Prop) (f : A -> A) :
  (forall x, P x -> P (f x)) -> forall p x, P x -> P (SpecFloat.iter_pos f p x).
Proof. intros Hf. induction p; simpl; auto. Qed.

Lemma shr_1_m r : 0 <= shr_m r -> shr_m (shr_1 r) = shr_m r / 2.
Proof.
  destruct r as [m rb sb]. simpl. intros Hm.
  destruct m as [|[p|p|]|p]; simpl; try lia; try reflexivity.
  - rewrite Pos2Z.inj_xI. apply Z.div_unique with 1; lia.
  - rewrite Pos2Z.inj_xO. apply Z.div_unique with 0; lia.
Qed.

Lemma shr_1_nonneg r : 0 <= shr_m r -> 0 <= shr_m (shr_1 r).
Proof. intros H. rewrite shr_1_m by assumption. apply Z.div_pos; lia. Qed.

Lemma pow2_xO p : 2 ^ Zpos p~0 = 2 ^ Zpos p * 2 ^ Zpos p.
Proof. rewrite <- Z.pow_add_r by lia. f_equal. lia. Qed.

Lemma pow2_xI p : 2 ^ Zpos p~1 = 2 * (2 ^ Zpos p * 2 ^ Zpos p).
Proof.
  rewrite <- Z.pow_add_r by lia. rewrite <- Z.pow_succ_r by lia. f_equal. lia.
Qed.

Lemma iter_shr_1_m p : forall r,
  0 <= shr_m r -> shr_m (SpecFloat.iter_pos shr_1 p r) = shr_m r / 2 ^ Zpos p.
Proof.
  assert (Hinv : forall q r, 0 <= shr_m r -> 0 <= shr_m (SpecFloat.iter_pos shr_1 q r)).
  { intros q r. apply (iter_pos_inv (fun r => 0 <= shr_m r)). apply shr_1_nonneg. }
  induction p; intros r Hr; simpl.
  - rewrite IHp, IHp, shr_1_m by auto using shr_1_nonneg.
    rewrite !Z.div_div by lia. rewrite pow2_xI. reflexivity.
  - rewrite IHp, IHp by auto.
    rewrite !Z.div_div by lia. rewrite pow2_xO. reflexivity.
  - rewrite shr_1_m by assumption. reflexivity.
Qed.

(** [shr] divides the mantissa by [2 ^ n] and raises the exponent by [n]. *)
Lemma shr_spec r e n :
  0 <= shr_m r ->
  shr_m (fst (shr r e n)) = shr_m r / 2 ^ Z.max n 0 /\
  snd (shr r e n) = e + Z.max n 0.
Proof.
  intros Hr. unfold shr. destruct n; simpl.
  - rewrite Z.div_1_r. split; [reflexivity | lia].
  - rewrite iter_shr_1_m by assumption. split; [reflexivity | lia].
  - rewrite Z.div_1_r. split; [reflexivity | lia].
Qed.

Lemma shr_record_of_loc_m m l : shr_m (shr_record_of_loc m l) = m.
Proof. destruct l as [|[]]; reflexivity. Qed.

Lemma shr_fexp_spec m e l :
  0 <= m ->
  let n := Z.max (fexp prec emax (Zdigits2 m + e) - e) 0 in
  shr_m (fst (shr_fexp prec emax m e l)) = m / 2 ^ n /\
  snd (shr_fexp prec emax m e l) = e + n.
Proof.
  intros Hm n. unfold shr_fexp.
  pose proof (shr_spec (shr_record_of_loc m l) e
                (fexp prec emax (Zdigits2 m + e) - e)) as H.
  rewrite shr_record_of_loc_m in H. apply H. assumption.
Qed.

Lemma round_nearest_even_bounds m l :
  m <= round_nearest_even m l <= m + 1.
Proof.
  destruct l as [|[]]; simpl; try lia. destruct (Z.even m); lia.
Qed.

(** *** Rounding *)

(** Rounding a non-negative mantissa never yields a NaN and keeps the sign. *)
Lemma binary_round_aux_signed sx mx ex lx :
  0 <= mx -> SFsigned sx (binary_round_aux prec emax sx mx ex lx).
Proof.
  intros Hm. unfold binary_round_aux.
  destruct (shr_fexp prec emax mx ex lx) as [mrs' e'] eqn:E1.
  pose proof (shr_fexp_spec mx ex lx Hm) as [H1 _]. rewrite E1 in H1. simpl in H1.
  set (m2 := round_nearest_even (shr_m mrs') (loc_of_shr_record mrs')).
  assert (Hm2 : 0 <= m2).
  { pose proof (round_nearest_even_bounds (shr_m mrs') (loc_of_shr_record mrs')).
    assert (0 <= shr_m mrs') by (rewrite H1; apply Z.div_pos; lia).
    unfold m2. lia. }
  destruct (shr_fexp prec emax m2 e' loc_Exact) as [mrs'' e''] eqn:E2.
  pose proof (shr_fexp_spec m2 e' loc_Exact Hm2) as [H2 _]. rewrite E2 in H2. simpl in H2.
  assert (0 <= shr_m mrs'') by (rewrite H2; apply Z.div_pos; lia).
  destruct (shr_m mrs''); simpl; try reflexivity; try lia.
  destruct (e'' <=? emax - prec); reflexivity.
Qed.

Lemma binary_round_signed sx mx ex :
  SFsigned sx (binary_round prec emax sx mx ex).
Proof.
  unfold binary_round.
  destruct (shl_align mx ex _) as [mz ez].
  apply binary_round_aux_signed. lia.
Qed.

Lemma binary_normalize_nonneg m e :
  0 <= m -> SFnonneg (binary_normalize prec emax m e false) = true.
Proof.
  intros H. destruct m; simpl; try reflexivity; try lia.
  apply SFsigned_nonneg, binary_round_signed.
Qed.

(** Rounding [M * 2 ^ ez] to nearest when it is at least the canonical
    [ma * 2 ^ ea]: the result compares above [ma * 2 ^ ea]. *)
Lemma binary_round_ge M ez ma ea :
  fexp prec emax (Zpos (digits2_pos ma) + ea) = ea ->
  ez <= ea ->
  Zpos ma * 2 ^ (ea - ez) <= Zpos M ->
  SFleb (S754_finite false ma ea) (binary_round prec emax false M ez) = true.
Proof.
  intros Hcan Hez HM.
  assert (Hemin : SpecFloat.emin prec emax <= ea)
    by (rewrite <- Hcan; apply fexp_ge_emin).
  pose proof (digits2_scaled_le ma M (ea - ez) ltac:(lia) HM) as Hd.
  pose proof (digits2_bounds M) as [BM _].
  set (d := Zpos (digits2_pos M)) in *.
  set (es := fexp prec emax (d + ez)).
  assert (Hes : ea <= es).
  { rewrite <- Hcan. apply fexp_mono. lia. }
  assert (Hes' : es = ea \/ (ea < es /\ es = d + ez - prec)).
  { unfold es, fexp in *. lia. }
  unfold binary_round. fold d. fold es.
  assert (Hal : shl_align M ez es = (M, ez)).
  { unfold shl_align. destruct (es - ez) eqn:E; try reflexivity. lia. }
  rewrite Hal. unfold binary_round_aux.
  destruct (shr_fexp prec emax (Zpos M) ez loc_Exact) as [mrs' e'] eqn:E1.
  pose proof (shr_fexp_spec (Zpos M) ez loc_Exact ltac:(lia)) as [H1 H1e].
  rewrite E1 in H1, H1e. simpl in H1, H1e. fold d in H1, H1e. fold es in H1, H1e.
  replace (Z.max (es - ez) 0) with (es - ez) in H1, H1e by lia.
  assert (He' : e' = es) by lia. clear H1e. subst e'.
  pose proof (round_nearest_even_bounds (shr_m mrs') (loc_of_shr_record mrs'))
    as [Hr _].
  set (m2 := round_nearest_even (shr_m mrs') (loc_of_shr_record mrs')) in *.
  assert (Hm1 : 1 <= shr_m mrs' /\ (es = ea -> Zpos ma <= shr_m mrs')).
  { rewrite H1. split.
    - apply Z.div_le_lower_bound; [lia|].
      destruct Hes' as [Heq | [_ Heq]].
      + rewrite Heq.
        assert (0 < 2 ^ (ea - ez)) by (apply Z.pow_pos_nonneg; lia). nia.
      + assert (2 ^ (es - ez) <= 2 ^ (d - 1))
          by (apply Z.pow_le_mono_r; unfold prec in *; lia).
        lia.
    - intros Heq. rewrite Heq. apply Z.div_le_lower_bound; lia. }
  destruct Hm1 as [Hm1 Hm1'].
  assert (Hm2 : 1 <= m2) by lia.
  destruct (shr_fexp prec emax m2 es loc_Exact) as [mrs'' e''] eqn:E2.
  pose proof (shr_fexp_spec m2 es loc_Exact ltac:(lia)) as [H2 H2e].
  rewrite E2 in H2, H2e. simpl in H2, H2e.
  destruct m2 as [|q|q] eqn:Eq2; try lia.
  simpl Zdigits2 in H2, H2e.
  pose proof (digits2_bounds q) as [Bq _].
  set (k := Zpos (digits2_pos q)) in *.
  set (n2 := Z.max (fexp prec emax (k + es) - es) 0) in *.
  assert (Hn2 : n2 = Z.max (k - prec) 0).
  { unfold n2, fexp. pose proof (fexp_ge_emin (d + ez)). fold es in H. lia. }
  assert (Hm3 : 1 <= shr_m mrs'').
  { rewrite H2. apply Z.div_le_lower_bound; [lia|].
    assert (2 ^ n2 <= 2 ^ (k - 1))
      by (apply Z.pow_le_mono_r; unfold prec in *; lia).
    lia. }
  destruct (shr_m mrs'') as [|m3|m3] eqn:E3; try lia.
  destruct (e'' <=? emax - prec); [|reflexivity].
  unfold SFleb, SFcompare.
  destruct (Z.compare_spec ea e'') as [Heq | Hlt | Hgt]; try reflexivity; try lia.
  assert (n2 = 0) by lia.
  assert (Hq : Zpos m3 = Zpos q).
  { rewrite H2. replace n2 with 0 by lia. simpl. apply Z.div_1_r. }
  assert (Hle : (ma <= m3)%positive) by lia.
  change (Pos.compare_cont Eq ma m3) with (Pos.compare ma m3).
  destruct (Pos.compare_spec ma m3); try reflexivity. lia.
Qed.

Lemma SFleb_refl x : SFnonneg x = true -> SFleb x x = true.
Proof.
  destruct x as [s|s| |s m e]; simpl; try discriminate; intros H.
  - reflexivity.
  - destruct s; [discriminate | reflexivity].
  - destruct s; [discriminate|]. unfold SFleb, SFcompare.
    rewrite Z.compare_refl.
    change (Pos.compare_cont Eq m m) with (Pos.compare m m).
    rewrite Pos.compare_refl. reflexivity.
Qed.

(** *** Addition of non-negative numbers *)

Lemma SFadd_nonneg x y :
  SFnonneg x = true -> SFnonneg y = true ->
  SFnonneg (SFadd prec emax x y) = true.
Proof.
  destruct x as [sx|sx| |sx mx ex], y as [sy|sy| |sy my ey];
    simpl; try discriminate; try reflexivity; intros Hx Hy;
    try (destruct sx; try discriminate); try (destruct sy; try discriminate);
    try reflexivity.
  apply binary_normalize_nonneg. simpl. lia.
Qed.

Lemma SFadd_ge x y :
  valid_binary x = true -> SFnonneg x = true -> SFnonneg y = true ->
  SFleb x (SFadd prec emax x y) = true.
Proof.
  destruct x as [sx|sx| |sx mx ex], y as [sy|sy| |sy my ey];
    simpl; try discriminate; intros Vx Hx Hy;
    try (destruct sx; try discriminate); try (destruct sy; try discriminate);
    try reflexivity;
    try (apply (SFleb_refl (S754_finite false mx ex)); reflexivity).
  - apply bounded_canonical in Vx. destruct Vx as [Cx _].
    simpl cond_Zopp. set (ez := Z.min ex ey).
    rewrite !shl_align_fst by (unfold ez; lia).
    assert (0 < 2 ^ (ex - ez)) by (apply Z.pow_pos_nonneg; unfold ez; lia).
    assert (0 < 2 ^ (ey - ez)) by (apply Z.pow_pos_nonneg; unfold ez; lia).
    destruct (Zpos mx * 2 ^ (ex - ez) + Zpos my * 2 ^ (ey - ez)) as [|M|M] eqn:E;
      try nia.
    simpl. apply binary_round_ge; [assumption | unfold ez; lia | nia].
Qed.

(** *** Subtraction of ordered finite numbers *)

Lemma SFsub_nonneg x y :
  valid_binary x = true -> valid_binary y = true ->
  SFfinite x = true -> SFfinite y = true ->
  SFleb y x = true -> SFnonneg (SFsub prec emax x y) = true.
Proof.
  destruct x as [sx|sx| |sx mx ex], y as [sy|sy| |sy my ey];
    simpl; try discriminate; intros Vx Vy _ _ Hle.
  - destruct sx, sy; reflexivity.
  - destruct sy; [reflexivity | discriminate].
  - destruct sx; [discriminate | reflexivity].
  - apply bounded_canonical in Vx, Vy. destruct Vx as [Cx _], Vy as [Cy _].
    apply binary_normalize_nonneg.
    set (ez := Z.min ex ey).
    rewrite !shl_align_fst by (unfold ez; lia).
    assert (Px : 0 < 2 ^ (ex - ez)) by (apply Z.pow_pos_nonneg; unfold ez; lia).
    assert (Py : 0 < 2 ^ (ey - ez)) by (apply Z.pow_pos_nonneg; unfold ez; lia).
    unfold SFleb, SFcompare in Hle.
    change (Pos.compare_cont Eq my mx) with (Pos.compare my mx) in Hle.
    destruct sx, sy; simpl; try discriminate.
    + (* both negative: [ey >= ex] *)
      destruct (Z.compare_spec ey ex) as [Heq | Hlt | Hgt]; try discriminate.
      * subst ey. destruct (Pos.compare_spec my mx); try discriminate; nia.
      * pose proof (canonical_lt mx ex my ey Cx Cy Hgt).
        replace (ex - ez) with 0 by (unfold ez; lia).
        replace (ey - ez) with (ey - ex) by (unfold ez; lia). lia.
    + nia.
    + (* both positive: [ey <= ex] *)
      destruct (Z.compare_spec ey ex) as [Heq | Hlt | Hgt]; try discriminate.
      * subst ey. destruct (Pos.compare_spec my mx); try discriminate; nia.
      * pose proof (canonical_lt my ey mx ex Cy Cx Hlt).
        replace (ey - ez) with 0 by (unfold ez; lia).
        replace (ex - ez) with (ex - ey) by (unfold ez; lia). lia.
Qed.

(** *** Division and multiplication by a positive finite number *)

Lemma SFdiv_nonneg x y :
  SFnonneg x = true -> SFpos_finite y = true ->
  SFnonneg (SFdiv prec emax x y) = true.
Proof.
  destruct x as [sx|sx| |sx mx ex], y as [sy|sy| |sy my ey];
    simpl; try discriminate; intros Hx Hy;
    destruct sy; try discriminate; try reflexivity.
  - destruct sx; [discriminate | reflexivity].
  - destruct sx; [discriminate|]. simpl.
    destruct (SFdiv_core_binary prec emax (Zpos mx) ex (Zpos my) ey)
      as [[mz ez] lz] eqn:E.
    apply SFsigned_nonneg, binary_round_aux_signed.
    unfold SFdiv_core_binary in E.
    set (m' := match _ - _ - _ with Z0 => Zpos mx | Zpos _ => _ | Zneg _ => 0 end) in E.
    assert (Hm' : 0 <= m').
    { unfold m'. destruct (_ - _ - _); try lia.
      rewrite Z.shiftl_mul_pow2 by lia.
      assert (0 < 2 ^ Zpos p) by (apply Z.pow_pos_nonneg; lia). nia. }
    pose proof (Z.div_pos m' (Zpos my) Hm' ltac:(lia)) as Hq.
    unfold Z.div in Hq. destruct (Z.div_eucl m' (Zpos my)) as [q r].
    inversion E; subst. exact Hq.
Qed.

Lemma SFmul_nonneg x y :
  SFpos_finite x = true -> SFnonneg y = true ->
  SFnonneg (SFmul prec emax x y) = true.
Proof.
  destruct x as [sx|sx| |sx mx ex], y as [sy|sy| |sy my ey];
    simpl; try discriminate; intros Hx Hy;
    destruct sx; try discriminate; try reflexivity.
  - destruct sy; [discriminate | reflexivity].
  - destruct sy; [discriminate|]. simpl.
    apply SFsigned_nonneg, binary_round_aux_signed. lia.
Qed.

(** *** The same facts on primitive floats *)

Local Open Scope float_scope.

Lemma leb_zero_SF f : (0 <=? f) = true <-> SFnonneg (Prim2SF f) = true.
Proof.
  rewrite leb_spec. change (Prim2SF 0) with (S754_zero false).
  destruct (Prim2SF f) as [s|s| |s m e]; simpl; try tauto;
    destruct s; simpl; intuition discriminate.
Qed.

Lemma is_finite_SF f : is_finite f = true -> SFfinite (Prim2SF f) = true.
Proof.
  unfold is_finite, is_nan, is_infinity. intros H.
  apply negb_true_iff, orb_false_iff in H. destruct H as [Hn Hi].
  apply negb_false_iff in Hn.
  rewrite FloatAxioms.eqb_spec in Hn. rewrite FloatAxioms.eqb_spec, abs_spec in Hi.
  change (Prim2SF infinity) with (S754_infinity false) in Hi.
  destruct (Prim2SF f) as [s|s| |s m e]; simpl in *; try reflexivity; discriminate.
Qed.

Lemma pos_finite_SF f : pos_finite f = true -> SFpos_finite (Prim2SF f) = true.
Proof.
  unfold pos_finite. rewrite andb_true_iff. intros [Hlt Hfin].
  apply is_finite_SF in Hfin. rewrite ltb_spec in Hlt.
  change (Prim2SF 0) with (S754_zero false) in Hlt.
  destruct (Prim2SF f) as [s|s| |s m e]; simpl in *; try discriminate.
  destruct s; [discriminate | reflexivity].
Qed.

Lemma add_nonneg e x :
  (0 <=? e) = true -> (0 <=? x) = true -> (0 <=? e + x) = true.
Proof.
  intros He Hx. apply leb_zero_SF in He, Hx. apply leb_zero_SF.
  rewrite add_spec. apply SFadd_nonneg; assumption.
Qed.

(** Adding a non-negative amount never lowers a non-negative total. *)
Lemma add_ge e x :
  (0 <=? e) = true -> (0 <=? x) = true -> (e <=? e + x) = true.
Proof.
  intros He Hx. apply leb_zero_SF in He, Hx.
  rewrite leb_spec, add_spec. apply SFadd_ge; auto using Prim2SF_valid.
Qed.

Lemma leb_refl e : (0 <=? e) = true -> (e <=? e) = true.
Proof. intros He. apply leb_zero_SF in He. rewrite leb_spec. apply SFleb_refl, He. Qed.

Lemma sub_nonneg a b :
  is_finite a = true -> is_finite b = true -> (b <=? a) = true ->
  (0 <=? a - b) = true.
Proof.
  intros Ha Hb Hle. apply leb_zero_SF. rewrite leb_spec in Hle. rewrite sub_spec.
  apply SFsub_nonneg; auto using Prim2SF_valid, is_finite_SF.
Qed.

Lemma div_nonneg x y :
  (0 <=? x) = true -> pos_finite y = true -> (0 <=? x / y) = true.
Proof.
  intros Hx Hy. apply leb_zero_SF. rewrite div_spec.
  apply SFdiv_nonneg; [apply leb_zero_SF | apply pos_finite_SF]; assumption.
Qed.

Lemma mul_nonneg x y :
  pos_finite x = true -> (0 <=? y) = true -> (0 <=? x * y) = true.
Proof.
  intros Hx Hy. apply leb_zero_SF. rewrite mul_spec.
  apply SFmul_nonneg; [apply pos_finite_SF | apply leb_zero_SF]; assumption.
Qed.

End Binary64.

(** ** Field by field *)

Lemma HarviaDeviceData_eta (d : HarviaDeviceData) :
  d =
  mkHarviaDeviceData
    (d.(device_id)) (d.(display_name)) (d.(active)) (d.(lights_on))
    (d.(fan_on)) (d.(steam_on)) (d.(steam_enabled)) (d.(aroma_enabled))
    (d.(aroma_level)) (d.(auto_light)) (d.(auto_fan)) (d.(dehumidifier_enabled))
    (d.(target_temp)) (d.(current_temp)) (d.(target_rh)) (d.(humidity))
    (d.(temp_unit)) (d.(heat_up_time)) (d.(remaining_time)) (d.(on_time))
    (d.(status_codes)) (d.(door_open)) (d.(heat_on)) (d.(wifi_rssi))
    (d.(timestamp)) (d.(ph1_relay_counter)) (d.(ph2_relay_counter)) (d.(ph3_relay_counter))
    (d.(ph1_relay_counter_lt)) (d.(ph2_relay_counter_lt)) (d.(ph3_relay_counter_lt)) (d.(steam_on_counter))
    (d.(steam_on_counter_lt)) (d.(heat_on_counter)) (d.(heat_on_counter_lt)) (d.(heater_power))
    (d.(energy_kwh)) (_last_heat_on_timestamp d).
Proof. destruct d; reflexivity. Qed.

Lemma if_in_frame {A B : Type} (p : A -> B) (data : dict) (key : string)
    (f : pyval -> A -> A) (d : A) (old : B) :
  (forall v d', p (f v d') = p d') -> p d = old ->
  p (if_in data key f d) = old.
Proof. intros H <-. unfold if_in. destruct (data !! key); auto. Qed.

Lemma if_in_hit {A B : Type} (p : A -> B) (g : pyval -> B) (data : dict)
    (key : string) (f : pyval -> A -> A) (d : A) (old : B) :
  (forall v d', p (f v d') = g v) -> p d = old ->
  p (if_in data key f d) = from_key data key g old.
Proof. intros H <-. unfold if_in, from_key. destruct (data !! key); auto. Qed.

Lemma if_in_door (str_builtin : pyval -> string) (data : dict) (key : string)
    (d : HarviaDeviceData) (old : bool) :
  door_open d = old ->
  door_open
    (if_in data key
       (fun v d =>
          let d := d <| status_codes := Some (py_str str_builtin v) |> in
          parse_door_open (py_str str_builtin v) d) d) =
  from_key data key (fun v => door_after (py_str str_builtin v) old) old.
Proof.
  intros <-.
  unfold if_in, from_key. destruct (data !! key) as [v|]; [|reflexivity].
  destruct d. unfold parse_door_open, door_after. simpl.
  destruct (String.get 1 _); [|reflexivity].
  destruct (py_int_char _); reflexivity.
Qed.

(** A step of the chain leaves the projection in the goal alone. *)
Ltac field_frame :=
  intros ? [];
  first
    [ reflexivity
    | unfold parse_door_open; simpl;
      destruct (String.get 1 _); [destruct (py_int_char _)|]; reflexivity ].

(** A step of the chain sets the projection in the goal. *)
Ltac field_hit :=
  intros ? []; unfold parse_door_open; simpl; unfold constant;
  try (destruct (String.get 1 _); [destruct (py_int_char _)|]);
  simpl; reflexivity.

(** Walks a chain of [if_in] steps from the outside in, for one field. *)
Ltac field_of_chain :=
  lazymatch goal with
  | |- _ (if_in _ _ _ _) = _ =>
      first
        [ apply if_in_frame; [field_frame | field_of_chain]
        | apply if_in_hit; [field_hit | field_of_chain]
        | apply if_in_door; field_of_chain ]
  | |- _ => reflexivity
  end.

Section Fields.

Variable str_builtin : pyval -> string.

(** [_apply_state_data], one field at a time. *)
Lemma apply_state_fields (d : HarviaDeviceData) (data : dict) :
  _apply_state_data str_builtin d data = state_fields str_builtin d data.
Proof.
  rewrite (HarviaDeviceData_eta (_apply_state_data str_builtin d data)).
  unfold _apply_state_data, state_fields. cbv zeta.
  f_equal; field_of_chain.
Qed.

(** The field merge of [_apply_telemetry_data] without its [heatOn] block. *)
Lemma apply_telemetry_chain_fields (d : HarviaDeviceData) (data : dict) :
  apply_telemetry_rest
    (if_in data "humidity" (fun v d => d <| humidity := v |>)
       (if_in data "temperature" (fun v d => d <| current_temp := v |>) d))
    data =
  telemetry_fields d data.
Proof.
  match goal with |- ?l = _ => rewrite (HarviaDeviceData_eta l) end.
  unfold apply_telemetry_rest, COUNTER_ATTRS, telemetry_fields.
  cbv zeta. simpl fold_left.
  f_equal; field_of_chain.
Qed.

Lemma sensor_then_rest (d : HarviaDeviceData) (data : dict) :
  apply_telemetry_rest (sensor_fields d data) data = telemetry_fields d data.
Proof.
  rewrite <- apply_telemetry_chain_fields. f_equal.
  unfold sensor_fields, if_in, from_key.
  destruct d, (data !! "temperature"), (data !! "humidity"); reflexivity.
Qed.

(** The [heatOn] block does not read what the two assignments before it
    write. *)
Lemma apply_heat_on_sensor (now : float) (v : pyval) (d : HarviaDeviceData)
    (data : dict) :
  apply_heat_on now v
    (if_in data "humidity" (fun v d => d <| humidity := v |>)
       (if_in data "temperature" (fun v d => d <| current_temp := v |>) d)) =
  match apply_heat_on now v d with
  | Done d' => Done (sensor_fields d' data)
  | Raised e d' => Raised e (sensor_fields d' data)
  end.
Proof.
  unfold sensor_fields, if_in, from_key, apply_heat_on.
  destruct d as [? ? ? ? ? ? ? ? ? ? ? ? ? ? ? ? ? ? ? ? ? ? h ? ? ? ? ? ? ? ?
                   ? ? ? ? P e t].
  destruct (data !! "temperature"), (data !! "humidity"); simpl;
    destruct t, h; simpl; try destruct (float_of_Z P); simpl;
    destruct (py_bool v); reflexivity.
Qed.

(** A telemetry delta without [heatOn]: a plain field merge. *)
Lemma apply_telemetry_plain (now : float) (d : HarviaDeviceData) (data : dict) :
  data !! "heatOn" = None ->
  _apply_telemetry_data now d data = Done (telemetry_fields d data).
Proof.
  intros H. unfold _apply_telemetry_data. cbv zeta. rewrite H.
  f_equal. apply apply_telemetry_chain_fields.
Qed.

(** A telemetry delta with [heatOn]: the block, then the field merge. *)
Lemma apply_telemetry_heat (now : float) (d : HarviaDeviceData) (data : dict)
    (v : pyval) :
  data !! "heatOn" = Some v ->
  _apply_telemetry_data now d data =
  match apply_heat_on now v d with
  | Done d' => Done (telemetry_fields d' data)
  | Raised e d' => Raised e (sensor_fields d' data)
  end.
Proof.
  intros H. unfold _apply_telemetry_data. cbv zeta. rewrite H.
  rewrite apply_heat_on_sensor.
  destruct (apply_heat_on now v d); [|reflexivity].
  f_equal. apply sensor_then_rest.
Qed.

End Fields.

(** ** Energy integration *)

Lemma telemetry_fields_heat (d : HarviaDeviceData) (data : dict) :
  (telemetry_fields d data).(heat_on) = d.(heat_on) /\
  (telemetry_fields d data).(heater_power) = d.(heater_power) /\
  (telemetry_fields d data).(energy_kwh) = d.(energy_kwh) /\
  _last_heat_on_timestamp (telemetry_fields d data) =
    _last_heat_on_timestamp d.
Proof. repeat split. Qed.

Lemma sensor_fields_heat (d : HarviaDeviceData) (data : dict) :
  (sensor_fields d data).(heat_on) = d.(heat_on) /\
  (sensor_fields d data).(heater_power) = d.(heater_power) /\
  (sensor_fields d data).(energy_kwh) = d.(energy_kwh) /\
  _last_heat_on_timestamp (sensor_fields d data) =
    _last_heat_on_timestamp d.
Proof. destruct d. repeat split. Qed.

(** The [heatOn] block while heating since [since]. *)
Lemma apply_heat_on_heating (now since power : float) (v : pyval)
    (d : HarviaDeviceData) :
  d.(heat_on) = true ->
  _last_heat_on_timestamp d = Some since ->
  float_of_Z d.(heater_power) = Ok power ->
  apply_heat_on now v d =
  Done (d <| heat_on := py_bool v |>
          <| energy_kwh :=
               (d.(energy_kwh) + (power / 1000) * ((now - since) / 3600))%float |>
          <| _last_heat_on_timestamp :=
               if py_bool v then Some now else None |>).
Proof.
  unfold apply_heat_on.
  destruct d as [? ? ? ? ? ? ? ? ? ? ? ? ? ? ? ? ? ? ? ? ? ? h ? ? ? ? ? ? ? ?
                   ? ? ? ? P e t].
  simpl. intros Hh Ht Hp. subst. rewrite Hp. simpl.
  destruct (py_bool v); reflexivity.
Qed.

(** The [heatOn] block while not heating, or with no timestamp. *)
Lemma apply_heat_on_idle (now : float) (v : pyval) (d : HarviaDeviceData) :
  d.(heat_on) = false \/ _last_heat_on_timestamp d = None ->
  apply_heat_on now v d =
  Done (d <| heat_on := py_bool v |>
          <| _last_heat_on_timestamp :=
               if py_bool v then Some now else None |>).
Proof.
  unfold apply_heat_on.
  destruct d as [? ? ? ? ? ? ? ? ? ? ? ? ? ? ? ? ? ? ? ? ? ? h ? ? ? ? ? ? ? ?
                   ? ? ? ? P e t].
  simpl. intros [H | H]; subst; simpl.
  - destruct t, (py_bool v); reflexivity.
  - destruct (py_bool v); reflexivity.
Qed.

(** C1: a telemetry delta with a heat-on flag, applied to a record that was
    heating since the stored monotonic timestamp, adds
    [(heater_power / 1000) * elapsed_hours] to [energy_kwh], with
    [elapsed_hours = (now - since) / 3600]; the previous flag and timestamp
    are the ones read, and afterwards the timestamp is [now] if the new
    flag is heating and cleared otherwise.  With the nameplate power of
    10800 W, heat-on at 0 s then heat-off at 3600 s gives 10.8 kWh. *)
Theorem energy_integration :
  (forall (now since power : float) (d : HarviaDeviceData) (data : dict)
          (v : pyval),
     data !! "heatOn" = Some v ->
     d.(heat_on) = true ->
     _last_heat_on_timestamp d = Some since ->
     float_of_Z d.(heater_power) = Ok power ->
     exists d',
       _apply_telemetry_data now d data = Done d' /\
       d'.(energy_kwh) =
         (d.(energy_kwh) + (power / 1000) * ((now - since) / 3600))%float /\
       d'.(heat_on) = py_bool v /\
       _last_heat_on_timestamp d' = (if py_bool v then Some now else None)) /\
  (forall (id v_on v_off : pyval) (heating idle : dict),
     heating !! "heatOn" = Some v_on -> py_bool v_on = true ->
     idle !! "heatOn" = Some v_off -> py_bool v_off = false ->
     exists d1 d2,
       (HarviaDeviceData_init id).(heater_power) = 10800%Z /\
       _apply_telemetry_data 0 (HarviaDeviceData_init id) heating = Done d1 /\
       _apply_telemetry_data 3600 d1 idle = Done d2 /\
       d2.(energy_kwh) = 10.8%float).
Proof.
  split.
  - intros now since power d data v Hv Hh Ht Hp.
    rewrite (apply_telemetry_heat now d data v Hv).
    rewrite (apply_heat_on_heating now since power v d Hh Ht Hp).
    eexists. split; [reflexivity|].
    destruct d; simpl. auto.
  - intros id v_on v_off heating idle Hon Ton Hoff Toff.
    rewrite (apply_telemetry_heat _ _ _ _ Hon).
    rewrite apply_heat_on_idle by (left; reflexivity).
    rewrite Ton.
    eexists. eexists. split; [reflexivity|]. split; [reflexivity|].
    rewrite (apply_telemetry_heat _ _ _ _ Hoff).
    erewrite apply_heat_on_heating; [| reflexivity | reflexivity | reflexivity].
    rewrite Toff. split; reflexivity.
Qed.

Lemma energy_integration_witness :
  exists d',
    _apply_telemetry_data 3600
      ((HarviaDeviceData_init (PStr "sauna"))
         <| heat_on := true |> <| _last_heat_on_timestamp := Some 0%float |>)
      {[ "heatOn" := PBool false ]} = Done d' /\
    d'.(energy_kwh) =
      (0 + (nearest_float 10800 / 1000) * ((3600 - 0) / 3600))%float /\
    d'.(heat_on) = false /\
    _last_heat_on_timestamp d' = None.
Proof.
  exact (proj1 energy_integration 3600%float 0%float
           (nearest_float 10800)
           ((HarviaDeviceData_init (PStr "sauna"))
              <| heat_on := true |>
              <| _last_heat_on_timestamp := Some 0%float |>)
           {[ "heatOn" := PBool false ]} (PBool false)
           eq_refl eq_refl eq_refl eq_refl).
Defined.

(** ** Monotonicity of the accumulated energy *)

Lemma energy_inv_init (id : pyval) : energy_inv [] (HarviaDeviceData_init id).
Proof. repeat split. Qed.

(** The amount a [heatOn] delta adds is not negative. *)
Lemma increment_nonneg (now since power : float) :
  pos_finite (power / 1000) = true ->
  is_finite since = true -> is_finite now = true ->
  (since <=? now)%float = true ->
  (0 <=? (power / 1000) * ((now - since) / 3600))%float = true.
Proof.
  intros Hp Hs Hn Hle.
  apply Binary64.mul_nonneg; [assumption|].
  apply Binary64.div_nonneg; [|reflexivity].
  apply Binary64.sub_nonneg; assumption.
Qed.

Lemma heat_on_step (seen : list float) (now : float) (v : pyval)
    (d : HarviaDeviceData) :
  energy_inv seen d -> clock_reading seen now = true ->
  exists d',
    apply_heat_on now v d = Done d' /\
    (d.(energy_kwh) <=? d'.(energy_kwh))%float = true /\
    energy_inv (now :: seen) d'.
Proof.
  intros (He & Hp & Ht) Hc.
  unfold clock_reading in Hc. apply andb_true_iff in Hc. destruct Hc as [Hn Hs].
  unfold power_ok in Hp.
  destruct (float_of_Z d.(heater_power)) as [power|] eqn:Ep; [|discriminate].
  destruct (_last_heat_on_timestamp d) as [since|] eqn:Et.
  - destruct Ht as [Hin Hfin].
    destruct d.(heat_on) eqn:Eh.
    + rewrite (apply_heat_on_heating now since power v d Eh Et Ep).
      eexists. split; [reflexivity|].
      assert (Hle : (since <=? now)%float = true).
      { rewrite forallb_forall in Hs. apply Hs. assumption. }
      pose proof (increment_nonneg now since power Hp Hfin Hn Hle) as Hinc.
      destruct d; simpl in *. split; [|split; [|split]].
      * apply Binary64.add_ge; assumption.
      * apply Binary64.add_nonneg; assumption.
      * unfold power_ok. simpl. rewrite Ep. assumption.
      * destruct (py_bool v); simpl; auto.
    + rewrite (apply_heat_on_idle now v d) by (left; assumption).
      eexists. split; [reflexivity|].
      destruct d; simpl in *. split; [|split; [|split]].
      * apply Binary64.leb_refl; assumption.
      * assumption.
      * unfold power_ok. simpl. rewrite Ep. assumption.
      * destruct (py_bool v); simpl; auto.
  - rewrite (apply_heat_on_idle now v d) by (right; assumption).
    eexists. split; [reflexivity|].
    destruct d; simpl in *. split; [|split; [|split]].
    + apply Binary64.leb_refl; assumption.
    + assumption.
    + unfold power_ok. simpl. rewrite Ep. assumption.
    + destruct (py_bool v); simpl; auto.
Qed.

Lemma energy_inv_seen (seen : list float) (now : float)
    (d : HarviaDeviceData) :
  energy_inv seen d -> energy_inv (now :: seen) d.
Proof.
  intros (He & Hp & Ht). repeat split; try assumption.
  destruct (_last_heat_on_timestamp d); [|exact I].
  destruct Ht. split; [right|]; assumption.
Qed.

Lemma energy_inv_fields (seen : list float) (d d' : HarviaDeviceData) :
  d'.(energy_kwh) = d.(energy_kwh) ->
  d'.(heater_power) = d.(heater_power) ->
  _last_heat_on_timestamp d' = _last_heat_on_timestamp d ->
  energy_inv seen d -> energy_inv seen d'.
Proof.
  unfold energy_inv, power_ok. intros -> -> ->. auto.
Qed.

(** One telemetry delta on a record that satisfies the invariant. *)
Lemma telemetry_step (seen : list float) (now : float) (d : HarviaDeviceData)
    (data : dict) :
  energy_inv seen d -> clock_reading seen now = true ->
  exists d',
    _apply_telemetry_data now d data = Done d' /\
    (d.(energy_kwh) <=? d'.(energy_kwh))%float = true /\
    energy_inv (now :: seen) d'.
Proof.
  intros Hinv Hc.
  destruct (data !! "heatOn") as [v|] eqn:Ev.
  - rewrite (apply_telemetry_heat now d data v Ev).
    destruct (heat_on_step seen now v d Hinv Hc) as (d' & -> & Hle & Hinv').
    eexists. split; [reflexivity|]. split; [exact Hle|].
    eapply energy_inv_fields; [| | | exact Hinv']; reflexivity.
  - rewrite (apply_telemetry_plain now d data Ev).
    eexists. split; [reflexivity|]. split.
    + apply Binary64.leb_refl, Hinv.
    + apply energy_inv_seen.
      eapply energy_inv_fields; [| | | exact Hinv]; reflexivity.
Qed.

(** One state delta: the three fields of the energy integration stay. *)
Lemma state_step (str_builtin : pyval -> string) (seen : list float)
    (d : HarviaDeviceData) (data : dict) :
  energy_inv seen d ->
  (_apply_state_data str_builtin d data).(energy_kwh) = d.(energy_kwh) /\
  energy_inv seen (_apply_state_data str_builtin d data).
Proof.
  intros Hinv. rewrite apply_state_fields. split; [reflexivity|].
  eapply energy_inv_fields; [| | | exact Hinv]; reflexivity.
Qed.

Lemma delta_step (str_builtin : pyval -> string) (seen : list float)
    (u : delta) (d : HarviaDeviceData) :
  energy_inv seen d -> monotonic_clock seen [u] = true ->
  (d.(energy_kwh) <=? (apply_delta str_builtin u d).(energy_kwh))%float = true /\
  exists seen', energy_inv seen' (apply_delta str_builtin u d) /\
    forall history, monotonic_clock seen (u :: history) =
                    monotonic_clock seen [u] && monotonic_clock seen' history.
Proof.
  intros Hinv Hc. destruct u as [data | now data]; simpl in *.
  - destruct (state_step str_builtin seen d data Hinv) as [He Hinv'].
    rewrite He. split; [apply Binary64.leb_refl, Hinv|].
    exists seen. split; [assumption|]. reflexivity.
  - rewrite andb_true_r in Hc.
    destruct (telemetry_step seen now d data Hinv Hc) as (d' & -> & Hle & Hinv').
    simpl. split; [assumption|].
    exists (now :: seen). split; [assumption|].
    intros history. rewrite andb_true_r. reflexivity.
Qed.

Lemma lifetime_step (str_builtin : pyval -> string) (history : list delta) :
  forall (seen : list float) (d : HarviaDeviceData) (u : delta),
    energy_inv seen d ->
    monotonic_clock seen (history ++ [u]) = true ->
    (energy_kwh (lifetime str_builtin d history) <=?
     energy_kwh (apply_delta str_builtin u (lifetime str_builtin d history)))%float
    = true.
Proof.
  induction history as [|a history IH]; intros seen d u Hinv Hc.
  - apply (delta_step str_builtin seen u d Hinv Hc).
  - change ((a :: history) ++ [u]) with (a :: (history ++ [u])) in Hc.
    assert (Ha : monotonic_clock seen [a] = true).
    { destruct a; simpl in *; [reflexivity|].
      apply andb_true_iff in Hc. destruct Hc as [-> _]. reflexivity. }
    destruct (delta_step str_builtin seen a d Hinv Ha) as (_ & seen' & Hinv' & Hs).
    rewrite Hs, Ha in Hc. simpl in Hc.
    apply (IH seen' _ u Hinv' Hc).
Qed.

(** ** Status codes and the door *)

Lemma py_int_char_digit (c : ascii) :
  py_int_char c =
  if is_decimal_digit c then Some (digit_value c) else None.
Proof.
  unfold py_int_char, is_decimal_digit, digit_value.
  rewrite <- (N_nat_Z (N_of_ascii c)).
  change (N.to_nat (N_of_ascii c)) with (nat_of_ascii c).
  generalize (nat_of_ascii c). intros n.
  destruct (Nat.leb_spec 48 n), (Nat.leb_spec n 57),
    (Z.leb_spec 48 (Z.of_nat n)), (Z.leb_spec (Z.of_nat n) 57);
    simpl; try reflexivity; lia.
Qed.

Lemma digit_nine (c : ascii) :
  is_decimal_digit c = true -> (digit_value c =? 9)%Z = Ascii.eqb c "9".
Proof.
  intros _. unfold digit_value.
  destruct (Ascii.eqb_spec c "9") as [-> | Hne]; [reflexivity|].
  apply Z.eqb_neq. intros H. apply Hne.
  rewrite <- (ascii_nat_embedding c).
  replace (nat_of_ascii c) with 57%nat by lia. reflexivity.
Qed.

(** [door_open] after a delta that carries the status-code string [s]. *)
Lemma door_open_of_status (str_builtin : pyval -> string)
    (d : HarviaDeviceData) (data : dict) (v : pyval) :
  data !! "statusCodes" = Some v ->
  (_apply_state_data str_builtin d data).(door_open) =
  door_after (py_str str_builtin v) d.(door_open).
Proof.
  intros H. rewrite apply_state_fields. simpl. unfold from_key.
  rewrite H. reflexivity.
Qed.

(** C5: for a delta with a raw status-code string, a second character that
    is the digit 9 sets [door_open]; any other digit clears it; a string
    shorter than two characters, or one whose second character is no digit,
    leaves [door_open] as it was.  [_apply_state_data] returns a record in
    every case: no exception leaves it.  In particular "19" gives true,
    "11" gives false, and a one-character string changes nothing. *)
Theorem status_code_door (str_builtin : pyval -> string)
    (d : HarviaDeviceData) (data : dict) (s : string) :
  data !! "statusCodes" = Some (PStr s) ->
  let d' := _apply_state_data str_builtin d data in
  (forall c, String.get 1 s = Some c -> is_decimal_digit c = true ->
             d'.(door_open) = Ascii.eqb c "9") /\
  (forall c, String.get 1 s = Some c -> is_decimal_digit c = false ->
             d'.(door_open) = d.(door_open)) /\
  ((String.length s < 2)%nat -> d'.(door_open) = d.(door_open)) /\
  (s = "19" -> d'.(door_open) = true) /\
  (s = "11" -> d'.(door_open) = false) /\
  (forall c, s = String c "" -> d'.(door_open) = d.(door_open)).
Proof.
  intros H d'. unfold d'.
  rewrite (door_open_of_status str_builtin d data (PStr s) H).
  simpl py_str. unfold door_after.
  repeat split.
  - intros c -> Hc. rewrite py_int_char_digit, Hc. apply digit_nine, Hc.
  - intros c -> Hc. rewrite py_int_char_digit, Hc. reflexivity.
  - intros Hlen. destruct s as [|a [|b s]]; simpl in *; try reflexivity. lia.
  - intros ->. reflexivity.
  - intros ->. reflexivity.
  - intros c ->. reflexivity.
Qed.

Lemma status_code_door_witness :
  let d := HarviaDeviceData_init (PStr "sauna") in
  let d' := _apply_state_data (fun _ => "") d {[ "statusCodes" := PStr "19" ]} in
  d'.(door_open) = true.
Proof.
  exact (proj1 (proj2 (proj2 (proj2
           (status_code_door (fun _ => "") (HarviaDeviceData_init (PStr "sauna"))
              {[ "statusCodes" := PStr "19" ]} "19" eq_refl)))) eq_refl).
Defined.

(** ** Idempotence *)

Lemma from_key_idem {B : Type} (data : dict) (key : string) (g : pyval -> B)
    (old : B) :
  from_key data key g (from_key data key g old) = from_key data key g old.
Proof. unfold from_key. destruct (data !! key); reflexivity. Qed.

Lemma door_after_idem (codes : string) (old : bool) :
  door_after codes (door_after codes old) = door_after codes old.
Proof.
  unfold door_after. destruct (String.get 1 codes); [|reflexivity].
  destruct (py_int_char _); reflexivity.
Qed.

Lemma state_fields_idem (str_builtin : pyval -> string)
    (d : HarviaDeviceData) (data : dict) :
  state_fields str_builtin (state_fields str_builtin d data) data =
  state_fields str_builtin d data.
Proof.
  destruct d. unfold state_fields. simpl.
  f_equal; try apply from_key_idem.
  unfold from_key. destruct (data !! "statusCodes"); [|reflexivity].
  apply door_after_idem.
Qed.

Lemma telemetry_fields_absorb (d : HarviaDeviceData) (data : dict)
    (h : bool) (e : float) (t : option float) :
  telemetry_fields (with_heat h e t (telemetry_fields d data)) data =
  with_heat h e t (telemetry_fields d data).
Proof.
  destruct d. unfold telemetry_fields, with_heat. simpl.
  f_equal; apply from_key_idem.
Qed.

Lemma with_heat_same (d : HarviaDeviceData) :
  with_heat d.(heat_on) d.(energy_kwh) (_last_heat_on_timestamp d) d = d.
Proof. destruct d; reflexivity. Qed.

Lemma telemetry_fields_idem (d : HarviaDeviceData) (data : dict) :
  telemetry_fields (telemetry_fields d data) data = telemetry_fields d data.
Proof.
  rewrite <- (with_heat_same (telemetry_fields d data)) at 1.
  rewrite telemetry_fields_absorb. apply with_heat_same.
Qed.

(** A telemetry delta with [heatOn], applied a second time at [now2]. *)
Lemma telemetry_again (now1 now2 : float) (d d1 : HarviaDeviceData)
    (data : dict) (v : pyval) :
  data !! "heatOn" = Some v ->
  _apply_telemetry_data now1 d data = Done d1 ->
  d1.(heat_on) = py_bool v /\
  _last_heat_on_timestamp d1 = (if py_bool v then Some now1 else None) /\
  d1.(heater_power) = d.(heater_power) /\
  forall h e t,
    telemetry_fields (with_heat h e t d1) data = with_heat h e t d1.
Proof.
  intros Hv H1. rewrite (apply_telemetry_heat now1 d data v Hv) in H1.
  destruct (apply_heat_on now1 v d) as [d'|] eqn:E; [|discriminate].
  injection H1 as <-.
  assert (Hd' : d'.(heat_on) = py_bool v /\
                _last_heat_on_timestamp d' =
                  (if py_bool v then Some now1 else None) /\
                d'.(heater_power) = d.(heater_power)).
  { unfold apply_heat_on in E.
    destruct d as [? ? ? ? ? ? ? ? ? ? ? ? ? ? ? ? ? ? ? ? ? ? h0 ? ? ? ? ? ?
                     ? ? ? ? ? ? P e0 t0].
    simpl in E.
    destruct t0, h0; simpl in E; try destruct (float_of_Z P); simpl in E;
      try discriminate; destruct (py_bool v); injection E as <-; auto. }
  destruct Hd' as (Hh & Ht & Hp).
  repeat split; try assumption.
  intros h e t. apply telemetry_fields_absorb.
Qed.

(** C6: applying the same delta twice gives the record that applying it
    once gives, for every state delta and every telemetry delta without a
    heat-on flag.  A telemetry delta whose heat-on flag is true is the
    exception: applied again, it adds the energy of the time elapsed on
    the monotonic clock between the two applications, and moves the
    timestamp.  One whose heat-on flag is false is no exception. *)
Theorem delta_idempotence (str_builtin : pyval -> string) :
  (forall (d : HarviaDeviceData) (data : dict),
     _apply_state_data str_builtin (_apply_state_data str_builtin d data) data
     = _apply_state_data str_builtin d data) /\
  (forall (now1 now2 : float) (d : HarviaDeviceData) (data : dict),
     data !! "heatOn" = None ->
     exists d1,
       _apply_telemetry_data now1 d data = Done d1 /\
       _apply_telemetry_data now2 d1 data = Done d1) /\
  (forall (now1 now2 power : float) (d d1 : HarviaDeviceData) (data : dict)
          (v : pyval),
     data !! "heatOn" = Some v -> py_bool v = true ->
     float_of_Z d.(heater_power) = Ok power ->
     _apply_telemetry_data now1 d data = Done d1 ->
     _apply_telemetry_data now2 d1 data =
     Done (d1 <| energy_kwh :=
                   (d1.(energy_kwh) +
                    (power / 1000) * ((now2 - now1) / 3600))%float |>
              <| _last_heat_on_timestamp := Some now2 |>)) /\
  (forall (now1 now2 : float) (d d1 : HarviaDeviceData) (data : dict)
          (v : pyval),
     data !! "heatOn" = Some v -> py_bool v = false ->
     _apply_telemetry_data now1 d data = Done d1 ->
     _apply_telemetry_data now2 d1 data = Done d1).
Proof.
  split; [|split; [|split]].
  - intros d data. rewrite !apply_state_fields. apply state_fields_idem.
  - intros now1 now2 d data H. eexists.
    split; [apply (apply_telemetry_plain now1 d data H)|].
    rewrite (apply_telemetry_plain now2 _ data H).
    f_equal. apply telemetry_fields_idem.
  - intros now1 now2 power d d1 data v Hv Tv Hp H1.
    destruct (telemetry_again now1 now2 d d1 data v Hv H1)
      as (Hh & Ht & HP & Habs).
    rewrite Tv in Hh, Ht. rewrite <- HP in Hp.
    rewrite (apply_telemetry_heat now2 d1 data v Hv).
    rewrite (apply_heat_on_heating now2 now1 power v d1 Hh Ht Hp).
    rewrite Tv. f_equal.
    transitivity
      (with_heat true
         (d1.(energy_kwh) + power / 1000 * ((now2 - now1) / 3600))%float
         (Some now2) d1).
    { exact (Habs _ _ _). }
    unfold with_heat. destruct d1; simpl in *. subst. reflexivity.
  - intros now1 now2 d d1 data v Hv Tv H1.
    destruct (telemetry_again now1 now2 d d1 data v Hv H1)
      as (Hh & Ht & HP & Habs).
    rewrite Tv in Hh, Ht.
    rewrite (apply_telemetry_heat now2 d1 data v Hv).
    rewrite (apply_heat_on_idle now2 v d1) by (left; assumption).
    rewrite Tv.
    transitivity (Done (telemetry_fields
                          (with_heat d1.(heat_on) d1.(energy_kwh)
                             (_last_heat_on_timestamp d1) d1) data)).
    { f_equal. f_equal. rewrite Hh, Ht. destruct d1; reflexivity. }
    rewrite Habs, with_heat_same. reflexivity.
Qed.

Lemma delta_idempotence_witness :
  exists d1,
    _apply_telemetry_data 5 (HarviaDeviceData_init (PStr "sauna"))
      {[ "temperature" := PInt 80 ]} = Done d1 /\
    _apply_telemetry_data 9 d1 {[ "temperature" := PInt 80 ]} = Done d1.
Proof.
  exact (proj1 (proj2 (delta_idempotence (fun _ => "")))
           5%float 9%float (HarviaDeviceData_init (PStr "sauna"))
           {[ "temperature" := PInt 80 ]} eq_refl).
Defined.

(** ** The fallback poll *)

Lemma apply_heat_on_power (now : float) (v : pyval) (d : HarviaDeviceData) :
  (state_of (apply_heat_on now v d)).(heater_power) = d.(heater_power).
Proof.
  unfold apply_heat_on.
  destruct d as [? ? ? ? ? ? ? ? ? ? ? ? ? ? ? ? ? ? ? ? ? ? h ? ? ? ? ? ? ? ?
                   ? ? ? ? P e t].
  simpl. destruct t, h; simpl; try destruct (float_of_Z P); simpl;
    destruct (py_bool v); reflexivity.
Qed.

(** No delta writes [heater_power]. *)
Lemma heater_power_frame (str_builtin : pyval -> string) (now : float)
    (d : HarviaDeviceData) (data : dict) :
  (_apply_state_data str_builtin d data).(heater_power) = d.(heater_power) /\
  (state_of (_apply_telemetry_data now d data)).(heater_power) =
    d.(heater_power).
Proof.
  split.
  - rewrite apply_state_fields. reflexivity.
  - destruct (data !! "heatOn") as [v|] eqn:Ev.
    + rewrite (apply_telemetry_heat now d data v Ev).
      pose proof (apply_heat_on_power now v d) as H.
      destruct (apply_heat_on now v d) as [d'|e d']; simpl in *.
      * exact H.
      * destruct d'; exact H.
    + rewrite (apply_telemetry_plain now d data Ev). reflexivity.
Qed.

(** Such a record starts from zero energy and the default power, whatever
    was fetched. *)
Lemma polled_record_fresh (str_builtin : pyval -> string) (now : float)
    (id : string) (state telemetry : dict) :
  exists d,
    polled_record str_builtin now id state telemetry = Done d /\
    d.(energy_kwh) = 0%float /\
    d.(heater_power) = DEFAULT_HEATER_POWER_W /\
    (_last_heat_on_timestamp d = None \/ _last_heat_on_timestamp d = Some now).
Proof.
  unfold polled_record. rewrite apply_state_fields.
  set (d0 := state_fields str_builtin (HarviaDeviceData_init (PStr id)) state).
  destruct (telemetry !! "heatOn") as [v|] eqn:Ev.
  - rewrite (apply_telemetry_heat now d0 telemetry v Ev).
    rewrite (apply_heat_on_idle now v d0) by (left; reflexivity).
    eexists. split; [reflexivity|]. simpl.
    repeat split. destruct (py_bool v); auto.
  - rewrite (apply_telemetry_plain now d0 telemetry Ev).
    eexists. split; [reflexivity|]. simpl. auto.
Qed.

(** Every record of a poll's result that was not in the container the loop
    started from is a freshly built one. *)
Lemma poll_devices_fresh (str_builtin : pyval -> string)
    (device_tree : list device_entry) :
  forall (sd0 sd : HarviaSaunaData) (id : string) (d : HarviaDeviceData),
    poll_devices str_builtin device_tree sd0 = Ok sd ->
    sd.(devices) !! id = Some d ->
    sd0.(devices) !! id = Some d \/
    (d.(energy_kwh) = 0%float /\ d.(heater_power) = DEFAULT_HEATER_POWER_W).
Proof.
  induction device_tree as [|entry device_tree IH]; intros sd0 sd id d Hp Hl.
  - injection Hp as <-. left. exact Hl.
  - simpl in Hp.
    destruct (entry_name entry) as [name|]; [|discriminate].
    destruct (entry_state entry) as [state|]; [|discriminate].
    destruct (entry_telemetry entry) as [telemetry|]; [|discriminate].
    simpl in Hp.
    destruct (polled_record_fresh str_builtin (entry_now entry) name state
                telemetry) as (d' & Hd' & He & HP & _).
    unfold polled_record in Hd'. rewrite Hd' in Hp.
    destruct (IH _ _ id d Hp Hl) as [Hin | Hfresh]; [|right; exact Hfresh].
    destruct sd0 as [devs av]. cbv [apply_update constant devices] in Hin.
    simpl in Hin.
    destruct (decide (name = id)) as [-> | Hne].
    + rewrite lookup_insert_eq in Hin. injection Hin as <-. right. auto.
    + rewrite lookup_insert_ne in Hin by assumption. left. exact Hin.
Qed.

Lemma update_devices (str_builtin : pyval -> string)
    (self : HarviaSaunaCoordinator) (device_tree : result (list device_entry))
    (sd : HarviaSaunaData) :
  _async_update_data str_builtin self device_tree = Updated sd ->
  exists tree sd',
    device_tree = Ok tree /\
    poll_devices str_builtin tree HarviaSaunaData_init = Ok sd' /\
    sd.(devices) = sd'.(devices).
Proof.
  unfold _async_update_data.
  destruct device_tree as [tree|e]; simpl.
  - destruct (poll_devices str_builtin tree HarviaSaunaData_init) as [sd'|e]
      eqn:E; simpl.
    + intros H. injection H as <-. exists tree, sd'.
      destruct sd'; auto.
    + destruct e; discriminate.
  - destruct e; discriminate.
Qed.

(** C2, what the code does instead: a poll never mutates an existing
    record.  [_async_update_data] starts from an empty container and builds
    every record anew, so every record of its result has zero accumulated
    energy, whatever the record of the same device held before the poll. *)
Theorem poll_builds_fresh_records (str_builtin : pyval -> string)
    (self : HarviaSaunaCoordinator) (device_tree : result (list device_entry))
    (sd : HarviaSaunaData) (id : string) (d : HarviaDeviceData) :
  _async_update_data str_builtin self device_tree = Updated sd ->
  sd.(devices) !! id = Some d ->
  d.(energy_kwh) = 0%float /\
  (async_refresh str_builtin self device_tree).(data) = Some sd.
Proof.
  intros Hu Hl. split.
  - destruct (update_devices str_builtin self device_tree sd Hu)
      as (tree & sd' & _ & Hp & Hd).
    rewrite Hd in Hl.
    destruct (poll_devices_fresh str_builtin tree _ _ id d Hp Hl)
      as [Hin | [He _]]; [|exact He].
    simpl in Hin. rewrite lookup_empty in Hin. discriminate.
  - unfold async_refresh. rewrite Hu. destruct self; reflexivity.
Qed.

Lemma poll_builds_fresh_records_witness :
  (((HarviaDeviceData_init (PStr "sauna-1"))
      <| heat_on := true |>
      <| _last_heat_on_timestamp := Some 400%float |>).(energy_kwh) = 0%float)
  /\
  (async_refresh (fun _ => "") heating_coordinator heating_poll).(data) =
  Some {| devices :=
            {[ "sauna-1" :=
                 (HarviaDeviceData_init (PStr "sauna-1"))
                   <| heat_on := true |>
                   <| _last_heat_on_timestamp := Some 400%float |> ]};
          available := true |}.
Proof.
  exact (poll_builds_fresh_records (fun _ => "") heating_coordinator
           heating_poll _ "sauna-1" _ eq_refl eq_refl).
Defined.

(** C4, what the code does instead: no delta writes [heater_power], and
    the poll gives every record the default of the dataclass, 10800 W,
    whatever heater power the config entry holds. *)
Theorem heater_power_is_the_default (str_builtin : pyval -> string) :
  (forall (now : float) (d : HarviaDeviceData) (data : dict),
     (_apply_state_data str_builtin d data).(heater_power) = d.(heater_power)
     /\
     (state_of (_apply_telemetry_data now d data)).(heater_power) =
       d.(heater_power)) /\
  (forall (self : HarviaSaunaCoordinator)
          (device_tree : result (list device_entry)) (sd : HarviaSaunaData)
          (id : string) (d : HarviaDeviceData),
     _async_update_data str_builtin self device_tree = Updated sd ->
     sd.(devices) !! id = Some d ->
     d.(heater_power) = DEFAULT_HEATER_POWER_W).
Proof.
  split.
  - intros now d data. apply heater_power_frame.
  - intros self device_tree sd id d Hu Hl.
    destruct (update_devices str_builtin self device_tree sd Hu)
      as (tree & sd' & _ & Hp & Hd).
    rewrite Hd in Hl.
    destruct (poll_devices_fresh str_builtin tree _ _ id d Hp Hl)
      as [Hin | [_ HP]]; [|exact HP].
    simpl in Hin. rewrite lookup_empty in Hin. discriminate.
Qed.

Lemma heater_power_is_the_default_witness :
  heating_coordinator.(config_entry) !! CONF_HEATER_POWER = Some "6.0" /\
  ((HarviaDeviceData_init (PStr "sauna-1"))
     <| heat_on := true |>
     <| _last_heat_on_timestamp := Some 400%float |>).(heater_power) = 10800%Z.
Proof.
  split; [reflexivity|].
  exact (proj2 (heater_power_is_the_default (fun _ => ""))
           heating_coordinator heating_poll _ "sauna-1" _ eq_refl eq_refl).
Defined.

(** Applying the same snapshot in place to the record of
    [heating_coordinator] would have kept the 5.4 kWh and added the 300 s
    of heating since the reading 100. *)
Example in_place_keeps_energy :
  forall d,
    heating_coordinator.(data) ≫= (fun sd => sd.(devices) !! "sauna-1")
      = Some d ->
    (5.4 <? (state_of
               (_apply_telemetry_data 400
                  (_apply_state_data (fun _ => "") d ∅)
                  {[ "heatOn" := PBool true ]})).(energy_kwh))%float = true.
Proof. intros d H. injection H as <-. reflexivity. Qed.

(** ** The energy under every update *)

Lemma known_device_Some (device_id : pyval)
    (devs : gmap string HarviaDeviceData) (id : string)
    (device : HarviaDeviceData) :
  known_device device_id devs = Ok (Some (id, device)) ->
  devs !! id = Some device.
Proof.
  unfold known_device.
  destruct (py_bool device_id); [|discriminate].
  destruct device_id as [| | | |s| |]; try discriminate.
  destruct (devs !! s) eqn:E; [|discriminate].
  intros H. injection H as <- <-. exact E.
Qed.

Lemma energy_inv_more (seen seen' : list float) (d : HarviaDeviceData) :
  (forall t, In t seen -> In t seen') ->
  energy_inv seen d -> energy_inv seen' d.
Proof.
  intros Hsub (He & Hp & Ht). repeat split; try assumption.
  destruct (_last_heat_on_timestamp d); [|exact I].
  destruct Ht. split; auto.
Qed.

Lemma records_inv_more (seen seen' : list float)
    (self : HarviaSaunaCoordinator) :
  (forall t, In t seen -> In t seen') ->
  records_inv seen self -> records_inv seen' self.
Proof.
  intros Hsub Hinv id d Hl. apply (energy_inv_more seen); auto.
  apply (Hinv id), Hl.
Qed.

(** One delta with the reading [now] on a record that satisfies the
    invariant. *)
Lemma pushed_delta_step (str_builtin : pyval -> string) (seen : list float)
    (now : float) (u : delta) (d : HarviaDeviceData) :
  energy_inv seen d -> clock_reading seen now = true ->
  (exists data, u = StateDelta data) \/
  (exists data, u = TelemetryDelta now data) ->
  (d.(energy_kwh) <=? (apply_delta str_builtin u d).(energy_kwh))%float = true
  /\ energy_inv (now :: seen) (apply_delta str_builtin u d).
Proof.
  intros Hinv Hc [[data ->] | [data ->]]; simpl.
  - destruct (state_step str_builtin seen d data Hinv) as [He Hinv'].
    rewrite He. split; [apply Binary64.leb_refl, Hinv|].
    apply energy_inv_seen, Hinv'.
  - destruct (telemetry_step seen now d data Hinv Hc)
      as (d' & -> & Hle & Hinv').
    simpl. auto.
Qed.

(** A record as the poll builds it. *)
Lemma polled_record_inv (str_builtin : pyval -> string) (now : float)
    (id : string) (state telemetry : dict) :
  is_finite now = true ->
  exists d,
    polled_record str_builtin now id state telemetry = Done d /\
    energy_inv [now] d.
Proof.
  intros Hfin. unfold polled_record.
  destruct (state_step str_builtin [] (HarviaDeviceData_init (PStr id)) state
              (energy_inv_init _)) as [_ Hinv].
  destruct (telemetry_step [] now _ telemetry Hinv) as (d & Hd & _ & Hinv').
  { unfold clock_reading. rewrite Hfin. reflexivity. }
  exists d. auto.
Qed.

Lemma poll_devices_inv (str_builtin : pyval -> string)
    (device_tree : list device_entry) :
  forall (seen : list float) (sd0 sd : HarviaSaunaData),
    poll_devices str_builtin device_tree sd0 = Ok sd ->
    forallb is_finite (entry_now <$> device_tree) = true ->
    (forall id d, sd0.(devices) !! id = Some d -> energy_inv seen d) ->
    forall id d, sd.(devices) !! id = Some d ->
      energy_inv ((entry_now <$> device_tree) ++ seen) d.
Proof.
  induction device_tree as [|entry device_tree IH];
    intros seen sd0 sd Hp Hfin H0 id d Hl.
  - injection Hp as <-. apply (H0 id), Hl.
  - simpl in Hp, Hfin. apply andb_true_iff in Hfin. destruct Hfin as [Hnow Hfin].
    destruct (entry_name entry) as [name|]; [|discriminate].
    destruct (entry_state entry) as [state|]; [|discriminate].
    destruct (entry_telemetry entry) as [telemetry|]; [|discriminate].
    simpl in Hp.
    destruct (polled_record_inv str_builtin (entry_now entry) name state
                telemetry Hnow) as (d' & Hd' & Hinv').
    unfold polled_record in Hd'. rewrite Hd' in Hp.
    apply (energy_inv_more
             ((entry_now <$> device_tree) ++ entry_now entry :: seen)).
    { intros t. simpl. rewrite !in_app_iff. simpl. tauto. }
    apply (fun H => IH _ _ _ Hp Hfin H id d Hl).
    intros id0 d0. destruct sd0 as [devs av].
    cbv [apply_update constant devices]. simpl.
    destruct (decide (name = id0)) as [-> | Hne].
    + rewrite lookup_insert_eq. intros H. injection H as <-.
      apply (energy_inv_more [entry_now entry]); [|exact Hinv'].
      intros t [<- | []]. left. reflexivity.
    + rewrite lookup_insert_ne by assumption. intros H.
      apply energy_inv_seen, (H0 id0), H.
Qed.

(** What a refresh leaves: the fresh container of a poll that succeeded,
    in which every record has no energy, or the coordinator as it was. *)
Lemma poll_step (str_builtin : pyval -> string) (seen : list float)
    (self : HarviaSaunaCoordinator)
    (device_tree : result (list device_entry)) :
  records_inv seen self ->
  forallb is_finite (poll_readings device_tree) = true ->
  let self' := async_refresh str_builtin self device_tree in
  records_inv (poll_readings device_tree ++ seen) self' /\
  match _async_update_data str_builtin self device_tree with
  | Updated sd =>
      self'.(data) = Some sd /\
      forall id d', sd.(devices) !! id = Some d' ->
        d'.(energy_kwh) = 0%float
  | _ => self' = self
  end.
Proof.
  intros Hinv Hfin self'. unfold self', async_refresh.
  destruct (_async_update_data str_builtin self device_tree) as [sd| |] eqn:Hu.
  - destruct (update_devices str_builtin self device_tree sd Hu)
      as (tree & sd' & -> & Hp & Hd).
    split; [|split].
    + intros id d. unfold entity._get_device_data.
      destruct self as [config held]; cbv [apply_update constant data]. simpl.
      rewrite Hd. intros Hl.
      apply (fun H => poll_devices_inv str_builtin tree seen _ _ Hp Hfin H id d Hl).
      simpl. intros id0 d0 H. rewrite lookup_empty in H. discriminate.
    + destruct self; reflexivity.
    + intros id d' Hl. rewrite Hd in Hl.
      destruct (poll_devices_fresh str_builtin tree _ _ id d' Hp Hl)
        as [Hin | [He _]]; [|exact He].
      simpl in Hin. rewrite lookup_empty in Hin. discriminate.
  - split; [|reflexivity].
    apply (records_inv_more seen); [|exact Hinv].
    intros t. rewrite in_app_iff. tauto.
  - split; [|reflexivity].
    apply (records_inv_more seen); [|exact Hinv].
    intros t. rewrite in_app_iff. tauto.
Qed.

Section Pushed.

Variable str_builtin : pyval -> string.
Variable json_decode : string -> option pyval.

Opaque _apply_state_data _apply_telemetry_data.

(** What the handler does to the container: nothing, or it applies one
    delta, with its own clock reading, to the record of one known
    device. *)
Lemma handle_ws_update_delta (now : float) (sd : HarviaSaunaData)
    (payload_data : pyval) (o : outcome HarviaSaunaData) (updated : bool) :
  handle_ws_update str_builtin json_decode now sd payload_data
  = Ok (o, updated) ->
  state_of o = sd \/
  exists id device u,
    sd.(devices) !! id = Some device /\
    ((exists data, u = StateDelta data) \/
     (exists data, u = TelemetryDelta now data)) /\
    state_of o = store_device sd id (apply_delta str_builtin u device).
Proof.
  unfold handle_ws_update.
  destruct (py_in "onStateUpdated" payload_data) as [[|]|];
    simpl; [| |discriminate].
  - destruct (py_getitem payload_data "onStateUpdated") as [body|];
      simpl; [|discriminate].
    destruct (py_get body "reported") as [reported|]; simpl; [|discriminate].
    destruct (py_bool reported); simpl;
      [|intros H; injection H as <- <-; left; reflexivity].
    destruct (json_loads json_decode reported) as [state|];
      simpl; [|discriminate].
    destruct (py_get state "deviceId") as [device_id|]; simpl; [|discriminate].
    destruct (known_device device_id (devices sd)) as [[[id device]|]|] eqn:Ek;
      simpl; [| |discriminate].
    + apply known_device_Some in Ek.
      destruct state as [| | | | | |state]; intros H; injection H as <- <-;
        try (left; reflexivity).
      right. exists id, device, (StateDelta state).
      split; [exact Ek|]. split; [left; eauto | reflexivity].
    + intros H; injection H as <- <-; left; reflexivity.
  - destruct (py_in "onDataUpdates" payload_data) as [[|]|];
      simpl; [| |discriminate].
    + destruct (py_getitem payload_data "onDataUpdates") as [body|];
        simpl; [|discriminate].
      destruct (py_get_default body "item" (PDict ∅)) as [item|];
        simpl; [|discriminate].
      destruct (py_get item "deviceId") as [device_id|];
        simpl; [|discriminate].
      destruct (known_device device_id (devices sd))
        as [[[id device]|]|] eqn:Ek; simpl; [| |discriminate].
      * apply known_device_Some in Ek.
        destruct item as [| | | | | |item];
          try (intros H; injection H as <- <-; left; reflexivity).
        destruct (match item !! "data" with
                  | Some v => json_loads json_decode v
                  | None => Ok (PDict ∅)
                  end) as [telemetry|]; simpl; [|discriminate].
        destruct telemetry as [| | | | | |telemetry]; try discriminate.
        destruct (_apply_telemetry_data now device _) as [d'|e d'] eqn:Ed;
          intros H; injection H as <- <-; right;
          exists id, device,
            (TelemetryDelta now
               (<["timestamp" := default PNone (item !! "timestamp")]>
                  telemetry));
          (split; [exact Ek|]); (split; [right; eauto|]);
          simpl; rewrite Ed; reflexivity.
      * intros H; injection H as <- <-; left; reflexivity.
    + intros H; injection H as <- <-; left; reflexivity.
Qed.

Transparent _apply_state_data _apply_telemetry_data.

(** A push never lowers the energy of a record, also when the handler
    raises. *)
Lemma push_step (seen : list float) (now : float)
    (self : HarviaSaunaCoordinator) (payload_data : pyval) :
  records_inv seen self -> clock_reading seen now = true ->
  let self' :=
    state_of
      (_async_handle_ws_update str_builtin json_decode now self
         payload_data).1 in
  records_inv (now :: seen) self' /\
  forall id d, entity._get_device_data self id = Some d ->
    exists d', entity._get_device_data self' id = Some d' /\
      (d.(energy_kwh) <=? d'.(energy_kwh))%float = true.
Proof.
  intros Hinv Hc self'.
  assert (Hsame : records_inv (now :: seen) self /\
            forall id d, entity._get_device_data self id = Some d ->
              exists d', entity._get_device_data self id = Some d' /\
                (d.(energy_kwh) <=? d'.(energy_kwh))%float = true).
  { split.
    - apply (records_inv_more seen); [|exact Hinv]. intros t; simpl; tauto.
    - intros id d Hl. exists d. split; [exact Hl|].
      apply Binary64.leb_refl, (Hinv id d Hl). }
  unfold self', _async_handle_ws_update.
  destruct self as [config [sd|]]; [|exact Hsame].
  cbn [data].
  destruct (handle_ws_update str_builtin json_decode now sd payload_data)
    as [[o updated]|e] eqn:E; [|exact Hsame].
  apply handle_ws_update_delta in E.
  assert (Hself : state_of
            (match o with
             | Done sd0 =>
                 (Done ({| config_entry := config; data := Some sd |}
                          <| data := Some sd0 |>), updated)
             | Raised e sd0 =>
                 (Raised e ({| config_entry := config; data := Some sd |}
                              <| data := Some sd0 |>), updated)
             end).1 =
          {| config_entry := config; data := Some (state_of o) |})
    by (destruct o; reflexivity).
  rewrite Hself. clear Hself.
  destruct E as [-> | (id & device & u & Hl & Hu & ->)]; [exact Hsame|].
  destruct (pushed_delta_step str_builtin seen now u device
              (Hinv id device Hl) Hc Hu) as [Hle Hinv'].
  destruct sd as [devs av].
  unfold records_inv, entity._get_device_data, store_device in *.
  cbv [apply_update constant devices] in *. simpl in *.
  split.
  - intros id0 d0. destruct (decide (id = id0)) as [<- | Hne].
    + rewrite lookup_insert_eq. intros H. injection H as <-. exact Hinv'.
    + rewrite lookup_insert_ne by assumption. intros H.
      apply energy_inv_seen, (Hinv id0 d0 H).
  - intros id0 d0 Hl0. destruct (decide (id = id0)) as [<- | Hne].
    + rewrite lookup_insert_eq. rewrite Hl in Hl0. injection Hl0 as <-.
      eexists. split; [reflexivity | exact Hle].
    + rewrite lookup_insert_ne by assumption. exists d0. split; [exact Hl0|].
      apply Binary64.leb_refl, (Hinv id0 d0 Hl0).
Qed.

(** The records of a coordinator keep the invariant over every
    operation. *)
Lemma operation_inv (seen : list float) (op : update_operation)
    (self : HarviaSaunaCoordinator) :
  records_inv seen self -> steady_clock seen [op] = true ->
  exists seen',
    records_inv seen' (apply_operation str_builtin json_decode op self) /\
    forall ops, steady_clock seen (op :: ops) =
                steady_clock seen [op] && steady_clock seen' ops.
Proof.
  intros Hinv Hc. destruct op as [now payload_data | device_tree];
    simpl in Hc; rewrite andb_true_r in Hc.
  - exists (now :: seen). split.
    + apply (push_step seen now self payload_data Hinv Hc).
    + intros ops. simpl. rewrite andb_true_r. reflexivity.
  - exists (poll_readings device_tree ++ seen). split.
    + apply (poll_step str_builtin seen self device_tree Hinv Hc).
    + intros ops. simpl. rewrite andb_true_r. reflexivity.
Qed.

Lemma updates_step (earlier : list update_operation) :
  forall (seen : list float) (self : HarviaSaunaCoordinator),
    records_inv seen self ->
    forall op, steady_clock seen (earlier ++ [op]) = true ->
    exists seen',
      records_inv seen' (updates str_builtin json_decode self earlier) /\
      steady_clock seen' [op] = true.
Proof.
  induction earlier as [|a earlier IH]; intros seen self Hinv op Hc.
  - exists seen. auto.
  - change ((a :: earlier) ++ [op]) with (a :: (earlier ++ [op])) in Hc.
    assert (Ha : steady_clock seen [a] = true).
    { destruct a; simpl in *; apply andb_true_iff in Hc;
        destruct Hc as [-> _]; reflexivity. }
    destruct (operation_inv seen a self Hinv Ha) as (seen' & Hinv' & Hs).
    rewrite Hs, Ha in Hc. simpl in Hc.
    apply (IH seen' _ Hinv' op Hc).
Qed.

End Pushed.

(** C3: [energy_kwh] under every update operation of the code.  Over the
    lifetime of a record object, under every state delta and telemetry
    delta, the energy after the update is greater than or equal to the
    energy before.  Over the operations on a coordinator, from its creation
    on: a push never lowers the energy of a record, also when the handler
    raises; a fallback poll that succeeds replaces every record by a new
    one whose energy is zero, so the energy of a device is lower after the
    poll whenever it was positive before; a poll that fails changes
    nothing.  The clock readings are finite and those of the deltas never
    go backwards. *)
Theorem energy_kwh_over_updates (str_builtin : pyval -> string)
    (json_decode : string -> option pyval) (config : gmap string string) :
  (forall (id : pyval) (history : list delta) (u : delta),
     monotonic_clock [] (history ++ [u]) = true ->
     let d := lifetime str_builtin (HarviaDeviceData_init id) history in
     (d.(energy_kwh) <=? (apply_delta str_builtin u d).(energy_kwh))%float
     = true) /\
  (forall (earlier : list update_operation) (op : update_operation),
     steady_clock [] (earlier ++ [op]) = true ->
     let self :=
       updates str_builtin json_decode
         {| config_entry := config; data := None |} earlier in
     let self' := apply_operation str_builtin json_decode op self in
     match op with
     | PushUpdate _ _ =>
         forall id d, entity._get_device_data self id = Some d ->
           exists d', entity._get_device_data self' id = Some d' /\
             (d.(energy_kwh) <=? d'.(energy_kwh))%float = true
     | PollUpdate device_tree =>
         match _async_update_data str_builtin self device_tree with
         | Updated sd =>
             self'.(data) = Some sd /\
             forall id d', entity._get_device_data self' id = Some d' ->
               d'.(energy_kwh) = 0%float /\
               forall d, entity._get_device_data self id = Some d ->
                 (0 <=? d.(energy_kwh))%float = true /\
                 (d'.(energy_kwh) <? d.(energy_kwh))%float =
                 (0 <? d.(energy_kwh))%float
         | _ => self' = self
         end
     end).
Proof.
  split.
  - intros id history u Hc.
    apply (lifetime_step str_builtin history [] _ u); [|exact Hc].
    apply energy_inv_init.
  - intros earlier op Hc self self'.
    destruct (updates_step str_builtin json_decode earlier []
                {| config_entry := config; data := None |})
      with (op := op) as (seen & Hinv & Hop); [|exact Hc|].
    { intros id d H. discriminate H. }
    fold self in Hinv.
    destruct op as [now payload_data | device_tree]; simpl in Hop;
      rewrite andb_true_r in Hop.
    + apply (push_step str_builtin json_decode seen now self payload_data
               Hinv Hop).
    + pose proof (proj2 (poll_step str_builtin seen self device_tree
                           Hinv Hop)) as Hpoll.
      subst self'. cbn [apply_operation]. cbv zeta in Hpoll.
      destruct (_async_update_data str_builtin self device_tree)
        as [sd| |]; try exact Hpoll.
      destruct Hpoll as [Hdata Hzero]. split; [exact Hdata|].
      intros id d' Hl'. unfold entity._get_device_data in Hl'.
      rewrite Hdata in Hl'.
      rewrite (Hzero id d' Hl'). split; [reflexivity|].
      intros d Hl. split; [apply (Hinv id d Hl) | reflexivity].
Qed.

Lemma energy_kwh_over_updates_witness :
  let str_builtin := fun _ : pyval => "" in
  let json_decode := decode_one heat_data (PDict {[ "heatOn" := PBool true ]}) in
  let self :=
    updates str_builtin json_decode {| config_entry := ∅; data := None |}
      metered_updates in
  let self' :=
    apply_operation str_builtin json_decode (PollUpdate (heat_poll 2200)) self
  in
  energy_kwh <$> entity._get_device_data self "sauna-1" = Some 5.4%float /\
  energy_kwh <$> entity._get_device_data self' "sauna-1" = Some 0%float /\
  (let d := lifetime str_builtin (HarviaDeviceData_init (PStr "sauna"))
              [ TelemetryDelta 10 {[ "heatOn" := PBool true ]};
                StateDelta {[ "statusCodes" := PStr "19" ]} ] in
   (d.(energy_kwh) <=?
    (apply_delta str_builtin
       (TelemetryDelta 3610 {[ "heatOn" := PBool true ]}) d).(energy_kwh))%float
   = true).
Proof.
  intros str_builtin json_decode self self'.
  split; [reflexivity|]. split.
  - pose proof (proj2 (energy_kwh_over_updates str_builtin json_decode ∅)
                  metered_updates (PollUpdate (heat_poll 2200)) eq_refl)
      as Hpoll.
    cbv zeta in Hpoll. fold self in Hpoll. fold self' in Hpoll.
    destruct (_async_update_data str_builtin self (heat_poll 2200))
      as [sd| |] eqn:Hu; try discriminate Hu.
    destruct Hpoll as [_ Hzero].
    destruct (entity._get_device_data self' "sauna-1") as [d'|] eqn:Hl;
      [|discriminate Hl].
    simpl. f_equal. apply (Hzero "sauna-1" d' Hl).
  - exact (proj1 (energy_kwh_over_updates str_builtin json_decode ∅)
             (PStr "sauna")
             [ TelemetryDelta 10 {[ "heatOn" := PBool true ]};
               StateDelta {[ "statusCodes" := PStr "19" ]} ]
             (TelemetryDelta 3610 {[ "heatOn" := PBool true ]})
             eq_refl).
Defined.

(** ** Push updates *)

Lemma coordinator_data_same (self : HarviaSaunaCoordinator)
    (sd : HarviaSaunaData) :
  self.(data) = Some sd -> self <| data := Some sd |> = self.
Proof. destruct self; simpl. intros ->. reflexivity. Qed.

Lemma poll_devices_creates (str_builtin : pyval -> string)
    (device_tree : list device_entry) :
  Forall entry_fetched device_tree ->
  forall sd0 : HarviaSaunaData,
  exists sd,
    poll_devices str_builtin device_tree sd0 = Ok sd /\
    forall id,
      (is_Some (sd0.(devices) !! id) \/
       Exists (fun entry => entry.(entry_name) = Ok id) device_tree) ->
      is_Some (sd.(devices) !! id).
Proof.
  induction 1 as [|entry device_tree Hentry _ IH]; intros sd0.
  - exists sd0. split; [reflexivity|].
    intros id [H | H]; [exact H | inversion H].
  - destruct Hentry as ((name & Hn) & (state & Hs) & (telemetry & Ht)).
    simpl. rewrite Hn, Hs, Ht. simpl.
    destruct (polled_record_fresh str_builtin (entry_now entry) name state
                telemetry) as (d' & Hd' & _).
    unfold polled_record in Hd'. rewrite Hd'.
    destruct (IH (sd0 <| devices := <[name := d']> sd0.(devices) |>))
      as (sd & Hp & Hk).
    exists sd. split; [exact Hp|].
    intros id Hid. apply Hk.
    destruct sd0 as [devs av]. cbv [apply_update constant devices]. simpl.
    destruct (decide (name = id)) as [-> | Hne].
    + left. rewrite lookup_insert_eq. eauto.
    + rewrite lookup_insert_ne by assumption.
      destruct Hid as [Hid | Hid]; [left; exact Hid|].
      inversion Hid as [? ? Hhere | ? ? Hthere]; subst.
      * rewrite Hn in Hhere. injection Hhere as ->. contradiction.
      * right. exact Hthere.
Qed.

(** C9: a push state delta that names a device identifier which is not a
    key of the device map is dropped: the coordinator is left as it was,
    no record is created and no update is published.  A fallback poll
    whose device tree lists the same identifier creates its record. *)
Theorem unknown_device_dropped (str_builtin : pyval -> string)
    (json_decode : string -> option pyval) :
  (forall (now : float) (self : HarviaSaunaCoordinator) (sd : HarviaSaunaData)
          (payload_data body state : dict) (reported id : string),
     self.(data) = Some sd ->
     payload_data !! "onStateUpdated" = Some (PDict body) ->
     body !! "reported" = Some (PStr reported) ->
     json_decode reported = Some (PDict state) ->
     state !! "deviceId" = Some (PStr id) ->
     sd.(devices) !! id = None ->
     _async_handle_ws_update str_builtin json_decode now self
       (PDict payload_data) = (Done self, false)) /\
  (forall (self : HarviaSaunaCoordinator) (device_tree : list device_entry)
          (id : string),
     Forall entry_fetched device_tree ->
     Exists (fun entry => entry.(entry_name) = Ok id) device_tree ->
     exists sd,
       (async_refresh str_builtin self (Ok device_tree)).(data) = Some sd /\
       is_Some (sd.(devices) !! id)).
Proof.
  split.
  - intros now self sd payload_data body state reported id
      Hd Hp Hb Hj Hs Hk.
    destruct self as [config dat]. simpl in Hd. subst dat.
    unfold _async_handle_ws_update, handle_ws_update. simpl.
    rewrite Hp. simpl. rewrite Hb. simpl.
    destruct (String.eqb reported ""); simpl; [reflexivity|].
    rewrite Hj. simpl. rewrite Hs. simpl.
    unfold known_device. simpl.
    destruct (String.eqb id ""); simpl; [reflexivity|].
    rewrite Hk. reflexivity.
  - intros self device_tree id Hall Hex.
    destruct (poll_devices_creates str_builtin device_tree Hall
                HarviaSaunaData_init) as (sd & Hp & Hk).
    exists (sd <| available := true |>).
    unfold async_refresh, _async_update_data. simpl. rewrite Hp. simpl.
    split; [destruct self; reflexivity|].
    destruct sd. simpl. apply Hk. right. exact Hex.
Qed.

Lemma unknown_device_dropped_witness :
  _async_handle_ws_update (fun _ => "")
    (decode_one stray_reported (PDict stray_state))
    50 heating_coordinator (PDict stray_payload)
  = (Done heating_coordinator, false).
Proof.
  exact (proj1 (unknown_device_dropped (fun _ => "")
                  (decode_one stray_reported (PDict stray_state)))
           50%float heating_coordinator
           {| devices :=
                {[ "sauna-1" :=
                     (HarviaDeviceData_init (PStr "sauna-1"))
                       <| heat_on := true |>
                       <| energy_kwh := 5.4%float |>
                       <| _last_heat_on_timestamp := Some 100%float |> ]};
              available := true |}
           stray_payload stray_body stray_state stray_reported "sauna-2"
           eq_refl eq_refl eq_refl eq_refl eq_refl eq_refl).
Defined.

(** C10: a push envelope, state update or telemetry, that arrives while the
    coordinator holds no data is discarded: the coordinator is left as it
    was, no update is published and nothing is raised. *)
Theorem push_before_first_poll (str_builtin : pyval -> string)
    (json_decode : string -> option pyval) (now : float)
    (config : gmap string string) (payload_data : pyval) :
  _async_handle_ws_update str_builtin json_decode now
    {| config_entry := config; data := None |} payload_data =
  (Done {| config_entry := config; data := None |}, false).
Proof. reflexivity. Qed.

(** ** Reconnect backoff *)

(** The powers of two that convert to a float: up to [2 ^ 1023]. *)
Lemma float_of_pow2 (N : Z) :
  (0 <= N <= 1023)%Z -> float_of_Z (2 ^ N) = Ok (nearest_float (2 ^ N)).
Proof.
  intros HN.
  assert (Hall : forallb
            (fun n => negb (SF_is_infinity
                       (binary_normalize prec emax (2 ^ Z.of_nat n) 0 false)))
            (seq 0 1024) = true) by (vm_compute; reflexivity).
  rewrite forallb_forall in Hall.
  specialize (Hall (Z.to_nat N)).
  rewrite Z2Nat.id in Hall by lia.
  unfold float_of_Z.
  destruct (SF_is_infinity _); [|reflexivity].
  discriminate Hall. apply in_seq. lia.
Qed.

(** [2 ** 1024 + random.uniform(0, 1)] raises. *)
Example float_of_pow2_overflow : float_of_Z (2 ^ 1024) = Raise OverflowError.
Proof. vm_compute. reflexivity. Qed.

Section Backoff.

Variable json_decode : string -> option pyval.
Context {C : Type}.
Variable on_message : C -> string -> pyval -> C * option exn.

(** The receive loop leaves the attempt counter alone, whatever frames
    arrive. *)
Lemma await_recv_attempts (events : list recv_event) :
  forall (self : HarviaWebSocket) (ls : listen_state) (c : C)
         (receives : list float),
    (listened_self
       (await_recv json_decode on_message self ls c receives events))
      .(_reconnect_attempts) = self.(_reconnect_attempts).
Proof.
  induction events as [|ev events IH]; intros self ls c receives; simpl.
  - reflexivity.
  - destruct ev as [| |e|raw subscribe|]; simpl; try reflexivity.
    + destruct (handle_frame json_decode on_message self ls c raw subscribe)
        as [c' [[ls' [|]]|e]]; simpl; try reflexivity.
      destruct (_running self); simpl; [apply IH | reflexivity].
    + rewrite IH. destruct self; reflexivity.
Qed.

Lemma receive_loop_attempts (self : HarviaWebSocket) (ls : listen_state)
    (c : C) (events : list recv_event) :
  (listened_self (receive_loop json_decode on_message self ls c events))
    .(_reconnect_attempts) = self.(_reconnect_attempts).
Proof.
  unfold receive_loop. destruct (_running self); [|reflexivity].
  apply await_recv_attempts.
Qed.

Lemma attempts_set_websocket (self : HarviaWebSocket) (b : bool) :
  (self <| _websocket := b |>).(_reconnect_attempts) =
  self.(_reconnect_attempts).
Proof. destruct self; reflexivity. Qed.

Lemma attempts_set_subscription_id (self : HarviaWebSocket) (id : string) :
  (self <| _subscription_id := id |>).(_reconnect_attempts) =
  self.(_reconnect_attempts).
Proof. destruct self; reflexivity. Qed.

Lemma attempts_set (self : HarviaWebSocket) (n : Z) :
  (self <| _reconnect_attempts := n |>).(_reconnect_attempts) = n.
Proof. destruct self; reflexivity. Qed.

(** The counter after [_async_connect_and_listen]: zero once the transport
    connected, untouched otherwise. *)
Lemma connect_and_listen_attempts (self : HarviaWebSocket) (c : C)
    (env : connect_env) :
  (_async_connect_and_listen json_decode on_message self c env).1.1.1
    .(_reconnect_attempts) =
  if transport_connected env then 0%Z else self.(_reconnect_attempts).
Proof.
  unfold _async_connect_and_listen, transport_connected.
  destruct (env_ws_info env); [|reflexivity].
  destruct (env_url env); [|reflexivity].
  cbv zeta.
  destruct (env_connect env); [|apply attempts_set_subscription_id].
  destruct (env_send_init env); [|apply attempts_set].
  match goal with
  | |- context [receive_loop ?j ?o ?s ?l ?cc ?e] =>
      pose proof (receive_loop_attempts s l cc e) as H;
      destruct (receive_loop j o s l cc e) as [lend lself lstate lc lrecv]
  end.
  rewrite attempts_set in H. cbn [listened_self] in H.
  cbn [listened_end listened_self listened_callback listened_receives].
  destruct lend; cbn [fst]; exact H.
Qed.

Lemma backoff_curve (self : HarviaWebSocket) (jitter : float) :
  (0 <= self.(_reconnect_attempts) <= 1023)%Z ->
  backoff self jitter =
  (self <| _reconnect_attempts := (self.(_reconnect_attempts) + 1)%Z |>,
   Sleeping
     (py_min (nearest_float (2 ^ self.(_reconnect_attempts)) + jitter)%float
        (nearest_float WS_MAX_RECONNECT_DELAY))).
Proof.
  intros HN. unfold backoff. rewrite (float_of_pow2 _ HN). reflexivity.
Qed.

(** C7 as amended: when a connection cycle ends or fails while the session
    is running, the delay before the next attempt is
    [min(2^N + jitter, MAX_DELAY)] and the counter becomes [N + 1], where
    [N] is the counter at that moment: zero if the transport connected
    during the cycle, with or without a [connection_ack], and the count
    before the cycle otherwise.  [N] is at most 1023 here. *)
Theorem backoff_after_cycle (self self' : HarviaWebSocket) (c c' : C)
    (env : connect_env) (jitter : float) (ended : attempt_end)
    (receives : list float) :
  self.(_running) = true ->
  _async_connect_and_listen json_decode on_message self c env =
    (self', c', ended, receives) ->
  ended <> StillListening -> ended <> Failed CancelledError ->
  self'.(_running) = true ->
  let N := if transport_connected env then 0%Z
           else self.(_reconnect_attempts) in
  (0 <= N <= 1023)%Z ->
  async_run_pass json_decode on_message self c env jitter =
  (self' <| _reconnect_attempts := (N + 1)%Z |>, c',
   Sleeping
     (py_min (nearest_float (2 ^ N) + jitter)%float
        (nearest_float WS_MAX_RECONNECT_DELAY))).
Proof.
  intros Hrun Hcl Hlisten Hcancel Hrun' N HN.
  pose proof (connect_and_listen_attempts self c env) as Hatt.
  rewrite Hcl in Hatt. simpl in Hatt. fold N in Hatt.
  unfold async_run_pass. rewrite Hrun, Hcl.
  assert (Hb : backoff self' jitter =
               (self' <| _reconnect_attempts := (N + 1)%Z |>,
                Sleeping
                  (py_min (nearest_float (2 ^ N) + jitter)%float
                     (nearest_float WS_MAX_RECONNECT_DELAY)))).
  { rewrite backoff_curve by (rewrite Hatt; exact HN).
    rewrite Hatt. reflexivity. }
  destruct ended as [|e|]; [| |contradiction].
  - rewrite Hrun', Hb. reflexivity.
  - destruct e; try contradiction; rewrite Hrun', Hb; reflexivity.
Qed.

End Backoff.

Lemma backoff_after_cycle_witness :
  async_run_pass (fun _ => None) (fun (c : unit) _ _ => (c, None))
    tired_session tt silent_cycle 0.5 =
  (reconnected_session <| _reconnect_attempts := 1%Z |>, tt, Sleeping 1.5).
Proof.
  exact (backoff_after_cycle (fun _ => None) (fun (c : unit) _ _ => (c, None))
           tired_session reconnected_session tt tt silent_cycle 0.5 Returned
           [nearest_float WS_HEARTBEAT_TIMEOUT]
           eq_refl eq_refl ltac:(discriminate) ltac:(discriminate) eq_refl
           ltac:(simpl; lia)).
Defined.

Example silent_cycle_pass :
  async_run_pass (fun _ => None) (fun (c : unit) _ _ => (c, None))
    tired_session tt silent_cycle 0.5 =
  (reconnected_session <| _reconnect_attempts := 1%Z |>, tt, Sleeping 1.5).
Proof. vm_compute. reflexivity. Qed.

(** After three failures, a cycle that connects and then times out without
    any [connection_ack] backs off 1.5 s (the curve of zero) and leaves the
    counter at 1; as specified it would be 8.5 s and 4. *)
Lemma backoff_reset_without_ack :
  (exists self',
     async_run_pass (fun _ => None) (fun (c : unit) _ _ => (c, None))
       tired_session tt silent_cycle 0.5 = (self', tt, Sleeping 1.5) /\
     self'.(_reconnect_attempts) = 1%Z /\
     tired_session.(_reconnect_attempts) = 3%Z /\
     py_min (nearest_float (2 ^ 3) + 0.5)%float
       (nearest_float WS_MAX_RECONNECT_DELAY) = 8.5%float) /\
  ~ backoff_as_specified.
Proof.
  split.
  - eexists. split; [exact silent_cycle_pass|]. repeat split.
  - intros H.
    destruct (H tired_session _ silent_cycle 0.5%float _ eq_refl
                ltac:(repeat constructor) silent_cycle_pass)
      as [Hcount _].
    discriminate Hcount.
Qed.

(** ** The heartbeat timeout *)

Lemma timeout_set_reconnect_timer (ls : listen_state) (t : float) :
  (ls <| reconnect_timer := t |>).(timeout) = ls.(timeout).
Proof. destruct ls; reflexivity. Qed.

Section Heartbeat.

Variable json_decode : string -> option pyval.
Context {C : Type}.
Variable on_message : C -> string -> pyval -> C * option exn.

(** A [connection_ack] that carries [connectionTimeoutMs]. *)
Lemma ack_sets_timeout (self : HarviaWebSocket) (ls : listen_state) (c : C)
    (raw_message : string) (message payload : dict) (ms : pyval)
    (seconds : float) :
  json_decode raw_message = Some (PDict message) ->
  message !! "type" = Some (PStr "connection_ack") ->
  message !! "payload" = Some (PDict payload) ->
  payload !! "connectionTimeoutMs" = Some ms ->
  py_truediv_1000 ms = Ok seconds ->
  handle_frame json_decode on_message self ls c raw_message (Ok tt) =
  (c, Ok (ls <| timeout := seconds |>, Continue)).
Proof.
  intros Hj Ht Hp Hms Hdiv.
  unfold handle_frame. simpl. rewrite Hj. simpl. rewrite Ht. simpl.
  unfold ack_timeout. simpl. rewrite Hp. simpl.
  rewrite bool_decide_eq_false_2.
  2:{ intros ->. rewrite lookup_empty in Hms. discriminate. }
  simpl. rewrite Hms. simpl. rewrite Hdiv. reflexivity.
Qed.

(** Every other frame leaves [timeout] as it is. *)
Lemma frame_keeps_timeout (self : HarviaWebSocket) (ls ls' : listen_state)
    (c c' : C) (raw_message : string) (subscribe : result unit)
    (ctl : loop_ctl) :
  renegotiates json_decode raw_message = false ->
  handle_frame json_decode on_message self ls c raw_message subscribe =
    (c', Ok (ls', ctl)) ->
  ls'.(timeout) = ls.(timeout).
Proof.
  unfold renegotiates, handle_frame. simpl.
  destruct (json_decode raw_message) as [message|]; [|discriminate].
  destruct (py_get message "type") as [msg_type|]; [|discriminate].
  destruct (py_eq_str msg_type "ka").
  { intros _.
    destruct (_ <=? _)%float; intros H; injection H as _ <- _;
      apply timeout_set_reconnect_timer. }
  destruct (py_eq_str msg_type "connection_ack").
  { unfold ack_timeout.
    destruct (py_get message "payload") as [payload|]; [|discriminate].
    simpl. intros ->. simpl. destruct subscribe; [|discriminate].
    simpl. intros H. injection H as _ <- _. reflexivity. }
  intros _.
  destruct (py_eq_str msg_type "data").
  { destruct (on_message c (_endpoint self) message) as [c'' [e|]];
      [discriminate|]. intros H. injection H as _ <- _. reflexivity. }
  intros H. injection H as _ <- _. reflexivity.
Qed.

(** While no frame renegotiates, the loop starts one [wait_for] after each
    frame it handles, with the timeout it holds now; as long as it has not
    ended, it has handled every frame. *)
Lemma await_recv_waits (events : list recv_event) :
  Forall (keeps_timeout json_decode) events ->
  forall (self : HarviaWebSocket) (ls : listen_state) (c : C)
         (receives : list float),
  let l := await_recv json_decode on_message self ls c receives events in
  exists k,
    (k <= frames_received events)%nat /\
    listened_receives l = receives ++ replicate k ls.(timeout) /\
    (listened_end l = LoopPending ->
       k = frames_received events /\
       (listened_state l).(timeout) = ls.(timeout)).
Proof.
  induction 1 as [|ev events Hev _ IH]; intros self ls c receives.
  - exists 0%nat. simpl. rewrite app_nil_r. auto.
  - destruct ev as [| |e|raw subscribe|]; simpl;
      try (exists 0%nat; simpl; rewrite app_nil_r;
           repeat split; try lia; discriminate).
    + destruct (handle_frame json_decode on_message self ls c raw subscribe)
        as [c' [[ls' ctl]|e]] eqn:E;
        try (exists 0%nat; simpl; rewrite app_nil_r;
             repeat split; try lia; discriminate).
      pose proof (frame_keeps_timeout self ls ls' c c'
                    raw subscribe ctl Hev E) as Hkeep.
      destruct ctl;
        try (exists 0%nat; simpl; rewrite app_nil_r;
             repeat split; try lia; discriminate).
      destruct (_running self);
        try (exists 0%nat; simpl; rewrite app_nil_r;
             repeat split; try lia; discriminate).
      destruct (IH self ls' c' (receives ++ [timeout ls']))
        as (k & Hle & Hk & Hpending).
      exists (S k). split; [lia|]. split.
      * rewrite Hk, Hkeep, <- app_assoc. reflexivity.
      * intros Hend. destruct (Hpending Hend) as [-> ->]. auto.
    + apply IH.
Qed.

(** Delivering a frame to one task touches no other task and no session. *)
Lemma deliver_frame_others (i j : nat) (raw_message : string)
    (subscribe : result unit) (self : HarviaWebSocketManager) (c : C) :
  i <> j ->
  let self' :=
    (deliver_frame json_decode on_message i raw_message subscribe self c).1 in
  self'.(_tasks) !! j = self.(_tasks) !! j /\
  self'.(_connections) = self.(_connections).
Proof.
  intros Hne. unfold deliver_frame.
  destruct (_connections self !! i) as [ws|]; [|split; reflexivity].
  destruct (_tasks self !! i) as [[ls|]|]; try (split; reflexivity).
  destruct (handle_frame json_decode on_message ws ls c raw_message subscribe)
    as [c' [[ls' [|]]|e]]; destruct self as [conns tasks running]; simpl;
    (split; [apply list_lookup_insert_ne; assumption | reflexivity]).
Qed.

(** C8: a [connection_ack] whose payload carries [connectionTimeoutMs]
    makes [connectionTimeoutMs / 1000] the read timeout of the session that
    received it, and of that session only.  The loop of a running session
    starts its next [wait_for] with it, and one more after every later
    frame it handles, all of them with it until a later acknowledgement
    renegotiates: while the loop has not ended, these are as many waits as
    frames have arrived since, and one.  A session that was stopped leaves
    the loop after the acknowledgement and waits no more.  With
    [connectionTimeoutMs = 60000] among four sessions, that session waits
    60 s and the three others keep their 300 s. *)
Theorem server_timeout_adopted :
  (forall (self : HarviaWebSocket) (ls : listen_state) (c : C)
          (receives : list float) (events : list recv_event)
          (raw_message : string) (message payload : dict) (ms : pyval)
          (seconds : float),
     json_decode raw_message = Some (PDict message) ->
     message !! "type" = Some (PStr "connection_ack") ->
     message !! "payload" = Some (PDict payload) ->
     payload !! "connectionTimeoutMs" = Some ms ->
     py_truediv_1000 ms = Ok seconds ->
     Forall (keeps_timeout json_decode) events ->
     let l :=
       await_recv json_decode on_message self ls c receives
         (RecvMessage raw_message (Ok tt) :: events) in
     handle_frame json_decode on_message self ls c raw_message (Ok tt) =
       (c, Ok (ls <| timeout := seconds |>, Continue)) /\
     (exists k, listened_receives l = receives ++ replicate k seconds) /\
     (self.(_running) = true ->
      exists k,
        (k <= frames_received events)%nat /\
        listened_receives l = receives ++ replicate (S k) seconds /\
        (listened_end l = LoopPending ->
           k = frames_received events /\
           (listened_state l).(timeout) = seconds)) /\
     (self.(_running) = false ->
      listened_end l = LoopExit /\ listened_receives l = receives)) /\
  (forall (i j : nat) (raw_message : string) (subscribe : result unit)
          (manager : HarviaWebSocketManager) (c : C),
     i <> j ->
     (deliver_frame json_decode on_message i raw_message subscribe manager c).1
       .(_tasks) !! j = manager.(_tasks) !! j) /\
  (forall (organization_id email raw_message : string) (uuid : nat -> string)
          (message : dict) (c : C) (i : nat),
     json_decode raw_message = Some (PDict message) ->
     message !! "type" = Some (PStr "connection_ack") ->
     message !! "payload" =
       Some (PDict {[ "connectionTimeoutMs" := PInt 60000 ]}) ->
     (i < 4)%nat ->
     let manager :=
       task_listening 3 (task_listening 2 (task_listening 1 (task_listening 0
         (async_start HarviaWebSocketManager_init organization_id email
            uuid)))) in
     let manager' :=
       (deliver_frame json_decode on_message i raw_message (Ok tt) manager c).1
     in
     forall j, (j < 4)%nat ->
       timeout <$> mjoin (manager'.(_tasks) !! j) =
       Some (if decide (j = i) then 60%float else 300%float)).
Proof.
  split; [|split].
  - intros self ls c receives events raw_message message payload ms seconds
      Hj Ht Hp Hms Hdiv Hall l.
    pose proof (ack_sets_timeout self ls c raw_message
                  message payload ms seconds Hj Ht Hp Hms Hdiv) as Hack.
    split; [exact Hack|].
    assert (Hs : timeout (ls <| timeout := seconds |>) = seconds)
      by (destruct ls; reflexivity).
    unfold l. simpl. rewrite Hack.
    destruct (_running self).
    + destruct (await_recv_waits events Hall self
                  (ls <| timeout := seconds |>) c
                  (receives ++ [timeout (ls <| timeout := seconds |>)]))
        as (k & Hle & Hk & Hpending).
      rewrite Hs in Hk, Hpending.
      assert (Hr : listened_receives
                     (await_recv json_decode on_message self
                        (ls <| timeout := seconds |>) c
                        (receives ++ [seconds]) events) =
                   receives ++ replicate (S k) seconds)
        by (rewrite Hk, <- app_assoc; reflexivity).
      split; [exists (S k); exact Hr|].
      split; [|discriminate].
      intros _. exists k. rewrite Hs. auto.
    + split; [|split; [discriminate | auto]].
      exists 0%nat. simpl. rewrite app_nil_r. reflexivity.
  - intros i j raw_message subscribe manager c Hne.
    apply (deliver_frame_others i j raw_message
             subscribe manager c Hne).
  - intros organization_id email raw_message uuid message c i
      Hj Ht Hp Hi manager manager' j Hjlt.
    assert (Hack : forall ws ls,
              handle_frame json_decode on_message ws ls c raw_message (Ok tt) =
              (c, Ok (ls <| timeout := 60%float |>, Continue))).
    { intros ws ls.
      apply (ack_sets_timeout ws ls c raw_message
               message {[ "connectionTimeoutMs" := PInt 60000 ]} (PInt 60000));
        try assumption; reflexivity. }
    unfold manager', manager.
    destruct i as [|[|[|[|i]]]]; try lia;
      destruct j as [|[|[|[|j]]]]; try lia;
      unfold deliver_frame; simpl; rewrite Hack; reflexivity.
Qed.

End Heartbeat.

Lemma server_timeout_adopted_witness :
  let json_decode := decode_one "<connection_ack 60000>" (PDict ack_60000) in
  let on_message := fun (c : unit) (_ : string) (_ : pyval) => (c, None) in
  let self :=
    (HarviaWebSocket_init "data" "org-1" false "uuid")
      <| _running := true |> <| _websocket := true |> in
  let manager :=
    task_listening 3 (task_listening 2 (task_listening 1 (task_listening 0
      (async_start HarviaWebSocketManager_init "org-1" "user@example.org"
         (fun _ => "uuid"))))) in
  let manager' :=
    (deliver_frame json_decode on_message 2 "<connection_ack 60000>" (Ok tt)
       manager tt).1 in
  listened_receives
    (receive_loop json_decode on_message self initial_listen_state tt
       [RecvMessage "<connection_ack 60000>" (Ok tt)]) =
    [300%float; 60%float] /\
  timeout <$> mjoin (manager'.(_tasks) !! 2%nat) = Some 60%float /\
  timeout <$> mjoin (manager'.(_tasks) !! 0%nat) = Some 300%float.
Proof.
  intros json_decode on_message self manager manager'.
  split; [|split].
  - destruct (proj1 (proj2 (proj2 (proj1 (server_timeout_adopted json_decode
             on_message) self initial_listen_state tt [300%float] []
             "<connection_ack 60000>" ack_60000
             {[ "connectionTimeoutMs" := PInt 60000 ]} (PInt 60000) 60%float
             eq_refl eq_refl eq_refl eq_refl eq_refl (Forall_nil_2 _))))
             eq_refl)
      as (k & Hle & Hreceives & _).
    assert (k = 0%nat) as -> by (simpl in Hle; lia).
    exact Hreceives.
  - exact (proj2 (proj2 (server_timeout_adopted
             (decode_one "<connection_ack 60000>" (PDict ack_60000))
             (fun (c : unit) (_ : string) (_ : pyval) => (c, None))))
             "org-1" "user@example.org" "<connection_ack 60000>"
             (fun _ => "uuid") ack_60000 tt 2%nat
             eq_refl eq_refl eq_refl ltac:(lia) 2%nat ltac:(lia)).
  - exact (proj2 (proj2 (server_timeout_adopted
             (decode_one "<connection_ack 60000>" (PDict ack_60000))
             (fun (c : unit) (_ : string) (_ : pyval) => (c, None))))
             "org-1" "user@example.org" "<connection_ack 60000>"
             (fun _ => "uuid") ack_60000 tt 2%nat
             eq_refl eq_refl eq_refl ltac:(lia) 0%nat ltac:(lia)).
Defined.

(** ** The order of binary64 numbers

    The comparison of two numbers that are not NaN goes by sign, exponent
    and mantissa, in this order; so [<=] is transitive and, NaN apart,
    total. *)

Module Binary64Order.

Ltac fold_pos_compare :=
  repeat match goal with
  | |- context [PosDef.Pos.compare_cont Eq ?a ?b] =>
      change (PosDef.Pos.compare_cont Eq a b) with (Pos.compare a b)
  end.

Lemma SFleb_trans (x y z : spec_float) :
  SFleb x y = true -> SFleb y z = true -> SFleb x z = true.
Proof.
  unfold SFleb.
  destruct x as [sx|sx| |sx mx ex], y as [sy|sy| |sy my ey],
           z as [sz|sz| |sz mz ez]; simpl;
    try discriminate; try reflexivity;
    repeat match goal with s : bool |- _ => destruct s end; simpl;
    try discriminate; try reflexivity; try congruence;
    fold_pos_compare;
    destruct (Z.compare_spec ex ey), (Z.compare_spec ey ez),
             (Z.compare_spec ex ez);
    try lia; simpl; try congruence;
    destruct (Pos.compare_spec mx my), (Pos.compare_spec my mz),
             (Pos.compare_spec mx mz);
    try lia; simpl; congruence.
Qed.

Lemma SFltb_leb_trans (x y z : spec_float) :
  SFltb x y = true -> SFleb y z = true -> SFltb x z = true.
Proof.
  unfold SFleb, SFltb.
  destruct x as [sx|sx| |sx mx ex], y as [sy|sy| |sy my ey],
           z as [sz|sz| |sz mz ez]; simpl;
    try discriminate; try reflexivity;
    repeat match goal with s : bool |- _ => destruct s end; simpl;
    try discriminate; try reflexivity; try congruence;
    fold_pos_compare;
    destruct (Z.compare_spec ex ey), (Z.compare_spec ey ez),
             (Z.compare_spec ex ez);
    try lia; simpl; try congruence;
    destruct (Pos.compare_spec mx my), (Pos.compare_spec my mz),
             (Pos.compare_spec mx mz);
    try lia; simpl; congruence.
Qed.

(** Of two numbers, neither a NaN, the first is at most the second unless
    the second is below the first. *)
Lemma SFleb_of_not_ltb (x y : spec_float) :
  x <> S754_nan -> y <> S754_nan -> SFltb y x = false -> SFleb x y = true.
Proof.
  unfold SFleb, SFltb.
  destruct x as [sx|sx| |sx mx ex], y as [sy|sy| |sy my ey]; simpl;
    try congruence;
    repeat match goal with s : bool |- _ => destruct s end; simpl;
    try congruence;
    intros _ _; fold_pos_compare;
    destruct (Z.compare_spec ex ey), (Z.compare_spec ey ex);
    try lia; simpl; try congruence;
    destruct (Pos.compare_spec mx my), (Pos.compare_spec my mx);
    try lia; simpl; congruence.
Qed.

Local Open Scope float_scope.

Lemma leb_trans (x y z : float) :
  (x <=? y) = true -> (y <=? z) = true -> (x <=? z) = true.
Proof. rewrite !leb_spec. apply SFleb_trans. Qed.

Lemma ltb_leb_trans (x y z : float) :
  (x <? y) = true -> (y <=? z) = true -> (x <? z) = true.
Proof. rewrite !ltb_spec, leb_spec. apply SFltb_leb_trans. Qed.

Lemma nonneg_not_nan (x : float) : (0 <=? x) = true -> Prim2SF x <> S754_nan.
Proof.
  intros H. apply Binary64.leb_zero_SF in H. intros E. rewrite E in H.
  discriminate H.
Qed.

Lemma leb_of_not_ltb (x y : float) :
  (0 <=? x) = true -> (0 <=? y) = true -> (y <? x) = false ->
  (x <=? y) = true.
Proof.
  intros Hx Hy. rewrite ltb_spec, leb_spec.
  apply SFleb_of_not_ltb; apply nonneg_not_nan; assumption.
Qed.

End Binary64Order.

(** ** The fields of a record by writer *)

(** X1: a state delta leaves every field alone that telemetry owns, the
    accumulated energy and the heat-on-since timestamp among them. *)
Theorem state_delta_frame (str_builtin : pyval -> string)
    (d : HarviaDeviceData) (data : dict) :
  telemetry_part (_apply_state_data str_builtin d data) = telemetry_part d.
Proof. rewrite apply_state_fields. reflexivity. Qed.

Lemma apply_heat_on_state_part (now : float) (v : pyval)
    (d : HarviaDeviceData) :
  state_part (state_of (apply_heat_on now v d)) = state_part d /\
  target_temp (state_of (apply_heat_on now v d)) = target_temp d.
Proof.
  unfold apply_heat_on.
  destruct d as [? ? ? ? ? ? ? ? ? ? ? ? ? ? ? ? ? ? ? ? ? ? h ? ? ? ? ? ? ? ?
                   ? ? ? ? P e t].
  simpl. destruct t, h; simpl; try destruct (float_of_Z P); simpl;
    destruct (py_bool v); split; reflexivity.
Qed.

(** X2: a telemetry delta leaves every field alone that the state owns,
    whether it returns or raises. *)
Theorem telemetry_delta_frame (now : float) (d : HarviaDeviceData)
    (data : dict) :
  state_part (state_of (_apply_telemetry_data now d data)) = state_part d.
Proof.
  destruct (data !! "heatOn") as [v|] eqn:Ev.
  - rewrite (apply_telemetry_heat now d data v Ev).
    destruct (apply_heat_on_state_part now v d) as [H _].
    destruct (apply_heat_on now v d) as [d'|e d']; simpl in *.
    + exact H.
    + destruct d'; exact H.
  - rewrite (apply_telemetry_plain now d data Ev). reflexivity.
Qed.

(** X3: the accumulated energy changes only where a delta carries
    [heatOn] and meets a record that was heating with a heat-on-since
    timestamp.  Every other telemetry delta returns and leaves
    [energy_kwh] as it was. *)
Theorem energy_changes_only_while_heating (now : float)
    (d : HarviaDeviceData) (data : dict) :
  data !! "heatOn" = None \/ d.(heat_on) = false \/
  _last_heat_on_timestamp d = None ->
  exists d',
    _apply_telemetry_data now d data = Done d' /\
    d'.(energy_kwh) = d.(energy_kwh).
Proof.
  intros H.
  destruct (data !! "heatOn") as [v|] eqn:Ev.
  - destruct H as [H|H]; [discriminate H|].
    rewrite (apply_telemetry_heat now d data v Ev).
    rewrite (apply_heat_on_idle now v d H).
    eexists. split; reflexivity.
  - rewrite (apply_telemetry_plain now d data Ev).
    eexists. split; reflexivity.
Qed.

Lemma energy_changes_only_while_heating_witness :
  exists d',
    _apply_telemetry_data 400
      (heating_record <| heat_on := false |>)
      {[ "heatOn" := PBool true; "temperature" := PInt 71 ]} = Done d' /\
    d'.(energy_kwh) = (heating_record <| heat_on := false |>).(energy_kwh).
Proof.
  apply (energy_changes_only_while_heating 400
           (heating_record <| heat_on := false |>)
           {[ "heatOn" := PBool true; "temperature" := PInt 71 ]}).
  right. left. reflexivity.
Defined.

Lemma from_key_union {B : Type} (first second : dict) (key : string)
    (g : pyval -> B) (old : B) :
  from_key second key g (from_key first key g old) =
  from_key (second ∪ first) key g old.
Proof.
  unfold from_key. rewrite lookup_union.
  destruct (second !! key), (first !! key); reflexivity.
Qed.

(** X4: two state deltas applied one after the other leave the record that
    their merge leaves, the later delta winning on a shared key, as long as
    at most one of them carries [statusCodes]. *)
Theorem state_deltas_merge (str_builtin : pyval -> string)
    (d : HarviaDeviceData) (first second : dict) :
  first !! "statusCodes" = None \/ second !! "statusCodes" = None ->
  _apply_state_data str_builtin (_apply_state_data str_builtin d first) second
  = _apply_state_data str_builtin d (second ∪ first).
Proof.
  intros H. rewrite !apply_state_fields. unfold state_fields. simpl.
  f_equal; try apply from_key_union.
  unfold from_key. rewrite lookup_union.
  destruct H as [H|H]; rewrite H;
    [destruct (second !! "statusCodes") | destruct (first !! "statusCodes")];
    reflexivity.
Qed.

Lemma state_deltas_merge_witness :
  _apply_state_data (fun _ => "")
    (_apply_state_data (fun _ => "") heating_record
       {[ "targetTemp" := PInt 80; "statusCodes" := PStr "19" ]})
    {[ "targetTemp" := PInt 90; "light" := PInt 1 ]}
  = _apply_state_data (fun _ => "") heating_record
      ({[ "targetTemp" := PInt 90; "light" := PInt 1 ]} ∪
       {[ "targetTemp" := PInt 80; "statusCodes" := PStr "19" ]}).
Proof.
  apply (state_deltas_merge (fun _ => "") heating_record
           {[ "targetTemp" := PInt 80; "statusCodes" := PStr "19" ]}
           {[ "targetTemp" := PInt 90; "light" := PInt 1 ]}).
  right. reflexivity.
Defined.

(** X5: the one field that both kinds of delta write is [target_temp]; in
    a record the poll builds, the telemetry's [targetTemp] wins over the
    state's, and without either the field is [None].  Building the record
    never raises. *)
Theorem polled_target_temp (str_builtin : pyval -> string) (now : float)
    (id : string) (state telemetry : dict) :
  exists d,
    polled_record str_builtin now id state telemetry = Done d /\
    d.(target_temp) =
      match telemetry !! "targetTemp", state !! "targetTemp" with
      | Some v, _ => v
      | None, Some v => v
      | None, None => PNone
      end.
Proof.
  unfold polled_record. rewrite apply_state_fields.
  set (d0 := state_fields str_builtin (HarviaDeviceData_init (PStr id)) state).
  assert (H0 : d0.(target_temp) =
               match state !! "targetTemp" with
               | Some v => v
               | None => PNone
               end) by reflexivity.
  destruct (telemetry !! "heatOn") as [v|] eqn:Ev.
  - rewrite (apply_telemetry_heat now d0 telemetry v Ev).
    rewrite (apply_heat_on_idle now v d0) by (left; reflexivity).
    eexists. split; [reflexivity|]. simpl. unfold from_key.
    destruct (telemetry !! "targetTemp"); [reflexivity|].
    destruct (py_bool v); exact H0.
  - rewrite (apply_telemetry_plain now d0 telemetry Ev).
    eexists. split; [reflexivity|]. simpl. unfold from_key.
    destruct (telemetry !! "targetTemp"); [reflexivity | exact H0].
Qed.

(** ** The accumulated energy over a history *)

Lemma monotonic_clock_app (earlier : list delta) :
  forall (seen : list float) (later : list delta),
    monotonic_clock seen (earlier ++ later) = true ->
    monotonic_clock seen earlier = true.
Proof.
  induction earlier as [|a earlier IH]; intros seen later H;
    [reflexivity|].
  destruct a as [data | now data]; simpl in *.
  - apply (IH _ _ H).
  - apply andb_true_iff in H. destruct H as [-> H]. apply (IH _ _ H).
Qed.

Lemma lifetime_app (str_builtin : pyval -> string) (d : HarviaDeviceData)
    (earlier later : list delta) :
  lifetime str_builtin d (earlier ++ later) =
  lifetime str_builtin (lifetime str_builtin d earlier) later.
Proof. unfold lifetime. apply fold_left_app. Qed.

Lemma lifetime_inv (str_builtin : pyval -> string) (history : list delta) :
  forall (seen : list float) (d : HarviaDeviceData),
    energy_inv seen d -> monotonic_clock seen history = true ->
    exists seen', energy_inv seen' (lifetime str_builtin d history).
Proof.
  induction history as [|a history IH]; intros seen d Hinv Hc.
  - exists seen. exact Hinv.
  - assert (Ha : monotonic_clock seen [a] = true).
    { destruct a; simpl in *; [reflexivity|].
      apply andb_true_iff in Hc. destruct Hc as [-> _]. reflexivity. }
    destruct (delta_step str_builtin seen a d Hinv Ha)
      as (_ & seen' & Hinv' & Hs).
    rewrite Hs, Ha in Hc. simpl in Hc.
    apply (IH seen' _ Hinv' Hc).
Qed.

(** X6: between any two points of the life of a record the accumulated
    energy does not go down: after the deltas of [earlier] it is at most
    what it is after those of [earlier] and then [later], the clock being
    monotonic; and it is never negative. *)
Theorem energy_kwh_never_below_earlier (str_builtin : pyval -> string)
    (id : pyval) (earlier later : list delta) :
  monotonic_clock [] (earlier ++ later) = true ->
  (0 <=? energy_kwh (lifetime str_builtin (HarviaDeviceData_init id) earlier))
    %float = true /\
  (energy_kwh (lifetime str_builtin (HarviaDeviceData_init id) earlier) <=?
   energy_kwh (lifetime str_builtin (HarviaDeviceData_init id)
                 (earlier ++ later)))%float = true.
Proof.
  intros Hc.
  assert (H0 : (0 <=? energy_kwh
                  (lifetime str_builtin (HarviaDeviceData_init id) earlier))
                 %float = true).
  { destruct (lifetime_inv str_builtin earlier [] (HarviaDeviceData_init id)
                (energy_inv_init id) (monotonic_clock_app _ _ _ Hc))
      as (seen' & Hinv). apply Hinv. }
  split; [exact H0|].
  revert Hc. induction later as [|u later IH] using rev_ind; intros Hc.
  - rewrite app_nil_r. apply Binary64.leb_refl, H0.
  - rewrite app_assoc in Hc.
    apply (Binary64Order.leb_trans _
             (energy_kwh (lifetime str_builtin (HarviaDeviceData_init id)
                            (earlier ++ later)))).
    + apply IH. apply (monotonic_clock_app _ _ _ Hc).
    + rewrite app_assoc, (lifetime_app _ _ (earlier ++ later) [u]).
      apply (lifetime_step str_builtin (earlier ++ later) [] _ u);
        [apply energy_inv_init | exact Hc].
Qed.

Lemma energy_kwh_never_below_earlier_witness :
  (0 <=? energy_kwh
           (lifetime (fun _ => "") (HarviaDeviceData_init (PStr "sauna"))
              [ TelemetryDelta 10 {[ "heatOn" := PBool true ]} ]))%float
  = true /\
  (energy_kwh
     (lifetime (fun _ => "") (HarviaDeviceData_init (PStr "sauna"))
        [ TelemetryDelta 10 {[ "heatOn" := PBool true ]} ]) <=?
   energy_kwh
     (lifetime (fun _ => "") (HarviaDeviceData_init (PStr "sauna"))
        ([ TelemetryDelta 10 {[ "heatOn" := PBool true ]} ] ++
         [ TelemetryDelta 1810 {[ "heatOn" := PBool true ]};
           StateDelta {[ "active" := PInt 0 ]};
           TelemetryDelta 3610 {[ "heatOn" := PBool false ]} ])))%float
  = true.
Proof.
  exact (energy_kwh_never_below_earlier (fun _ => "") (PStr "sauna")
           [ TelemetryDelta 10 {[ "heatOn" := PBool true ]} ]
           [ TelemetryDelta 1810 {[ "heatOn" := PBool true ]};
             StateDelta {[ "active" := PInt 0 ]};
             TelemetryDelta 3610 {[ "heatOn" := PBool false ]} ]
           eq_refl).
Defined.

(** ** The fallback poll, continued *)

Lemma poll_devices_result (str_builtin : pyval -> string)
    (device_tree : list device_entry) :
  Forall entry_fetched device_tree ->
  forall sd0 : HarviaSaunaData,
  exists sd,
    poll_devices str_builtin device_tree sd0 = Ok sd /\
    sd.(available) = sd0.(available) /\
    (forall id,
       is_Some (sd.(devices) !! id) <->
       is_Some (sd0.(devices) !! id) \/
       Exists (fun entry => entry.(entry_name) = Ok id) device_tree) /\
    (forall id d,
       sd.(devices) !! id = Some d ->
       sd0.(devices) !! id = Some d \/
       polled_from str_builtin device_tree id d).
Proof.
  induction 1 as [|entry device_tree Hentry _ IH]; intros sd0.
  - exists sd0. repeat split.
    + intros H. left. exact H.
    + intros [H | H]; [exact H | inversion H].
    + intros id d H. left. exact H.
  - destruct Hentry as ((name & Hn) & (state & Hs) & (telemetry & Ht)).
    simpl. rewrite Hn, Hs, Ht. simpl.
    destruct (polled_record_fresh str_builtin (entry_now entry) name state
                telemetry) as (d' & Hd' & _).
    pose proof Hd' as Hrec.
    unfold polled_record in Hd'. rewrite Hd'.
    destruct (IH (sd0 <| devices := <[name := d']> sd0.(devices) |>))
      as (sd & Hp & Hav & Hk & Hfrom).
    exists sd. split; [exact Hp|].
    destruct sd0 as [devs av].
    cbv [apply_update constant devices available] in *. simpl in *.
    split; [exact Hav|]. split.
    + intros id. rewrite Hk. rewrite lookup_insert_is_Some.
      split.
      * intros [[-> | [_ H]] | H].
        -- right. apply Exists_cons_hd. exact Hn.
        -- left. exact H.
        -- right. apply Exists_cons_tl. exact H.
      * intros [H | H].
        -- destruct (decide (name = id)) as [-> | Hne];
             [left; left; reflexivity | left; right; split; assumption].
        -- inversion H as [? ? Hhere | ? ? Hthere]; subst.
           ++ rewrite Hn in Hhere. injection Hhere as ->. left. left.
              reflexivity.
           ++ right. exact Hthere.
    + intros id d Hl. destruct (Hfrom id d Hl) as [Hin | Hpf].
      * destruct (decide (name = id)) as [-> | Hne].
        -- rewrite lookup_insert_eq in Hin. injection Hin as <-.
           right. exists entry, state, telemetry.
           repeat split; try assumption. left. reflexivity.
        -- rewrite lookup_insert_ne in Hin by assumption. left. exact Hin.
      * right. destruct Hpf as (e & s & t & Hi & Hrest).
        exists e, s, t. split; [right; exact Hi | exact Hrest].
Qed.

(** X7: when every fetch of a poll succeeds, [_async_update_data] returns
    a container that is marked available, whose keys are exactly the
    device names of the tree, and in which every record was built from the
    defaults and the answers fetched for an entry of that name: applying
    the fetched state and telemetry never raises. *)
Theorem poll_result (str_builtin : pyval -> string)
    (self : HarviaSaunaCoordinator) (device_tree : list device_entry) :
  Forall entry_fetched device_tree ->
  exists sd,
    _async_update_data str_builtin self (Ok device_tree) = Updated sd /\
    sd.(available) = true /\
    (forall id,
       is_Some (sd.(devices) !! id) <->
       Exists (fun entry => entry.(entry_name) = Ok id) device_tree) /\
    (forall id d,
       sd.(devices) !! id = Some d ->
       polled_from str_builtin device_tree id d).
Proof.
  intros Hall.
  destruct (poll_devices_result str_builtin device_tree Hall
              HarviaSaunaData_init) as (sd & Hp & _ & Hk & Hfrom).
  exists (sd <| available := true |>).
  unfold _async_update_data. simpl. rewrite Hp. simpl.
  destruct sd as [devs av]. simpl in *.
  repeat split.
  - intros H. apply Hk in H. destruct H as [H | H]; [|exact H].
    rewrite lookup_empty in H. destruct H as [? H]. discriminate H.
  - intros H. apply Hk. right. exact H.
  - intros id d H. destruct (Hfrom id d H) as [H0 | H0]; [|exact H0].
    rewrite lookup_empty in H0. discriminate H0.
Qed.

Lemma poll_result_witness :
  exists sd,
    _async_update_data (fun _ => "") heating_coordinator heating_poll
    = Updated sd /\
    sd.(available) = true /\
    (forall id,
       is_Some (sd.(devices) !! id) <->
       Exists (fun entry => entry.(entry_name) = Ok id)
         [ {| entry_name := Ok "sauna-1";
              entry_state := Ok ∅;
              entry_telemetry := Ok {[ "heatOn" := PBool true ]};
              entry_now := 400%float |} ]) /\
    (forall id d,
       sd.(devices) !! id = Some d ->
       polled_from (fun _ => "")
         [ {| entry_name := Ok "sauna-1";
              entry_state := Ok ∅;
              entry_telemetry := Ok {[ "heatOn" := PBool true ]};
              entry_now := 400%float |} ] id d).
Proof.
  apply (poll_result (fun _ => "") heating_coordinator
           [ {| entry_name := Ok "sauna-1";
                entry_state := Ok ∅;
                entry_telemetry := Ok {[ "heatOn" := PBool true ]};
                entry_now := 400%float |} ]).
  repeat constructor; simpl; eauto.
Defined.

Lemma poll_devices_raises (str_builtin : pyval -> string)
    (device_tree : list device_entry) :
  Exists (fun entry => ~ entry_fetched entry) device_tree ->
  forall sd0 : HarviaSaunaData,
  exists e, poll_devices str_builtin device_tree sd0 = Raise e.
Proof.
  induction device_tree as [|entry device_tree IH]; intros Hex sd0.
  - inversion Hex.
  - simpl.
    destruct (entry_name entry) as [name|e] eqn:Hn; [|exists e; reflexivity].
    destruct (entry_state entry) as [state|e] eqn:Hs;
      [|exists e; reflexivity].
    destruct (entry_telemetry entry) as [telemetry|e] eqn:Ht;
      [|exists e; reflexivity].
    simpl.
    destruct (polled_record_fresh str_builtin (entry_now entry) name state
                telemetry) as (d' & Hd' & _).
    unfold polled_record in Hd'. rewrite Hd'.
    apply IH.
    inversion Hex as [? ? Hhere | ? ? Hthere]; subst; [|exact Hthere].
    exfalso. apply Hhere. unfold entry_fetched. rewrite Hn, Hs, Ht.
    repeat split; eexists; reflexivity.
Qed.

(** X8: a poll is all or nothing.  If a single fetch of a single device
    fails, [_async_update_data] returns no container at all, whatever was
    fetched for the other devices: it raises [UpdateFailed], or lets a
    cancellation through. *)
Theorem poll_all_or_nothing (str_builtin : pyval -> string)
    (self : HarviaSaunaCoordinator) (device_tree : list device_entry) :
  Exists (fun entry => ~ entry_fetched entry) device_tree ->
  (exists message,
     _async_update_data str_builtin self (Ok device_tree) =
     UpdateFailed message) \/
  _async_update_data str_builtin self (Ok device_tree) =
  Propagated CancelledError.
Proof.
  intros Hex.
  destruct (poll_devices_raises str_builtin device_tree Hex
              HarviaSaunaData_init) as (e & He).
  unfold _async_update_data. simpl. rewrite He. simpl.
  destruct e; simpl; eauto.
Qed.

Lemma poll_all_or_nothing_witness :
  (exists message,
     _async_update_data (fun _ => "") heating_coordinator (Ok failing_poll) =
     UpdateFailed message) \/
  _async_update_data (fun _ => "") heating_coordinator (Ok failing_poll) =
  Propagated CancelledError.
Proof.
  apply (poll_all_or_nothing (fun _ => "") heating_coordinator failing_poll).
  apply Exists_cons_tl, Exists_cons_hd.
  intros (_ & _ & (telemetry & H)). discriminate H.
Defined.

(** ** Push updates, continued *)

Lemma touches_refl (sd : HarviaSaunaData) : touches_at_most_one sd sd.
Proof.
  split; [reflexivity|]. split; [tauto|]. exists "". reflexivity.
Qed.

Lemma touches_store (sd : HarviaSaunaData) (id : string)
    (device device' : HarviaDeviceData) :
  sd.(devices) !! id = Some device ->
  touches_at_most_one sd (store_device sd id device').
Proof.
  intros H. destruct sd as [devs av].
  unfold touches_at_most_one, store_device.
  cbv [apply_update constant devices available] in *. simpl in *.
  split; [reflexivity|]. split.
  - intros id0. rewrite lookup_insert_is_Some. split.
    + intros [<- | [_ H']]; eauto.
    + intros H'. destruct (decide (id = id0)); [left | right]; auto.
  - exists id. intros id' Hne. apply lookup_insert_ne. congruence.
Qed.

Section Push.

Variable str_builtin : pyval -> string.
Variable json_decode : string -> option pyval.

Opaque _apply_state_data _apply_telemetry_data.

(** What the handler does to the container: nothing, or it stores the
    record of one known device. *)
Lemma handle_ws_update_cases (now : float) (sd : HarviaSaunaData)
    (payload_data : pyval) (o : outcome HarviaSaunaData) (updated : bool) :
  handle_ws_update str_builtin json_decode now sd payload_data
  = Ok (o, updated) ->
  (o = Done sd /\ updated = false) \/
  exists id device device',
    sd.(devices) !! id = Some device /\
    state_of o = store_device sd id device'.
Proof.
  unfold handle_ws_update.
  destruct (py_in "onStateUpdated" payload_data) as [[|]|];
    simpl; [| |discriminate].
  - destruct (py_getitem payload_data "onStateUpdated") as [body|];
      simpl; [|discriminate].
    destruct (py_get body "reported") as [reported|]; simpl; [|discriminate].
    destruct (py_bool reported); simpl;
      [|intros H; injection H as <- <-; left; split; reflexivity].
    destruct (json_loads json_decode reported) as [state|];
      simpl; [|discriminate].
    destruct (py_get state "deviceId") as [device_id|]; simpl; [|discriminate].
    destruct (known_device device_id (devices sd)) as [[[id device]|]|] eqn:Ek;
      simpl; [| |discriminate].
    + apply known_device_Some in Ek.
      destruct state; intros H; injection H as <- <-;
        try (left; split; reflexivity).
      right. exists id, device. eexists. split; [exact Ek | reflexivity].
    + intros H; injection H as <- <-; left; split; reflexivity.
  - destruct (py_in "onDataUpdates" payload_data) as [[|]|];
      simpl; [| |discriminate].
    + destruct (py_getitem payload_data "onDataUpdates") as [body|];
        simpl; [|discriminate].
      destruct (py_get_default body "item" (PDict ∅)) as [item|];
        simpl; [|discriminate].
      destruct (py_get item "deviceId") as [device_id|];
        simpl; [|discriminate].
      destruct (known_device device_id (devices sd))
        as [[[id device]|]|] eqn:Ek; simpl; [| |discriminate].
      * apply known_device_Some in Ek.
        destruct item as [| | | | | |item];
          try (intros H; injection H as <- <-; left; split; reflexivity).
        destruct (match item !! "data" with
                  | Some v => json_loads json_decode v
                  | None => Ok (PDict ∅)
                  end) as [telemetry|]; simpl; [|discriminate].
        destruct telemetry as [| | | | | |telemetry]; try discriminate.
        destruct (_apply_telemetry_data now device _) as [d'|e d'];
          intros H; injection H as <- <-; right;
          exists id, device, d'; split; try exact Ek; reflexivity.
      * intros H; injection H as <- <-; left; split; reflexivity.
    + intros H; injection H as <- <-; left; split; reflexivity.
Qed.

(** X9: whatever is pushed, the handler neither adds nor removes a device,
    leaves [available] alone, and changes the record of at most one
    device, also when it raises. *)
Theorem push_touches_one_record (now : float)
    (self : HarviaSaunaCoordinator) (payload_data : pyval) :
  match
    self.(data),
    (state_of
       (_async_handle_ws_update str_builtin json_decode now self
          payload_data).1).(data)
  with
  | Some sd, Some sd' => touches_at_most_one sd sd'
  | None, None => True
  | _, _ => False
  end.
Proof.
  unfold _async_handle_ws_update.
  destruct self as [config [sd|]]; simpl; [|exact I].
  destruct (handle_ws_update str_builtin json_decode now sd payload_data)
    as [[o updated]|e] eqn:E; [|simpl; apply touches_refl].
  apply handle_ws_update_cases in E.
  destruct E as [[-> _] | (id & device & device' & Hl & Ho)].
  - simpl. apply touches_refl.
  - destruct o as [sd'|e sd']; simpl in *; subst sd';
      apply (touches_store sd id device device' Hl).
Qed.

Transparent _apply_state_data _apply_telemetry_data.

(** The [timestamp] of a record after a telemetry delta that carries
    one. *)
Lemma telemetry_timestamp (now : float) (d d' : HarviaDeviceData)
    (data : dict) (ts : pyval) :
  data !! "timestamp" = Some ts ->
  _apply_telemetry_data now d data = Done d' ->
  d'.(timestamp) = ts.
Proof.
  intros Hts.
  destruct (data !! "heatOn") as [v|] eqn:Ev.
  - rewrite (apply_telemetry_heat now d data v Ev).
    destruct (apply_heat_on now v d) as [d0|e d0]; [|discriminate].
    intros H. injection H as <-. simpl. unfold from_key. rewrite Hts.
    reflexivity.
  - rewrite (apply_telemetry_plain now d data Ev).
    intros H. injection H as <-. simpl. unfold from_key. rewrite Hts.
    reflexivity.
Qed.

(** X10: a pushed telemetry envelope for a known device stamps the record
    with the envelope's [timestamp], [None] when the envelope has none,
    whatever [timestamp] the data inside the envelope carries; the update is
    published. *)
Theorem push_telemetry_timestamp (now : float) (sd : HarviaSaunaData)
    (payload_data body item telemetry : dict) (id raw : string)
    (device d' : HarviaDeviceData) :
  payload_data !! "onStateUpdated" = None ->
  payload_data !! "onDataUpdates" = Some (PDict body) ->
  body !! "item" = Some (PDict item) ->
  item !! "deviceId" = Some (PStr id) ->
  id <> "" ->
  sd.(devices) !! id = Some device ->
  item !! "data" = Some (PStr raw) ->
  json_decode raw = Some (PDict telemetry) ->
  _apply_telemetry_data now device
    (<["timestamp" := default PNone (item !! "timestamp")]> telemetry)
  = Done d' ->
  handle_ws_update str_builtin json_decode now sd (PDict payload_data)
  = Ok (Done (store_device sd id d'), true) /\
  d'.(timestamp) = default PNone (item !! "timestamp").
Proof.
  intros Hs Hd Hi Hid Hne Hk Hraw Hj Happ. split.
  - unfold handle_ws_update. simpl. rewrite Hs, Hd. simpl.
    rewrite Hi. simpl. rewrite Hid. simpl.
    unfold known_device. simpl.
    destruct (String.eqb id "") eqn:E;
      [apply String.eqb_eq in E; contradiction|]. simpl.
    rewrite Hk, Hraw. simpl. rewrite Hj. simpl. rewrite Happ. reflexivity.
  - apply (telemetry_timestamp now device d' _ _ (lookup_insert_eq _ _ _)
             Happ).
Qed.

(** X11: in an envelope that carries both a state update and a telemetry
    update only the state update is looked at. *)
Theorem state_update_takes_precedence (now : float) (sd : HarviaSaunaData)
    (payload_data : dict) :
  is_Some (payload_data !! "onStateUpdated") ->
  handle_ws_update str_builtin json_decode now sd (PDict payload_data) =
  handle_ws_update str_builtin json_decode now sd
    (PDict (delete "onDataUpdates" payload_data)).
Proof.
  intros [body E]. unfold handle_ws_update, py_in, py_getitem.
  rewrite (lookup_delete_ne payload_data "onDataUpdates" "onStateUpdated")
    by discriminate.
  rewrite E. reflexivity.
Qed.

End Push.

Lemma push_telemetry_timestamp_witness :
  handle_ws_update (fun _ => "")
    (decode_one pushed_data (PDict pushed_telemetry)) 400 heating_data
    (PDict pushed_payload)
  = Ok (Done (store_device heating_data "sauna-1"
                (heating_record
                   <| current_temp := PInt 71 |>
                   <| timestamp := PStr "1700000000123" |>)), true) /\
  (heating_record
     <| current_temp := PInt 71 |>
     <| timestamp := PStr "1700000000123" |>).(timestamp)
  = default PNone (pushed_item !! "timestamp").
Proof.
  apply (push_telemetry_timestamp (fun _ => "")
           (decode_one pushed_data (PDict pushed_telemetry)) 400 heating_data
           pushed_payload pushed_body pushed_item pushed_telemetry
           "sauna-1" pushed_data heating_record);
    try reflexivity. discriminate.
Defined.

Lemma state_update_takes_precedence_witness :
  handle_ws_update (fun _ => "")
    (decode_one stray_reported (PDict stray_state)) 400 heating_data
    (PDict (<["onDataUpdates" := PDict pushed_body]> stray_payload)) =
  handle_ws_update (fun _ => "")
    (decode_one stray_reported (PDict stray_state)) 400 heating_data
    (PDict (delete "onDataUpdates"
              (<["onDataUpdates" := PDict pushed_body]> stray_payload))).
Proof.
  apply (state_update_takes_precedence (fun _ => "")
           (decode_one stray_reported (PDict stray_state)) 400 heating_data
           (<["onDataUpdates" := PDict pushed_body]> stray_payload)).
  eexists. reflexivity.
Defined.

(** ** Reconnect backoff, continued *)

Lemma pow2_floats (N : Z) :
  (0 <= N <= 1023)%Z ->
  (1 <=? nearest_float (2 ^ N))%float = true /\
  ((6 <= N)%Z ->
   (nearest_float WS_MAX_RECONNECT_DELAY <? nearest_float (2 ^ N))%float
   = true).
Proof.
  intros HN.
  assert (Hall : forallb
            (fun n =>
               (1 <=? nearest_float (2 ^ Z.of_nat n))%float &&
               ((n <? 6)%nat ||
                (nearest_float WS_MAX_RECONNECT_DELAY
                 <? nearest_float (2 ^ Z.of_nat n))%float))
            (seq 0 1024) = true) by (vm_compute; reflexivity).
  rewrite forallb_forall in Hall.
  specialize (Hall (Z.to_nat N)).
  rewrite Z2Nat.id in Hall by lia.
  assert (Hin : In (Z.to_nat N) (seq 0 1024)) by (apply in_seq; lia).
  apply Hall, andb_true_iff in Hin. destruct Hin as [H1 H6].
  split; [exact H1|]. intros H.
  apply orb_true_iff in H6. destruct H6 as [H6|H6]; [|exact H6].
  apply Nat.ltb_lt in H6. lia.
Qed.

(** X12: while the counter is at most 1023 and the jitter is not negative,
    the backoff sleeps at least one second and at most
    [WS_MAX_RECONNECT_DELAY] seconds, and adds one to the counter. *)
Theorem backoff_delay_bounds (self : HarviaWebSocket) (jitter : float) :
  (0 <= self.(_reconnect_attempts) <= 1023)%Z ->
  (0 <=? jitter)%float = true ->
  exists delay,
    backoff self jitter =
      (self <| _reconnect_attempts := (self.(_reconnect_attempts) + 1)%Z |>,
       Sleeping delay) /\
    (1 <=? delay)%float = true /\
    (delay <=? nearest_float WS_MAX_RECONNECT_DELAY)%float = true.
Proof.
  intros HN Hj. unfold backoff. rewrite (float_of_pow2 _ HN).
  eexists. split; [reflexivity|].
  destruct (pow2_floats _ HN) as [H1 _].
  set (curve := nearest_float (2 ^ _reconnect_attempts self)) in *.
  assert (H0 : (0 <=? curve)%float = true)
    by (apply (Binary64Order.leb_trans 0 1 curve); [reflexivity | exact H1]).
  unfold py_min.
  destruct (nearest_float WS_MAX_RECONNECT_DELAY <? curve + jitter)%float
    eqn:E.
  - split; reflexivity.
  - split.
    + apply (Binary64Order.leb_trans 1 curve); [exact H1|].
      apply Binary64.add_ge; assumption.
    + apply Binary64Order.leb_of_not_ltb;
        [apply Binary64.add_nonneg; assumption | reflexivity | exact E].
Qed.

Lemma backoff_delay_bounds_witness :
  exists delay,
    backoff tired_session 0.5 =
      (tired_session <| _reconnect_attempts := (3 + 1)%Z |>, Sleeping delay) /\
    (1 <=? delay)%float = true /\
    (delay <=? nearest_float WS_MAX_RECONNECT_DELAY)%float = true.
Proof.
  apply (backoff_delay_bounds tired_session 0.5);
    [vm_compute; split; discriminate | reflexivity].
Defined.

(** X13: from the sixth consecutive failure on, the backoff sleeps exactly
    [WS_MAX_RECONNECT_DELAY] seconds, whatever the jitter. *)
Theorem backoff_saturates (self : HarviaWebSocket) (jitter : float) :
  (6 <= self.(_reconnect_attempts) <= 1023)%Z ->
  (0 <=? jitter)%float = true ->
  backoff self jitter =
    (self <| _reconnect_attempts := (self.(_reconnect_attempts) + 1)%Z |>,
     Sleeping (nearest_float WS_MAX_RECONNECT_DELAY)).
Proof.
  intros HN Hj. unfold backoff.
  rewrite float_of_pow2 by lia.
  destruct (pow2_floats (_reconnect_attempts self)) as [H1 H6]; [lia|].
  set (curve := nearest_float (2 ^ _reconnect_attempts self)) in *.
  assert (H0 : (0 <=? curve)%float = true)
    by (apply (Binary64Order.leb_trans 0 1 curve); [reflexivity | exact H1]).
  unfold py_min.
  rewrite (Binary64Order.ltb_leb_trans _ curve (curve + jitter));
    [reflexivity | apply H6; lia | apply Binary64.add_ge; assumption].
Qed.

Lemma backoff_saturates_witness :
  backoff (tired_session <| _reconnect_attempts := 6%Z |>) 0.25 =
    (tired_session <| _reconnect_attempts := 7%Z |>,
     Sleeping (nearest_float WS_MAX_RECONNECT_DELAY)).
Proof.
  exact (backoff_saturates (tired_session <| _reconnect_attempts := 6%Z |>)
           0.25 ltac:(vm_compute; split; discriminate) eq_refl).
Defined.

Section Refused.

Variable json_decode : string -> option pyval.
Context {C : Type}.
Variable on_message : C -> string -> pyval -> C * option exn.

(** A pass in which the transport does not connect: the counter is not
    reset, and the backoff follows. *)
Lemma refused_pass (self : HarviaWebSocket) (c : C) (env : connect_env)
    (jitter : float) :
  self.(_running) = true ->
  connect_refused env = true ->
  exists self1,
    self1.(_running) = true /\
    self1.(_reconnect_attempts) = self.(_reconnect_attempts) /\
    async_run_pass json_decode on_message self c env jitter =
      (let '(self2, r) := backoff self1 jitter in (self2, c, r)).
Proof.
  intros Hrun Href. unfold async_run_pass, _async_connect_and_listen.
  rewrite Hrun. unfold connect_refused in Href.
  destruct (env_ws_info env) as [[]|e1].
  - destruct (env_url env) as [[]|e2].
    + destruct (env_connect env) as [[]|e3]; [discriminate|].
      exists (self <| _subscription_id := env_uuid env |>).
      destruct self as [ep rc us ws run n sid]; simpl in *. subst run.
      repeat split. destruct e3; try discriminate; reflexivity.
    + exists self. repeat split; try assumption.
      destruct e2; try discriminate; cbv iota beta; rewrite Hrun;
        reflexivity.
  - exists self. repeat split; try assumption.
    destruct e1; try discriminate; cbv iota beta; rewrite Hrun; reflexivity.
Qed.

(** X14: as long as the transport does not connect, the delays of
    [async_run] follow the exponential curve from the counter's value on,
    each capped at [WS_MAX_RECONNECT_DELAY], and the counter grows by one
    for each attempt, up to 1024; the attempt that finds the counter at
    1024 ends [async_run] with the [OverflowError] of
    [2 ** 1024 + random.uniform(0, 1)]. *)
Theorem refused_connects_back_off (envs : list (connect_env * float)) :
  forall (self : HarviaWebSocket) (c : C),
    self.(_running) = true ->
    (0 <= self.(_reconnect_attempts))%Z ->
    (self.(_reconnect_attempts) + Z.of_nat (length envs) <= 1024)%Z ->
    Forall (fun p => connect_refused p.1 = true) envs ->
    (exists self',
       run_passes json_decode on_message self c envs =
         (self', c, backoff_delays self.(_reconnect_attempts) (envs.*2),
          Connected) /\
       self'.(_running) = true /\
       self'.(_reconnect_attempts) =
         (self.(_reconnect_attempts) + Z.of_nat (length envs))%Z) /\
    ((self.(_reconnect_attempts) + Z.of_nat (length envs) = 1024)%Z ->
     forall (env : connect_env) (jitter : float),
       connect_refused env = true ->
       exists self',
         run_passes json_decode on_message self c (envs ++ [(env, jitter)]) =
           (self', c, backoff_delays self.(_reconnect_attempts) (envs.*2),
            Crashed OverflowError) /\
         self'.(_reconnect_attempts) = 1024%Z).
Proof.
  induction envs as [|[env jitter] envs IH]; intros self c Hrun H0 Hlen Hall.
  - split.
    + exists self. simpl. repeat split; [assumption | lia].
    + intros Hfull env jitter Href. cbn [length] in Hfull.
      destruct (refused_pass self c env jitter Hrun
                  Href) as (self1 & _ & Hn1 & Hpass).
      exists self1. cbn [app run_passes]. rewrite Hpass. unfold backoff.
      rewrite Hn1.
      replace (_reconnect_attempts self) with 1024%Z by lia.
      rewrite float_of_pow2_overflow. split; [reflexivity | lia].
  - apply Forall_cons in Hall. destruct Hall as [Href Hall]. simpl in Href.
    destruct (refused_pass self c env jitter Hrun Href)
      as (self1 & Hrun1 & Hn1 & Hpass).
    cbn [length] in Hlen.
    set (self2 := self1 <| _reconnect_attempts :=
                    (self.(_reconnect_attempts) + 1)%Z |>).
    assert (Hrun2 : self2.(_running) = true)
      by (destruct self1; exact Hrun1).
    assert (Hn2 : self2.(_reconnect_attempts)
                  = (self.(_reconnect_attempts) + 1)%Z)
      by (destruct self1; reflexivity).
    assert (Hstep : async_run_pass json_decode on_message self c env jitter =
              (self2, c,
               Sleeping
                 (py_min
                    (nearest_float (2 ^ self.(_reconnect_attempts)) + jitter)%float
                    (nearest_float WS_MAX_RECONNECT_DELAY)))).
    { rewrite Hpass. unfold backoff. rewrite Hn1.
      rewrite float_of_pow2 by lia. reflexivity. }
    destruct (IH self2 c Hrun2) as [(self' & Hpasses & Hrun' & Hn') Hover];
      [lia | lia | exact Hall |].
    split.
    + exists self'. cbn [run_passes]. rewrite Hstep, Hpasses, Hn', Hn2.
      cbn [fmap list_fmap snd].
      repeat split; [exact Hrun' | cbn [length]; lia].
    + intros Hfull env' jitter' Href'. cbn [length] in Hfull.
      destruct (Hover ltac:(lia) env' jitter' Href')
        as (self'' & Hpasses' & Hn'').
      exists self''. cbn [app run_passes].
      change ((fix app (l m : list (connect_env * float)) {struct l} :=
                 match l with
                 | [] => m
                 | a :: l1 => a :: app l1 m
                 end) envs [(env', jitter')])
        with (envs ++ [(env', jitter')]).
      rewrite Hstep, Hpasses', Hn2. cbn [fmap list_fmap snd].
      split; [reflexivity | exact Hn''].
Qed.

End Refused.

Lemma refused_connects_back_off_witness :
  (exists self',
     run_passes (fun _ => None) (fun (c : unit) _ _ => (c, None))
       tired_session tt [(unreachable, 0.5%float); (unreachable, 0.25%float)]
     = (self', tt, [8.5%float; 16.25%float], Connected) /\
     self'.(_running) = true /\
     self'.(_reconnect_attempts) = 5%Z) /\
  (exists self',
     run_passes (fun _ => None) (fun (c : unit) _ _ => (c, None))
       (tired_session <| _reconnect_attempts := 1023%Z |>) tt
       [(unreachable, 0.5%float); (unreachable, 0.25%float)]
     = (self', tt, [60%float], Crashed OverflowError) /\
     self'.(_reconnect_attempts) = 1024%Z).
Proof.
  split.
  - apply (refused_connects_back_off (fun _ => None)
             (fun (c : unit) _ _ => (c, None))
             [(unreachable, 0.5%float); (unreachable, 0.25%float)]
             tired_session tt);
      [reflexivity | vm_compute; discriminate | vm_compute; discriminate
      | repeat constructor ].
  - set (self := tired_session <| _reconnect_attempts := 1023%Z |>).
    apply (proj2 (refused_connects_back_off (fun _ => None)
             (fun (c : unit) _ _ => (c, None))
             [(unreachable, 0.5%float)] self tt
             eq_refl ltac:(vm_compute; discriminate)
             ltac:(vm_compute; discriminate) ltac:(repeat constructor))
             eq_refl unreachable 0.25%float eq_refl).
Defined.

(** ** The receive loop *)

Section Loop.

Variable json_decode : string -> option pyval.
Context {C : Type}.
Variable on_message : C -> string -> pyval -> C * option exn.

Lemma handle_frame_keepalive (self : HarviaWebSocket) (ls : listen_state)
    (c : C) (raw_message : string) (subscribe : result unit) :
  is_keepalive json_decode (RecvMessage raw_message subscribe) = true ->
  handle_frame json_decode on_message self ls c raw_message subscribe =
    (c, Ok (ls <| reconnect_timer :=
                    (ls.(reconnect_timer) + ls.(timeout))%float |>,
            if (nearest_float WS_RECONNECT_INTERVAL
                <=? ls.(reconnect_timer) + ls.(timeout))%float
            then Break else Continue)).
Proof.
  unfold is_keepalive, handle_frame, json_loads. intros H.
  destruct (json_decode raw_message) as [message|]; [|discriminate].
  destruct (py_get message "type") as [msg_type|]; [|discriminate].
  rewrite H. destruct ls as [t r]; simpl.
  destruct (_ <=? _)%float; reflexivity.
Qed.

(** The timer after one more keep-alive, and whether the loop goes on. *)
Lemma ka_state_step (k : nat) :
  (k < 6)%nat ->
  ((ka_state k).(reconnect_timer) + (ka_state k).(timeout))%float
  = (ka_state (S k)).(reconnect_timer) /\
  (nearest_float WS_RECONNECT_INTERVAL
   <=? (ka_state (S k)).(reconnect_timer))%float = (k =? 5)%nat.
Proof.
  intros Hk.
  do 6 (destruct k as [|k]; [split; reflexivity|]). lia.
Qed.

Lemma await_recv_keepalives (kas : list recv_event) :
  forall (self : HarviaWebSocket) (k : nat) (c : C) (receives : list float)
         (rest : list recv_event),
    self.(_running) = true ->
    Forall (fun ev => is_keepalive json_decode ev = true) kas ->
    (k + length kas < 6)%nat ->
    await_recv json_decode on_message self (ka_state k) c receives
      (kas ++ rest) =
    await_recv json_decode on_message self (ka_state (k + length kas)) c
      (receives ++ replicate (length kas) (nearest_float WS_HEARTBEAT_TIMEOUT))
      rest.
Proof.
  induction kas as [|ev kas IH]; intros self k c receives rest Hrun Hall Hk.
  - simpl. rewrite Nat.add_0_r, app_nil_r. reflexivity.
  - apply Forall_cons in Hall. destruct Hall as [Hev Hall].
    destruct ev as [| |e|raw subscribe|]; try discriminate Hev.
    cbn [app await_recv length] in *.
    rewrite (handle_frame_keepalive _ _ _ _ _ Hev).
    destruct (ka_state_step k) as [Hadd Hcmp]; [lia|].
    rewrite Hadd, Hcmp.
    replace (k =? 5)%nat with false by (symmetry; apply Nat.eqb_neq; lia).
    rewrite Hrun.
    replace ((ka_state k) <| reconnect_timer :=
               reconnect_timer (ka_state (S k)) |>) with (ka_state (S k))
      by reflexivity.
    rewrite IH by (try assumption; lia).
    replace (S k + length kas)%nat with (k + S (length kas))%nat by lia.
    rewrite <- app_assoc. reflexivity.
Qed.

(** X15: at the default timeout the receive loop breaks on the sixth
    keep-alive in a row, after [WS_RECONNECT_INTERVAL] seconds of counted
    timeouts, whatever follows; after fewer keep-alives it waits for the
    next frame with the timer at 300 seconds for each keep-alive.  Every
    wait up to there has the default timeout. *)
Theorem periodic_reconnect_on_sixth_keepalive (self : HarviaWebSocket)
    (c : C) (kas rest : list recv_event) :
  self.(_running) = true ->
  Forall (fun ev => is_keepalive json_decode ev = true) kas ->
  (length kas = 6%nat ->
   receive_loop json_decode on_message self initial_listen_state c
     (kas ++ rest) =
   mklistened LoopBreak self (ka_state 6) c
     (replicate 6 (nearest_float WS_HEARTBEAT_TIMEOUT))) /\
  ((length kas < 6)%nat ->
   receive_loop json_decode on_message self initial_listen_state c kas =
   mklistened LoopPending self (ka_state (length kas)) c
     (replicate (S (length kas)) (nearest_float WS_HEARTBEAT_TIMEOUT))).
Proof.
  intros Hrun Hall. unfold receive_loop. rewrite Hrun.
  change initial_listen_state with (ka_state 0).
  split; intros Hlen.
  - destruct (exists_last (l := kas)) as (kas' & ev & ->);
      [intros ->; discriminate Hlen|].
    rewrite length_app in Hlen. cbn [length] in Hlen.
    apply Forall_app in Hall. destruct Hall as [Hall Hev].
    apply Forall_cons in Hev. destruct Hev as [Hev _].
    rewrite <- app_assoc.
    rewrite (await_recv_keepalives kas' self 0) by (try assumption; lia).
    cbn [Nat.add]. replace (length kas') with 5%nat by lia.
    destruct ev as [| |e|raw subscribe|]; try discriminate Hev.
    cbn [app await_recv].
    rewrite (handle_frame_keepalive _ _ _ _ _ Hev).
    reflexivity.
  - rewrite <- (app_nil_r kas) at 1.
    rewrite (await_recv_keepalives kas self 0) by (try assumption; lia).
    reflexivity.
Qed.

(** What the loop does with the events after those of [pre], when it is
    still waiting after them. *)
Lemma await_recv_app (pre : list recv_event) :
  forall (self : HarviaWebSocket) (ls : listen_state) (c : C)
         (receives : list float) (more : list recv_event),
    listened_end
      (await_recv json_decode on_message self ls c receives pre)
    = LoopPending ->
    await_recv json_decode on_message self ls c receives (pre ++ more) =
    (let l := await_recv json_decode on_message self ls c receives pre in
     await_recv json_decode on_message l.(listened_self) l.(listened_state)
       l.(listened_callback) l.(listened_receives) more).
Proof.
  induction pre as [|ev pre IH]; intros self ls c receives more Hpending.
  - reflexivity.
  - destruct ev as [| |e|raw subscribe|]; cbn [app await_recv] in *;
      try discriminate Hpending.
    + destruct (handle_frame json_decode on_message self ls c raw subscribe)
        as [c' [[ls' [|]]|e]]; try discriminate Hpending.
      destruct (_running self); [|discriminate Hpending].
      apply IH, Hpending.
    + apply IH, Hpending.
Qed.

(** Once the session was told to stop, the loop starts no further wait and
    the session stays stopped; the loop is left by the next event that is
    not another stop request. *)
Lemma await_recv_stopped (post : list recv_event) :
  forall (self : HarviaWebSocket) (ls : listen_state) (c : C)
         (receives : list float),
    self.(_running) = false -> self.(_websocket) = false ->
    let l := await_recv json_decode on_message self ls c receives post in
    l.(listened_self).(_running) = false /\
    l.(listened_self).(_websocket) = false /\
    l.(listened_receives) = receives /\
    (l.(listened_end) = LoopPending <-> forallb is_stop_request post = true).
Proof.
  induction post as [|ev post IH]; intros self ls c receives Hrun Hws.
  - simpl. intuition.
  - destruct ev as [| |e|raw subscribe|]; cbn [await_recv forallb];
      try (simpl; intuition discriminate).
    + destruct (handle_frame json_decode on_message self ls c raw subscribe)
        as [c' [[ls' [|]]|e]]; try (simpl; intuition discriminate).
      rewrite Hrun. simpl. intuition discriminate.
    + assert (Hs : session_stop self = self)
        by (destruct self; simpl in *; subst; reflexivity).
      rewrite Hs. apply IH; assumption.
Qed.

(** X16: a stop request that reaches a session waiting in its receive loop
    ends it: whatever arrives afterwards, no further wait is started, the
    session is left stopped and without a connection, and [async_run]
    leaves its loop without a backoff as soon as the pending wait is over. *)
Theorem stop_request_ends_session (self : HarviaWebSocket) (c : C)
    (env : connect_env) (jitter : float) (pre post : list recv_event) :
  self.(_running) = true ->
  listens env = true ->
  env.(env_events) = pre ++ StopRequested :: post ->
  listened_end
    (receive_loop json_decode on_message (connected_session self env)
       initial_listen_state c pre) = LoopPending ->
  exists (self' : HarviaWebSocket) (c' : C),
    async_run_pass json_decode on_message self c env jitter =
      (self', c',
       if forallb is_stop_request post then Connected else Exited) /\
    self'.(_running) = false /\
    self'.(_websocket) = false /\
    (_async_connect_and_listen json_decode on_message self c env).2 =
    (receive_loop json_decode on_message (connected_session self env)
       initial_listen_state c pre).(listened_receives).
Proof.
  intros Hrun Hlistens Hevents Hpending.
  unfold listens, transport_connected in Hlistens.
  unfold async_run_pass, _async_connect_and_listen. rewrite Hrun.
  destruct (env_ws_info env) as [[]|]; [|discriminate].
  destruct (env_url env) as [[]|]; [|discriminate].
  destruct (env_connect env) as [[]|]; [|discriminate].
  destruct (env_send_init env) as [[]|]; [|discriminate].
  rewrite Hevents. fold (connected_session self env).
  assert (Hcrun : (connected_session self env).(_running) = true)
    by (destruct self; exact Hrun).
  unfold receive_loop in *. rewrite Hcrun in *.
  rewrite (await_recv_app _ _ _ _ _ _ Hpending). cbv zeta.
  set (l0 := await_recv json_decode on_message (connected_session self env)
               initial_listen_state c [timeout initial_listen_state] pre) in *.
  cbn [await_recv].
  destruct (await_recv_stopped post (session_stop (listened_self l0))
              (listened_state l0) (listened_callback l0)
              (listened_receives l0))
    as (Hr & Hw & Hrec & Hend);
    [destruct (listened_self l0); reflexivity
    |destruct (listened_self l0); reflexivity|].
  set (l := await_recv json_decode on_message
              (session_stop (listened_self l0)) (listened_state l0)
              (listened_callback l0) (listened_receives l0) post) in *.
  destruct (listened_end l) eqn:El.
  - exists ((listened_self l) <| _websocket := false |>), (listened_callback l).
    destruct (forallb is_stop_request post);
      [destruct Hend as [_ Hend]; discriminate (Hend eq_refl)|].
    destruct (listened_self l) as [ep rc us ws run n sid]; simpl in *.
    subst run. repeat split. exact Hrec.
  - exists ((listened_self l) <| _websocket := false |>), (listened_callback l).
    destruct (forallb is_stop_request post);
      [destruct Hend as [_ Hend]; discriminate (Hend eq_refl)|].
    destruct (listened_self l) as [ep rc us ws run n sid]; simpl in *.
    subst run. repeat split. exact Hrec.
  - exists (listened_self l), (listened_callback l).
    destruct (forallb is_stop_request post);
      [destruct Hend as [_ Hend]; discriminate (Hend eq_refl)|].
    rewrite Hr. repeat split; try assumption.
    destruct e; reflexivity.
  - exists (listened_self l), (listened_callback l).
    destruct Hend as [Hend _]. rewrite (Hend eq_refl).
    repeat split; assumption.
Qed.

End Loop.

Lemma periodic_reconnect_on_sixth_keepalive_witness :
  receive_loop decode_ka (fun (c : unit) _ _ => (c, None))
    reconnected_session initial_listen_state tt
    (replicate 6 (RecvMessage "ka" (Ok tt)) ++ [RecvTimeout]) =
  mklistened LoopBreak reconnected_session (ka_state 6) tt
    (replicate 6 (nearest_float WS_HEARTBEAT_TIMEOUT)) /\
  receive_loop decode_ka (fun (c : unit) _ _ => (c, None))
    reconnected_session initial_listen_state tt
    (replicate 2 (RecvMessage "ka" (Ok tt))) =
  mklistened LoopPending reconnected_session (ka_state 2) tt
    (replicate 3 (nearest_float WS_HEARTBEAT_TIMEOUT)).
Proof.
  split.
  - apply (proj1 (periodic_reconnect_on_sixth_keepalive decode_ka
                    (fun (c : unit) _ _ => (c, None)) reconnected_session tt
                    (replicate 6 (RecvMessage "ka" (Ok tt))) [RecvTimeout]
                    eq_refl ltac:(repeat constructor)) eq_refl).
  - apply (proj2 (periodic_reconnect_on_sixth_keepalive decode_ka
                    (fun (c : unit) _ _ => (c, None)) reconnected_session tt
                    (replicate 2 (RecvMessage "ka" (Ok tt))) []
                    eq_refl ltac:(repeat constructor))
             ltac:(simpl; lia)).
Defined.

Lemma stop_request_ends_session_witness :
  exists (self' : HarviaWebSocket) (c' : unit),
    async_run_pass decode_ka (fun (c : unit) _ _ => (c, None))
      tired_session tt stopped_cycle 0.5 =
      (self', c',
       if forallb is_stop_request [RecvTimeout] then Connected else Exited) /\
    self'.(_running) = false /\
    self'.(_websocket) = false /\
    (_async_connect_and_listen decode_ka (fun (c : unit) _ _ => (c, None))
       tired_session tt stopped_cycle).2 =
    (receive_loop decode_ka (fun (c : unit) _ _ => (c, None))
       (connected_session tired_session stopped_cycle)
       initial_listen_state tt
       [RecvMessage "ka" (Ok tt); RecvMessage "ka" (Ok tt)])
      .(listened_receives).
Proof.
  apply (stop_request_ends_session decode_ka
           (fun (c : unit) _ _ => (c, None)) tired_session tt stopped_cycle
           0.5 [RecvMessage "ka" (Ok tt); RecvMessage "ka" (Ok tt)]
           [RecvTimeout]); reflexivity.
Defined.

(** ** A push that cannot be decoded *)

(** X17: a data frame whose reported state is not JSON takes the
    connection down.  With a coordinator that holds data, [json.loads]
    raises inside the push handler, the exception leaves the callback and
    the receive loop, and [async_run] backs off before it reconnects: the
    counter having been reset on connecting, it sleeps
    [min(1 + jitter, WS_MAX_RECONNECT_DELAY)] seconds.  The coordinator is
    left as it was. *)
Theorem garbled_push_drops_the_connection (str_builtin : pyval -> string)
    (json_decode : string -> option pyval) (now jitter : float)
    (self : HarviaWebSocket) (coordinator : HarviaSaunaCoordinator)
    (env : connect_env) (rest : list recv_event) (subscribe : result unit)
    (raw reported : string) (message payload payload_data body : dict) :
  self.(_running) = true ->
  listens env = true ->
  env.(env_events) = RecvMessage raw subscribe :: rest ->
  is_Some coordinator.(data) ->
  json_decode raw = Some (PDict message) ->
  message !! "type" = Some (PStr "data") ->
  message !! "payload" = Some (PDict payload) ->
  payload !! "data" = Some (PDict payload_data) ->
  payload_data !! "onStateUpdated" = Some (PDict body) ->
  body !! "reported" = Some (PStr reported) ->
  reported <> "" ->
  json_decode reported = None ->
  async_run_pass json_decode
    (manager_on_message str_builtin json_decode now) self coordinator env
    jitter =
  ((connected_session self env) <| _reconnect_attempts := 1%Z |>,
   coordinator,
   Sleeping (py_min (1 + jitter)%float
               (nearest_float WS_MAX_RECONNECT_DELAY))).
Proof.
  intros Hrun Hlistens Hev [sd Hsd] Hraw Hty Hpl Hpd Hst Hrep Hne Hbad.
  unfold listens, transport_connected in Hlistens.
  unfold async_run_pass, _async_connect_and_listen. rewrite Hrun.
  destruct (env_ws_info env) as [[]|]; [|discriminate].
  destruct (env_url env) as [[]|]; [|discriminate].
  destruct (env_connect env) as [[]|]; [|discriminate].
  destruct (env_send_init env) as [[]|]; [|discriminate].
  rewrite Hev. fold (connected_session self env).
  assert (Hcrun : (connected_session self env).(_running) = true)
    by (destruct self; exact Hrun).
  unfold receive_loop. rewrite Hcrun. cbn [await_recv].
  assert (Hcb : manager_on_message str_builtin json_decode now coordinator
                  (connected_session self env).(_endpoint) (PDict message)
                = (coordinator, Some JSONDecodeError)).
  { unfold manager_on_message, _handle_message, _async_handle_ws_update,
      handle_ws_update.
    cbn [py_get py_get_default py_getitem py_in mbind result_bind].
    rewrite Hty. cbn [py_eq_str String.eqb Ascii.eqb Bool.eqb].
    rewrite Hpl. cbn [mbind result_bind py_get_default].
    rewrite Hpd. cbn [mbind result_bind]. rewrite Hsd.
    cbn [py_in mbind result_bind]. rewrite Hst.
    rewrite bool_decide_eq_true_2 by (eexists; reflexivity).
    cbn [py_getitem py_get py_get_default mbind result_bind].
    rewrite Hst. cbn [mbind result_bind py_get py_get_default].
    rewrite Hrep.
    cbn [mbind result_bind py_bool].
    destruct (String.eqb reported "") eqn:E;
      [apply String.eqb_eq in E; contradiction|].
    cbn [negb json_loads]. rewrite Hbad. reflexivity. }
  unfold handle_frame, json_loads. rewrite Hraw.
  cbn [py_get py_get_default]. rewrite Hty.
  cbn [py_eq_str String.eqb Ascii.eqb Bool.eqb]. rewrite Hcb.
  cbn [listened_end listened_self listened_callback]. rewrite Hcrun.
  unfold backoff, connected_session.
  destruct self as [ep rc us ws run n sid]; reflexivity.
Qed.

Lemma garbled_push_drops_the_connection_witness :
  async_run_pass (decode_one garbled_frame (PDict garbled_message))
    (manager_on_message (fun _ => "")
       (decode_one garbled_frame (PDict garbled_message)) 400)
    tired_session heating_coordinator garbled_cycle 0.5 =
  ((connected_session tired_session garbled_cycle)
     <| _reconnect_attempts := 1%Z |>,
   heating_coordinator,
   Sleeping (py_min (1 + 0.5)%float
               (nearest_float WS_MAX_RECONNECT_DELAY))).
Proof.
  apply (garbled_push_drops_the_connection (fun _ => "")
           (decode_one garbled_frame (PDict garbled_message)) 400 0.5
           tired_session heating_coordinator garbled_cycle [RecvTimeout]
           (Ok tt) garbled_frame "{oops" garbled_message
           {[ "data" :=
                PDict {[ "onStateUpdated" :=
                           PDict {[ "reported" := PStr "{oops" ]} ]} ]}
           {[ "onStateUpdated" := PDict {[ "reported" := PStr "{oops" ]} ]}
           {[ "reported" := PStr "{oops" ]});
    try reflexivity; [eexists; reflexivity | discriminate].
Defined.

(** ** The manager *)

(** Once the user data is there, [async_start_fetching] is
    [async_start]. *)
Lemma async_start_fetched (self : HarviaWebSocketManager)
    (organization_id email : string) (uuid : nat -> string) :
  async_start_fetching self (Ok (organization_id, email)) uuid =
  Done (async_start self organization_id email uuid).
Proof.
  unfold async_start_fetching, async_start.
  destruct self as [conns tasks [|]]; reflexivity.
Qed.

(** X18: [async_start] marks the manager running before it fetches the
    user data.  If that fetch raises, the manager is left running with the
    connections it had, and every later [async_start] returns at once
    without creating a connection, whatever the cloud would answer. *)
Theorem failed_start_blocks_restart (self : HarviaWebSocketManager)
    (e : exn) (uuid uuid' : nat -> string)
    (user_data' : result (string * string)) :
  self.(manager_running) = false ->
  exists stuck,
    async_start_fetching self (Raise e) uuid = Raised e stuck /\
    stuck.(_connections) = self.(_connections) /\
    stuck.(_tasks) = self.(_tasks) /\
    async_start_fetching stuck user_data' uuid' = Done stuck.
Proof.
  intros H. destruct self as [conns tasks run]. simpl in H. subst run.
  eexists. split; [reflexivity|]. repeat split.
Qed.

Lemma failed_start_blocks_restart_witness :
  exists stuck,
    async_start_fetching HarviaWebSocketManager_init
      (Raise HarviaConnectionError) (fun _ => "uuid") = 
    Raised HarviaConnectionError stuck /\
    stuck.(_connections) = HarviaWebSocketManager_init.(_connections) /\
    stuck.(_tasks) = HarviaWebSocketManager_init.(_tasks) /\
    async_start_fetching stuck (Ok ("org-1", "user@example.org"))
      (fun _ => "uuid") = Done stuck.
Proof.
  apply (failed_start_blocks_restart HarviaWebSocketManager_init
           HarviaConnectionError (fun _ => "uuid") (fun _ => "uuid")
           (Ok ("org-1", "user@example.org"))).
  reflexivity.
Defined.

(** ** The cloud API *)

Section Api.

Variable str_builtin : pyval -> string.
Variable json_decode : string -> option pyval.

(** X19: a response to the device-tree query that lacks ["data"], or
    ["getDeviceTree"] in it, or whose tree decodes to a falsy value, gives
    the empty device list and raises nothing; the poll over no device
    succeeds with an empty container, so that no entity is available
    afterwards. *)
Theorem missing_tree_empties_the_poll (response : dict)
    (self : HarviaSaunaCoordinator) :
  no_tree json_decode response ->
  api.async_get_device_tree json_decode (Ok (PDict response)) = Ok (PList [])
  /\
  _async_update_data str_builtin self (Ok []) = Updated HarviaSaunaData_init
  /\
  forall (super_available : bool) (device_id : string),
    entity.available super_available
      (async_refresh str_builtin self (Ok [])) device_id = false.
Proof.
  intros H. split; [|split].
  - unfold api.async_get_device_tree. simpl.
    destruct H as [H | (data & Hd & H)].
    + rewrite H. reflexivity.
    + rewrite Hd. simpl.
      destruct H as [H | (raw & tree & Ht & Hj & Hb)].
      * rewrite H. reflexivity.
      * rewrite Ht. simpl. rewrite Hj. simpl. rewrite Hb. reflexivity.
  - reflexivity.
  - intros b id. unfold entity.available. simpl.
    rewrite lookup_empty. simpl. apply andb_false_r.
Qed.

(** X20: a response whose ["data"] is null makes the device-tree query
    raise [TypeError], and the poll turns that into an [UpdateFailed] whose
    message is that of the clause for an unexpected error,
    [f"Error fetching data: {err}"], with this [TypeError] as [err]. *)
Theorem null_data_fails_the_poll (response : dict)
    (self : HarviaSaunaCoordinator) :
  response !! "data" = Some PNone ->
  api.async_get_device_tree json_decode (Ok (PDict response))
  = Raise TypeError /\
  _async_update_data str_builtin self (Raise TypeError)
  = UpdateFailed (Formatted "Error fetching data" TypeError).
Proof.
  intros H. split; [|reflexivity].
  unfold api.async_get_device_tree. simpl. rewrite H. reflexivity.
Qed.

(** X21: the latest-data query stamps the telemetry with the envelope's
    [timestamp] and [type], over whatever the data inside carries, and a
    record the telemetry is applied to takes that timestamp.  Unlike the
    push handler, the query insists on both keys: without one of them it
    raises [KeyError]. *)
Theorem latest_data_timestamp (response data latest telemetry : dict)
    (raw : string) :
  response !! "data" = Some (PDict data) ->
  data !! "getLatestData" = Some (PDict latest) ->
  latest !! "data" = Some (PStr raw) ->
  json_decode raw = Some (PDict telemetry) ->
  match latest !! "timestamp", latest !! "type" with
  | Some ts, Some ty =>
      api.async_get_latest_device_data json_decode (Ok (PDict response)) =
      Ok (PDict (<["type" := ty]> (<["timestamp" := ts]> telemetry))) /\
      forall (now : float) (d d' : HarviaDeviceData),
        _apply_telemetry_data now d
          (<["type" := ty]> (<["timestamp" := ts]> telemetry)) = Done d' ->
        d'.(timestamp) = ts
  | _, _ =>
      api.async_get_latest_device_data json_decode (Ok (PDict response)) =
      Raise KeyError
  end.
Proof.
  intros Hr Hd Hl Hj.
  unfold api.async_get_latest_device_data. simpl.
  rewrite Hr. simpl. rewrite Hd. simpl. rewrite Hl. simpl. rewrite Hj. simpl.
  destruct (latest !! "timestamp") as [ts|]; simpl; [|reflexivity].
  destruct (latest !! "type") as [ty|]; simpl; [|reflexivity].
  split; [reflexivity|].
  intros now d d'. apply telemetry_timestamp.
  rewrite lookup_insert_ne by discriminate. apply lookup_insert_eq.
Qed.

End Api.

Lemma missing_tree_empties_the_poll_witness :
  api.async_get_device_tree (fun _ => None)
    (Ok (PDict {[ "errors" := PList [PStr "Unauthorized"] ]})) = Ok (PList [])
  /\
  _async_update_data (fun _ => "") heating_coordinator (Ok [])
  = Updated HarviaSaunaData_init
  /\
  forall (super_available : bool) (device_id : string),
    entity.available super_available
      (async_refresh (fun _ => "") heating_coordinator (Ok [])) device_id
    = false.
Proof.
  apply (missing_tree_empties_the_poll (fun _ => "") (fun _ => None)
           {[ "errors" := PList [PStr "Unauthorized"] ]} heating_coordinator).
  left. reflexivity.
Defined.

Lemma null_data_fails_the_poll_witness :
  api.async_get_device_tree (fun _ => None)
    (Ok (PDict {[ "data" := PNone;
                  "errors" := PList [PStr "Unauthorized"] ]}))
  = Raise TypeError /\
  _async_update_data (fun _ => "") heating_coordinator (Raise TypeError)
  = UpdateFailed (Formatted "Error fetching data" TypeError).
Proof.
  apply (null_data_fails_the_poll (fun _ => "") (fun _ => None)
           {[ "data" := PNone; "errors" := PList [PStr "Unauthorized"] ]}
           heating_coordinator).
  reflexivity.
Defined.

Lemma latest_data_timestamp_witness :
  api.async_get_latest_device_data
    (decode_one pushed_data (PDict pushed_telemetry))
    (Ok (PDict latest_response)) =
  Ok (PDict (<["type" := PStr "SAUNA"]>
               (<["timestamp" := PStr "1700000000123"]> pushed_telemetry)))
  /\
  forall (now : float) (d d' : HarviaDeviceData),
    _apply_telemetry_data now d
      (<["type" := PStr "SAUNA"]>
         (<["timestamp" := PStr "1700000000123"]> pushed_telemetry))
    = Done d' ->
    d'.(timestamp) = PStr "1700000000123".
Proof.
  exact (latest_data_timestamp
           (decode_one pushed_data (PDict pushed_telemetry))
           latest_response
           {[ "getLatestData" :=
                PDict (<["type" := PStr "SAUNA"]> pushed_item) ]}
           (<["type" := PStr "SAUNA"]> pushed_item)
           pushed_telemetry pushed_data
           eq_refl eq_refl eq_refl eq_refl).
Defined.

(** The endpoints the loop fetches without an exception are in the
    cache, one after the other. *)
Lemma fetch_endpoints_all (fetch : string -> result pyval)
    (users device events data : pyval) :
  fetch "users" = Ok users -> fetch "device" = Ok device ->
  fetch "events" = Ok events -> fetch "data" = Ok data ->
  api.fetch_endpoints fetch ENDPOINTS ∅ =
  (<["data" := data]> (<["events" := events]> (<["device" := device]>
     (<["users" := users]> ∅))), None).
Proof.
  intros Hu Hd He Ha. simpl. rewrite Hu, Hd, He, Ha. reflexivity.
Qed.

(** X22: once every endpoint was fetched, the client keeps the four
    answers: [async_get_endpoints] returns them, and every later call
    returns the same mapping without asking the cloud again. *)
Theorem endpoints_fetched_once (self : api.HarviaApiClient)
    (fetch fetch' : string -> result pyval) :
  self.(api._endpoints) = None ->
  (forall endpoint, In endpoint ENDPOINTS ->
     exists response, fetch endpoint = Ok response) ->
  exists endpoints,
    api.async_get_endpoints self fetch =
      (self <| api._endpoints := Some endpoints |>, Ok endpoints) /\
    (forall endpoint, In endpoint ENDPOINTS ->
       exists response,
         fetch endpoint = Ok response /\
         endpoints !! endpoint = Some response) /\
    api.async_get_endpoints (self <| api._endpoints := Some endpoints |>)
      fetch' =
      (self <| api._endpoints := Some endpoints |>, Ok endpoints).
Proof.
  intros Hnone Hall.
  destruct (Hall "users") as (users & Hu); [simpl; tauto|].
  destruct (Hall "device") as (device & Hd); [simpl; tauto|].
  destruct (Hall "events") as (events & He); [simpl; tauto|].
  destruct (Hall "data") as (data & Ha); [simpl; tauto|].
  eexists. unfold api.async_get_endpoints. rewrite Hnone.
  rewrite (fetch_endpoints_all fetch users device events data Hu Hd He Ha).
  split; [reflexivity|]. split; [|reflexivity].
  intros endpoint [<- | [<- | [<- | [<- | []]]]];
    eexists; (split; [eassumption | reflexivity]).
Qed.

Lemma endpoints_fetched_once_witness :
  exists endpoints,
    api.async_get_endpoints api.HarviaApiClient_init all_up =
      (api.HarviaApiClient_init <| api._endpoints := Some endpoints |>,
       Ok endpoints) /\
    (forall endpoint, In endpoint ENDPOINTS ->
       exists response,
         all_up endpoint = Ok response /\
         endpoints !! endpoint = Some response) /\
    api.async_get_endpoints
      (api.HarviaApiClient_init <| api._endpoints := Some endpoints |>)
      events_down =
      (api.HarviaApiClient_init <| api._endpoints := Some endpoints |>,
       Ok endpoints).
Proof.
  apply (endpoints_fetched_once api.HarviaApiClient_init all_up events_down);
    [reflexivity|].
  intros endpoint _. eexists. reflexivity.
Defined.

Lemma fetch_endpoints_lacks (fetch : string -> result pyval)
    (todo : list string) (endpoint : string) (err : exn) :
  fetch endpoint = Raise err -> In endpoint todo ->
  forall endpoints : dict,
    endpoints !! endpoint = None ->
    exists e,
      (api.fetch_endpoints fetch todo endpoints).2 = Some e /\
      (is_Exception e = true -> e = HarviaConnectionError) /\
      (api.fetch_endpoints fetch todo endpoints).1 !! endpoint = None.
Proof.
  intros Hf. induction todo as [|x todo IH]; intros Hin endpoints Hl.
  - destruct Hin.
  - simpl. destruct (fetch x) as [response|e0] eqn:Ex.
    + destruct Hin as [-> | Hin]; [congruence|].
      apply (IH Hin). rewrite lookup_insert_ne; [exact Hl|].
      intros ->. congruence.
    + simpl. eexists. split; [reflexivity|]. split; [|exact Hl].
      destruct e0; simpl; intros H; try reflexivity; discriminate H.
Qed.

(** X23: [async_get_endpoints] sets the cache before it fetches.  If a
    fetch fails on the first call, the call raises, for an [Exception]
    always [HarviaConnectionError], but the incomplete cache stays: every
    later call returns it as if it were the answer, without asking the
    cloud again, and the endpoint that failed is not in it, so that looking
    up its URL raises [KeyError]. *)
Theorem endpoints_failure_is_cached (self : api.HarviaApiClient)
    (fetch fetch' : string -> result pyval) (endpoint : string) (err : exn) :
  self.(api._endpoints) = None ->
  In endpoint ENDPOINTS ->
  fetch endpoint = Raise err ->
  exists partial e,
    api.async_get_endpoints self fetch =
      (self <| api._endpoints := Some partial |>, Raise e) /\
    (is_Exception e = true -> e = HarviaConnectionError) /\
    api.async_get_endpoints (self <| api._endpoints := Some partial |>)
      fetch' =
      (self <| api._endpoints := Some partial |>, Ok partial) /\
    api.endpoint_url partial endpoint = Raise KeyError.
Proof.
  intros Hnone Hin Hf.
  destruct (fetch_endpoints_lacks fetch ENDPOINTS endpoint err Hf Hin ∅
              (lookup_empty _)) as (e & He & Hc & Hl).
  unfold api.async_get_endpoints. rewrite Hnone.
  destruct (api.fetch_endpoints fetch ENDPOINTS ∅) as [partial raised].
  simpl in He, Hl. subst raised.
  exists partial, e. repeat split; try assumption.
  unfold api.endpoint_url. rewrite Hl. reflexivity.
Qed.

Lemma endpoints_failure_is_cached_witness :
  exists partial e,
    api.async_get_endpoints api.HarviaApiClient_init events_down =
      (api.HarviaApiClient_init <| api._endpoints := Some partial |>,
       Raise e) /\
    (is_Exception e = true -> e = HarviaConnectionError) /\
    api.async_get_endpoints
      (api.HarviaApiClient_init <| api._endpoints := Some partial |>) all_up =
      (api.HarviaApiClient_init <| api._endpoints := Some partial |>,
       Ok partial) /\
    api.endpoint_url partial "events" = Raise KeyError.
Proof.
  apply (endpoints_failure_is_cached api.HarviaApiClient_init events_down
           all_up "events" TimeoutError);
    [reflexivity | simpl; tauto | reflexivity].
Defined.

(** ** The entities *)

(** X24: after a poll whose fetches all succeed, an entity is available
    exactly if the device tree names its device, the coordinator's last
    update having succeeded; and an available entity always finds its
    record. *)
Theorem availability_follows_the_poll (str_builtin : pyval -> string)
    (self : HarviaSaunaCoordinator) (device_tree : list device_entry)
    (device_id : string) :
  Forall entry_fetched device_tree ->
  (entity.available true (async_refresh str_builtin self (Ok device_tree))
     device_id = true <->
   Exists (fun entry => entry.(entry_name) = Ok device_id) device_tree) /\
  (forall super_available : bool,
     entity.available super_available
       (async_refresh str_builtin self (Ok device_tree)) device_id = true ->
     is_Some
       (entity._get_device_data
          (async_refresh str_builtin self (Ok device_tree)) device_id)).
Proof.
  intros Hall.
  destruct (poll_devices_result str_builtin device_tree Hall
              HarviaSaunaData_init) as (sd & Hp & _ & Hk & _).
  unfold async_refresh, _async_update_data. simpl. rewrite Hp. simpl.
  unfold entity.available, entity._get_device_data.
  destruct self as [config dat]. destruct sd as [devs av]. simpl in *.
  split.
  - rewrite bool_decide_eq_true, Hk, lookup_empty. split.
    + intros [H | H]; [destruct H as [? H]; discriminate H | exact H].
    + intros H. right. exact H.
  - intros b H. apply andb_true_iff in H. destruct H as [_ H].
    apply bool_decide_eq_true in H. exact H.
Qed.

Lemma availability_follows_the_poll_witness :
  (entity.available true
     (async_refresh (fun _ => "") heating_coordinator heating_poll)
     "sauna-1" = true <->
   Exists (fun entry => entry.(entry_name) = Ok "sauna-1")
     [ {| entry_name := Ok "sauna-1";
          entry_state := Ok ∅;
          entry_telemetry := Ok {[ "heatOn" := PBool true ]};
          entry_now := 400%float |} ]) /\
  (forall super_available : bool,
     entity.available super_available
       (async_refresh (fun _ => "") heating_coordinator heating_poll)
       "sauna-1" = true ->
     is_Some
       (entity._get_device_data
          (async_refresh (fun _ => "") heating_coordinator heating_poll)
          "sauna-1")).
Proof.
  apply (availability_follows_the_poll (fun _ => "") heating_coordinator
           [ {| entry_name := Ok "sauna-1";
                entry_state := Ok ∅;
                entry_telemetry := Ok {[ "heatOn" := PBool true ]};
                entry_now := 400%float |} ] "sauna-1").
  repeat constructor; simpl; eauto.
Defined.

(** X25: the model the entities show for their device is the title the
    config flow gave the entry: for every form of the heater step that
    creates an entry, and every coordinator that holds the entry's data,
    [device_info] builds the same string as [async_step_heater], the power
    not being the empty string. *)
Theorem model_string_is_entry_title
    (flow : config_flow.HarviaSaunaConfigFlow)
    (user_input entry_data : gmap string string) (unique : result unit)
    (title : string) (coordinator : HarviaSaunaCoordinator)
    (device_id : string) :
  config_flow.async_step_heater flow (Some user_input) unique =
    Ok (config_flow.create_entry title entry_data) ->
  user_input !! CONF_HEATER_POWER <> Some "" ->
  coordinator.(config_entry) = entry_data ->
  (entity.device_info coordinator device_id).(entity.model) = title.
Proof.
  unfold config_flow.async_step_heater, config_flow.input_getitem.
  destruct (py_getitem _ "email") as [email|];
    cbn [mbind result_bind]; [|discriminate].
  destruct unique as [[]|]; cbn [mbind result_bind]; [|discriminate].
  destruct (user_input !! CONF_HEATER_MODEL) as [model_key|] eqn:Em;
    cbn [mbind result_bind]; [|discriminate].
  destruct (user_input !! CONF_HEATER_POWER) as [power|] eqn:Ep;
    cbn [mbind result_bind]; [|discriminate].
  intros H Hne Hc. injection H as <- <-.
  unfold entity.device_info. cbv zeta. cbn [entity.model]. rewrite Hc.
  rewrite (lookup_union_Some_l _ _ _ _ Em), (lookup_union_Some_l _ _ _ _ Ep).
  cbn [default from_option id].
  destruct (String.eqb power "") eqn:E; [|reflexivity].
  apply String.eqb_eq in E. subst power. contradiction.
Qed.

Lemma model_string_is_entry_title_witness :
  (entity.device_info
     {| config_entry := heater_input ∪ config_flow._user_input flow_after_login;
        data := None |} "sauna-1").(entity.model) = "Harvia Cilindro 9.0 kW".
Proof.
  apply (model_string_is_entry_title flow_after_login heater_input
           (heater_input ∪ config_flow._user_input flow_after_login)
           (Ok tt) "Harvia Cilindro 9.0 kW"
           {| config_entry :=
                heater_input ∪ config_flow._user_input flow_after_login;
              data := None |} "sauna-1");
    [reflexivity | discriminate | reflexivity].
Defined.

(** An optimistic update that writes what the state delta of the same
    payload would write. *)
Lemma command_echo (str_builtin : pyval -> string)
    (coordinator : HarviaSaunaCoordinator) (sd : HarviaSaunaData)
    (device_id : string) (device : HarviaDeviceData)
    (request : string -> dict -> result unit) (payload : dict)
    (update : HarviaDeviceData -> HarviaDeviceData) :
  coordinator.(data) = Some sd ->
  sd.(devices) !! device_id = Some device ->
  request device_id payload = Ok tt ->
  update device = _apply_state_data str_builtin device payload ->
  command coordinator device_id request payload update =
  (Done (coordinator
           <| data :=
                Some (store_device sd device_id
                        (_apply_state_data str_builtin device payload)) |>),
   true).
Proof.
  intros Hd Hl Hr Hu. unfold command, update_device.
  rewrite Hr, Hd, Hl, Hu. reflexivity.
Qed.

Lemma from_key_singleton {B : Type} (key key' : string) (v : pyval)
    (g : pyval -> B) (old : B) :
  from_key {[ key := v ]} key' g old =
  if String.eqb key key' then g v else old.
Proof.
  unfold from_key. destruct (String.eqb_spec key key') as [-> | Hne].
  - rewrite lookup_singleton_eq. reflexivity.
  - rewrite lookup_singleton_ne by assumption. reflexivity.
Qed.

(** X26: the optimistic update of a switch is the echo of its command.
    For each of the eight switches, turning it on or off sends a payload
    and, the request having succeeded, leaves in the record of the device
    what [_apply_state_data] would leave on receiving that payload as a
    reported state; the switch then reads the new value. *)
Theorem switch_optimistic_is_echo (str_builtin : pyval -> string)
    (description : switch.HarviaSwitchDescription)
    (coordinator : HarviaSaunaCoordinator) (sd : HarviaSaunaData)
    (device_id : string) (device : HarviaDeviceData)
    (request : string -> dict -> result unit) (on : bool) :
  In description switch.SWITCH_DESCRIPTIONS ->
  coordinator.(data) = Some sd ->
  sd.(devices) !! device_id = Some device ->
  request device_id (switch.turn_payload description on) = Ok tt ->
  (if on then switch.async_turn_on description coordinator device_id request
   else switch.async_turn_off description coordinator device_id request)
  = (Done (echoed str_builtin coordinator sd device_id device
             (switch.turn_payload description on)), true) /\
  switch.is_on description
    (echoed str_builtin coordinator sd device_id device
       (switch.turn_payload description on)) device_id = Some on.
Proof.
  intros Hin Hd Hl Hr.
  assert (Hu : switch.setattr (switch.state_attr description) on device =
               _apply_state_data str_builtin device
                 (switch.turn_payload description on)).
  { unfold switch.turn_payload. rewrite apply_state_fields.
    unfold state_fields. rewrite !from_key_singleton.
    destruct device.
    repeat (destruct Hin as [<- | Hin]; [destruct on; reflexivity|]).
    destruct Hin. }
  unfold echoed. split.
  - destruct on; unfold switch.async_turn_on, switch.async_turn_off;
      apply command_echo; assumption.
  - unfold switch.is_on, entity._get_device_data.
    destruct coordinator as [config dat]. destruct sd as [devs av].
    unfold store_device. cbv [apply_update constant devices data].
    cbn [data devices]. rewrite lookup_insert_eq, <- Hu.
    destruct device.
    repeat (destruct Hin as [<- | Hin]; [reflexivity|]).
    destruct Hin.
Qed.

Lemma switch_optimistic_is_echo_witness :
  switch.async_turn_on light_switch heating_coordinator "sauna-1" accepted
  = (Done (echoed (fun _ => "") heating_coordinator heating_data "sauna-1"
             heating_record (switch.turn_payload light_switch true)), true)
  /\
  switch.is_on light_switch
    (echoed (fun _ => "") heating_coordinator heating_data "sauna-1"
       heating_record (switch.turn_payload light_switch true)) "sauna-1"
  = Some true.
Proof.
  apply (switch_optimistic_is_echo (fun _ => "") light_switch
           heating_coordinator heating_data "sauna-1" heating_record
           accepted true);
    [right; left; reflexivity | reflexivity | reflexivity | reflexivity].
Defined.

(** X27: the optimistic update of a number is the echo of its command.
    For each of the three numbers, setting a value sends its integer part
    and, the request having succeeded, leaves in the record what
    [_apply_state_data] would leave on receiving that payload as a reported
    state; the number then reads the integer that was sent. *)
Theorem number_optimistic_is_echo (str_builtin : pyval -> string)
    (description : number.HarviaNumberDescription)
    (coordinator : HarviaSaunaCoordinator) (sd : HarviaSaunaData)
    (device_id : string) (device : HarviaDeviceData)
    (request : string -> dict -> result unit) (value : float) (n : Z) :
  In description number.NUMBER_DESCRIPTIONS ->
  coordinator.(data) = Some sd ->
  sd.(devices) !! device_id = Some device ->
  py_int_float value = Ok n ->
  request device_id {[ number.api_key description := PInt n ]} = Ok tt ->
  number.async_set_native_value description coordinator device_id request
    value
  = (Done (echoed str_builtin coordinator sd device_id device
             {[ number.api_key description := PInt n ]}), true) /\
  number.native_value description
    (echoed str_builtin coordinator sd device_id device
       {[ number.api_key description := PInt n ]}) device_id
  = Some (PInt n).
Proof.
  intros Hin Hd Hl Hn Hr.
  assert (Hu : number.setattr (number.state_attr description) (PInt n) device
               = _apply_state_data str_builtin device
                   {[ number.api_key description := PInt n ]}).
  { rewrite apply_state_fields.
    unfold state_fields. rewrite !from_key_singleton.
    destruct device.
    repeat (destruct Hin as [<- | Hin]; [reflexivity|]).
    destruct Hin. }
  unfold echoed. split.
  - unfold number.async_set_native_value. rewrite Hn.
    apply command_echo; assumption.
  - unfold number.native_value, entity._get_device_data.
    destruct coordinator as [config dat]. destruct sd as [devs av].
    unfold store_device. cbv [apply_update constant devices data].
    cbn [data devices]. rewrite lookup_insert_eq, <- Hu.
    destruct device.
    repeat (destruct Hin as [<- | Hin]; [reflexivity|]).
    destruct Hin.
Qed.

Lemma number_optimistic_is_echo_witness :
  number.async_set_native_value humidity_number heating_coordinator
    "sauna-1" accepted 55.75
  = (Done (echoed (fun _ => "") heating_coordinator heating_data "sauna-1"
             heating_record {[ "targetRh" := PInt 55 ]}), true) /\
  number.native_value humidity_number
    (echoed (fun _ => "") heating_coordinator heating_data "sauna-1"
       heating_record {[ "targetRh" := PInt 55 ]}) "sauna-1"
  = Some (PInt 55).
Proof.
  apply (number_optimistic_is_echo (fun _ => "") humidity_number
           heating_coordinator heating_data "sauna-1" heating_record
           accepted 55.75 55);
    [left; reflexivity | reflexivity | reflexivity | reflexivity
    | reflexivity].
Defined.

(** X28: the optimistic updates of the thermostat are the echoes of its
    commands.  Setting a temperature sends its integer part as
    [targetTemp], setting a mode sends [active] as 1 for [HEAT] and as 0 for
    every other mode; the request having succeeded, the record holds what
    [_apply_state_data] would leave on receiving that payload as a reported
    state, and the thermostat reads the value back: the mode is [HEAT] or
    [OFF], whatever mode was asked for. *)
Theorem climate_optimistic_is_echo (str_builtin : pyval -> string)
    (coordinator : HarviaSaunaCoordinator) (sd : HarviaSaunaData)
    (device_id : string) (device : HarviaDeviceData)
    (request : string -> dict -> result unit) :
  coordinator.(data) = Some sd ->
  sd.(devices) !! device_id = Some device ->
  (forall (temperature : float) (n : Z),
     py_int_float temperature = Ok n ->
     request device_id {[ "targetTemp" := PInt n ]} = Ok tt ->
     climate.async_set_temperature coordinator device_id request
       (Some temperature)
     = (Done (echoed str_builtin coordinator sd device_id device
                {[ "targetTemp" := PInt n ]}), true) /\
     climate.target_temperature
       (echoed str_builtin coordinator sd device_id device
          {[ "targetTemp" := PInt n ]}) device_id = PInt n) /\
  (forall hvac_mode : climate.HVACMode,
     request device_id
       {[ "active" := PInt (if climate.is_HEAT hvac_mode then 1 else 0) ]}
     = Ok tt ->
     climate.async_set_hvac_mode coordinator device_id request hvac_mode
     = (Done (echoed str_builtin coordinator sd device_id device
                {[ "active" :=
                     PInt (if climate.is_HEAT hvac_mode then 1 else 0) ]}),
        true) /\
     climate.hvac_mode
       (echoed str_builtin coordinator sd device_id device
          {[ "active" :=
               PInt (if climate.is_HEAT hvac_mode then 1 else 0) ]})
       device_id
     = if climate.is_HEAT hvac_mode then climate.HEAT else climate.OFF).
Proof.
  intros Hd Hl. split.
  - intros temperature n Hn Hr.
    assert (Hu : device <| target_temp := PInt n |> =
                 _apply_state_data str_builtin device
                   {[ "targetTemp" := PInt n ]}).
    { rewrite apply_state_fields.
      unfold state_fields. rewrite !from_key_singleton.
      destruct device. reflexivity. }
    unfold echoed. split.
    + unfold climate.async_set_temperature. rewrite Hn.
      apply command_echo; assumption.
    + unfold climate.target_temperature, entity._get_device_data.
      destruct coordinator as [config dat]. destruct sd as [devs av].
      unfold store_device. cbv [apply_update constant devices data].
      cbn [data devices]. rewrite lookup_insert_eq, <- Hu.
      destruct device. reflexivity.
  - intros hvac_mode Hr.
    assert (Hu : device <| active := climate.is_HEAT hvac_mode |> =
                 _apply_state_data str_builtin device
                   {[ "active" :=
                        PInt (if climate.is_HEAT hvac_mode then 1 else 0) ]}).
    { rewrite apply_state_fields.
      unfold state_fields. rewrite !from_key_singleton.
      destruct device. destruct (climate.is_HEAT hvac_mode); reflexivity. }
    unfold echoed. split.
    + unfold climate.async_set_hvac_mode. cbv zeta.
      apply command_echo; assumption.
    + unfold climate.hvac_mode, entity._get_device_data.
      destruct coordinator as [config dat]. destruct sd as [devs av].
      unfold store_device. cbv [apply_update constant devices data].
      cbn [data devices]. rewrite lookup_insert_eq, <- Hu.
      destruct device. reflexivity.
Qed.

Lemma climate_optimistic_is_echo_witness :
  (climate.async_set_temperature heating_coordinator "sauna-1" accepted
     (Some 85.5%float)
   = (Done (echoed (fun _ => "") heating_coordinator heating_data
              "sauna-1" heating_record {[ "targetTemp" := PInt 85 ]}),
      true) /\
   climate.target_temperature
     (echoed (fun _ => "") heating_coordinator heating_data "sauna-1"
        heating_record {[ "targetTemp" := PInt 85 ]}) "sauna-1" = PInt 85) /\
  (climate.async_set_hvac_mode heating_coordinator "sauna-1" accepted
     climate.COOL
   = (Done (echoed (fun _ => "") heating_coordinator heating_data
              "sauna-1" heating_record {[ "active" := PInt 0 ]}), true) /\
   climate.hvac_mode
     (echoed (fun _ => "") heating_coordinator heating_data "sauna-1"
        heating_record {[ "active" := PInt 0 ]}) "sauna-1"
   = climate.OFF).
Proof.
  destruct (climate_optimistic_is_echo (fun _ => "") heating_coordinator
              heating_data "sauna-1" heating_record accepted
              eq_refl eq_refl) as [Ht Hm].
  split.
  - apply (Ht 85.5%float 85%Z); reflexivity.
  - apply (Hm climate.COOL). reflexivity.
Defined.
